(** * Feedback pipeline of the serverless backend: handlers and their contracts

    A shallow embedding of the five Lambda handlers that make up the feedback
    pipeline (postFeedback, processFeedback, searchRecommendations,
    updateRecommendation, deleteRecommendations), followed by theorems about
    them.

    Conventions.
    - A JavaScript string is a [string]; one [ascii] stands for one UTF-16
      code unit, so only code units below 256 are represented.
    - A JavaScript number is a [Z]: every number the handlers create
      themselves (Date.now(), parseInt, getTime, array indices) is an
      integer.  NaN only arises from parseInt and getTime, where the code
      tests it at once; it is modelled by [None] at those two places.
    - [undefined] is the [None] of an [option Value].
    - console.log / console.error have no effect on a response, on the
      table or on the topic, and are left out. *)

From Stdlib Require Import ZArith Ascii String List Bool Lia DecimalString.
From stdpp Require Import base option list gmap strings sorting.

Set Default Proof Using "Type".
#[local] Set Warnings "-register-all,-abstract-large-number".

(* ===================================================================== *)
(** ** JavaScript values and the built-ins the handlers use *)
(* ===================================================================== *)

Module JS.

(** What JSON.parse can return (and what the DynamoDB document client
    stores): null, booleans, numbers, strings, arrays, objects.  An object
    keeps its properties as an association list; the first binding of a
    name is the one a property read sees. *)
Inductive Value : Type :=
| VNull
| VBool (b : bool)
| VNum (n : Z)
| VStr (s : string)
| VArr (elems : list Value)
| VObj (props : list (string * Value)).

(** Errors that can be thrown. *)
Inductive ExnKind := SyntaxError | TypeError | PlainError | ServiceException.

Record Exn := mkExn { exn_kind : ExnKind; message : string }.

(** The result of a computation that may throw. *)
Definition Res (A : Type) : Type := Exn + A.

Definition dq : string := String "034"%char EmptyString.
Definition nl : string := String "010"%char EmptyString.
Definition squote : string := String "039"%char EmptyString.

(** *** Truthiness, typeof, Array.isArray *)

(** [!v] is false exactly for these. *)
Definition truthy (v : Value) : bool :=
  match v with
  | VNull => false
  | VBool b => b
  | VNum n => negb (n =? 0)%Z
  | VStr s => negb (String.eqb s "")
  | VArr _ => true
  | VObj _ => true
  end.

(** Truthiness of a possibly undefined value. *)
Definition truthy_opt (o : option Value) : bool :=
  match o with
  | Some v => truthy v
  | None => false
  end.

(** [a || b] where [a] may be undefined and [b] is a value. *)
Definition or_else (o : option Value) (d : Value) : Value :=
  match o with
  | Some v => if truthy v then v else d
  | None => d
  end.

Definition isArray (v : Value) : bool :=
  match v with
  | VArr _ => true
  | _ => false
  end.

Definition isArray_opt (o : option Value) : bool :=
  match o with
  | Some v => isArray v
  | None => false
  end.

(** *** Property reads *)

Fixpoint assoc {A : Type} (k : string) (l : list (string * A)) : option A :=
  match l with
  | [] => None
  | (k', v) :: rest => if String.eqb k k' then Some v else assoc k rest
  end.

(** [obj[k] = v] on a plain object: overwrite in place when the property
    exists, append otherwise. *)
Fixpoint assoc_set {A : Type} (k : string) (v : A) (l : list (string * A))
  : list (string * A) :=
  match l with
  | [] => [(k, v)]
  | (k', v') :: rest =>
      if String.eqb k k' then (k, v) :: rest else (k', v') :: assoc_set k v rest
  end.

(** V8's messages for a property read on null and for destructuring null. *)
Definition null_read_message (k : string) : string :=
  ("Cannot read properties of null (reading " ++ squote ++ k ++ squote ++ ")")%string.

Definition destructure_message (k src : string) : string :=
  ("Cannot destructure property " ++ squote ++ k ++ squote ++ " of " ++ squote
   ++ src ++ squote ++ " as it is null.")%string.

(** [const { k, ... } = src]: a TypeError when the value is null; the
    properties are then read with [get_opt]. *)
Definition destructurable (v : Value) (k src : string) : Res unit :=
  match v with
  | VNull => inl (mkExn TypeError (destructure_message k src))
  | _ => inr tt
  end.

(** [v.k] for a property name [k] that no prototype defines (all names the
    handlers read are of that kind): a TypeError on null, the own property
    of an object, undefined on everything else. *)
Definition get (v : Value) (k : string) : Res (option Value) :=
  match v with
  | VNull => inl (mkExn TypeError (null_read_message k))
  | VObj props => inr (assoc k props)
  | _ => inr None
  end.

(** [o?.k] on a possibly undefined [o]. *)
Definition get_opt (o : option Value) (k : string) : option Value :=
  match o with
  | Some (VObj props) => assoc k props
  | _ => None
  end.

(** [o?.[0]]: element 0 of an array, the first character of a string,
    property "0" of an object. *)
Definition get0_opt (o : option Value) : option Value :=
  match o with
  | Some (VArr elems) => head elems
  | Some (VStr (String c _)) => Some (VStr (String c EmptyString))
  | Some (VObj props) => assoc "0" props
  | _ => None
  end.

(** *** Strings *)

(** WhiteSpace and LineTerminator code units below 256. *)
Definition is_space (c : ascii) : bool :=
  let n := nat_of_ascii c in
  ((9 <=? n) && (n <=? 13) || (n =? 32) || (n =? 160))%nat.

Fixpoint trimStart (s : string) : string :=
  match s with
  | String c rest => if is_space c then trimStart rest else s
  | EmptyString => EmptyString
  end.

(** Drops trailing white space: a character is kept when it is not a space
    or when something is kept after it. *)
Fixpoint trimEnd (s : string) : string :=
  match s with
  | String c rest =>
      match trimEnd rest with
      | EmptyString => if is_space c then EmptyString else String c EmptyString
      | kept => String c kept
      end
  | EmptyString => EmptyString
  end.

Definition trim (s : string) : string := trimEnd (trimStart s).

(** [s.substring(0, n)] *)
Fixpoint substring0 (n : nat) (s : string) : string :=
  match n, s with
  | S n', String c rest => String c (substring0 n' rest)
  | _, _ => EmptyString
  end.

Fixpoint starts_with (p s : string) : bool :=
  match p, s with
  | EmptyString, _ => true
  | String a p', String b s' => Ascii.eqb a b && starts_with p' s'
  | String _ _, EmptyString => false
  end.

(** [s.includes(p)] *)
Fixpoint includes (p s : string) : bool :=
  starts_with p s ||
  match s with
  | String _ rest => includes p rest
  | EmptyString => false
  end.

(** [s.replace(/p\n?/g, '')] for a literal, non-empty [p]: scanning from the
    left, every occurrence of [p] is dropped together with one line feed
    right after it.  [skip] counts the characters of the current match that
    are still to be dropped. *)
Fixpoint remove_all_from (p : string) (skip : nat) (s : string) : string :=
  match s with
  | EmptyString => EmptyString
  | String c rest =>
      match skip with
      | S k => remove_all_from p k rest
      | O =>
          if starts_with p s then
            let after := String.length p - 1 in
            let lf := starts_with (p ++ nl) s in
            remove_all_from p (after + (if lf then 1 else 0)) rest
          else String c (remove_all_from p 0 rest)
      end
  end.

Definition remove_all (p s : string) : string := remove_all_from p 0 s.

(** [s.split(',')] *)
Fixpoint split_comma (s : string) : list string :=
  match s with
  | EmptyString => [EmptyString]
  | String c rest =>
      if Ascii.eqb c ","%char then EmptyString :: split_comma rest
      else match split_comma rest with
           | w :: ws => String c w :: ws
           | [] => [String c EmptyString]
           end
  end.

(** *** Numbers and conversions *)

(** Decimal rendering of an integer, as Number.prototype.toString gives it
    (integers below 10^21 print without an exponent). *)
Definition string_of_Z (n : Z) : string :=
  NilZero.string_of_int (Z.to_int n).

(** The value of a digit character in the given radix. *)
Definition digit_value (radix : Z) (c : ascii) : option Z :=
  let n := Z.of_nat (nat_of_ascii c) in
  let d :=
    (if (48 <=? n) && (n <=? 57) then Some (n - 48)
     else if (97 <=? n) && (n <=? 122) then Some (n - 87)
     else if (65 <=? n) && (n <=? 90) then Some (n - 55)
     else None)%Z in
  match d with
  | Some k => if (k <? radix)%Z then Some k else None
  | None => None
  end.

(** The longest prefix of digits, read as a number; [acc] is [None] until a
    digit has been seen. *)
Fixpoint digits_prefix (radix : Z) (acc : option Z) (s : string) : option Z :=
  match s with
  | EmptyString => acc
  | String c rest =>
      match digit_value radix c with
      | Some d => digits_prefix radix (Some (default 0 acc * radix + d)%Z) rest
      | None => acc
      end
  end.

(** The Number nearest to an integer: itself up to 2^53 in magnitude,
    beyond that the nearest integer with 53 significant bits, a tie going
    to the even one.  (Past the range of doubles JS gives Infinity, which
    no handler tells from any other number too large for the store; it is
    kept here as the rounded integer.) *)
Definition to_double (n : Z) : Z :=
  let a := Z.abs n in
  if (a <? 2 ^ 53)%Z then n
  else
    let e := (Z.log2 a - 52)%Z in
    let q := Z.shiftr a e in
    let r := (a - Z.shiftl q e)%Z in
    let half := (2 ^ (e - 1))%Z in
    let q' := if (half <? r)%Z || ((r =? half)%Z && Z.odd q) then (q + 1)%Z else q in
    (Z.sgn n * Z.shiftl q' e)%Z.

(** [parseInt(s)] without a radix; [None] is NaN.  Leading white space is
    skipped, a sign is read, a 0x or 0X prefix selects radix 16; the
    result is a Number, so a long run of digits is rounded. *)
Definition parseInt (s : string) : option Z :=
  let s1 := trimStart s in
  let '(sign, s2) :=
    match s1 with
    | String "-" rest => ((-1)%Z, rest)
    | String "+" rest => (1%Z, rest)
    | _ => (1%Z, s1)
    end in
  let '(radix, s3) :=
    match s2 with
    | String "0" (String "x" rest) => (16%Z, rest)
    | String "0" (String "X" rest) => (16%Z, rest)
    | _ => (10%Z, s2)
    end in
  match digits_prefix radix None s3 with
  | Some n => Some (to_double (sign * n))
  | None => None
  end.

(** [parseInt(x)] where [x] may be undefined: "undefined" has no digits. *)
Definition parseInt_opt (o : option string) : option Z :=
  match o with
  | Some s => parseInt s
  | None => None
  end.

(** V8's message when an object cannot be converted to a primitive. *)
Definition to_primitive_message : string :=
  "Cannot convert object to primitive value".

(** [String(v)], also the conversion a template literal applies.  An array
    joins its elements with commas, null elements giving the empty string.
    An object parsed from JSON has no callable property, so an own property
    named toString hides Object.prototype.toString and the conversion
    throws; any other object prints as [object Object]. *)
Fixpoint ToString (v : Value) : Res string :=
  match v with
  | VNull => inr "null"
  | VBool true => inr "true"
  | VBool false => inr "false"
  | VNum n => inr (string_of_Z n)
  | VStr s => inr s
  | VArr elems =>
      (fix join (l : list Value) : Res string :=
         match l with
         | [] => inr ""
         | x :: rest =>
             match (match x with VNull => inr "" | _ => ToString x end) with
             | inl e => inl e
             | inr sx =>
                 match rest with
                 | [] => inr sx
                 | _ :: _ =>
                     match join rest with
                     | inl e => inl e
                     | inr sr => inr (sx ++ "," ++ sr)
                     end
                 end
             end
         end) elems
  | VObj props =>
      match assoc "toString" props with
      | Some _ => inl (mkExn TypeError to_primitive_message)
      | None => inr "[object Object]"
      end
  end%string.

(** Structural equality of values: what DynamoDB's [=] and [contains]
    compare with, and SameValueZero on strings. *)
Fixpoint Value_eqb (a b : Value) : bool :=
  match a, b with
  | VNull, VNull => true
  | VBool x, VBool y => Bool.eqb x y
  | VNum x, VNum y => (x =? y)%Z
  | VStr x, VStr y => String.eqb x y
  | VArr xs, VArr ys =>
      (fix all2 (l1 l2 : list Value) : bool :=
         match l1, l2 with
         | [], [] => true
         | x :: l1', y :: l2' => Value_eqb x y && all2 l1' l2'
         | _, _ => false
         end) xs ys
  | VObj xs, VObj ys =>
      (fix all2 (l1 l2 : list (string * Value)) : bool :=
         match l1, l2 with
         | [], [] => true
         | (k1, x) :: l1', (k2, y) :: l2' =>
             String.eqb k1 k2 && Value_eqb x y && all2 l1' l2'
         | _, _ => false
         end) xs ys
  | _, _ => false
  end.

(** [arr.includes(v)] for an array literal of strings. *)
Definition includes_str (arr : list string) (o : option Value) : bool :=
  match o with
  | Some (VStr s) => existsb (String.eqb s) arr
  | _ => false
  end.

(** *** The runtime's library functions

    JSON.parse, JSON.stringify, String.prototype.toLowerCase, Date parsing
    and Date.prototype.toISOString belong to the Node.js runtime, not to the
    repository.  The handlers are written against this interface and every
    theorem below holds for each implementation of it. *)
Class Runtime := {
  (** [JSON.parse(text)]: the value, or the SyntaxError it throws *)
  JSON_parse : string -> Res Value;
  (** [JSON.stringify(v)] *)
  JSON_stringify : Value -> string;
  (** [s.toLowerCase()] *)
  toLowerCase : string -> string;
  (** [new Date(s).getTime()]; [None] is NaN *)
  Date_getTime : string -> option Z;
  (** [new Date(ms).toISOString()] *)
  toISOString : Z -> string
}.

End JS.

(* ===================================================================== *)
(** ** The services around the handlers *)
(* ===================================================================== *)

Module Cloud.
Import JS.

(** A DynamoDB item: attribute name to value. *)
Abbreviation Item := (list (string * Value)).

(** The Recommendations table of DynamoDBConstruct: partition key
    [userId] (STRING), sort key [timestamp] (NUMBER); one item per key. *)
Abbreviation Key := (string * Z)%type.
Abbreviation Table := (gmap (string * Z) (list (string * Value))).

(** The primary key an item would be stored under; [None] when a key
    attribute is missing or of the wrong type. *)
Definition key_of (item : Item) : option Key :=
  match assoc "userId" item, assoc "timestamp" item with
  | Some (VStr u), Some (VNum t) => Some (u, t)
  | _, _ => None
  end.

Definition key_attrs (k : Key) : Item :=
  [("userId", VStr (fst k)); ("timestamp", VNum (snd k))].

(** One conjunct of a FilterExpression, as searchRecommendations builds
    them: [#a >= :n], [#a <= :n], [#a = :v], and the parenthesised
    [contains(#a, :v0) OR contains(#a, :v1) OR ...]. *)
Inductive Cond :=
| CGe (attr : string) (n : Z)
| CLe (attr : string) (n : Z)
| CEq (attr : string) (v : Value)
| CContainsAny (attr : string) (vs : list Value).

(** DynamoDB's [contains(path, operand)]: a substring test on a string
    attribute, an element test on a list attribute, false otherwise. *)
Definition contains (a : option Value) (operand : Value) : bool :=
  match a, operand with
  | Some (VStr s), VStr p => includes p s
  | Some (VArr elems), _ => existsb (Value_eqb operand) elems
  | _, _ => false
  end.

Definition eval_cond (c : Cond) (item : Item) : bool :=
  match c with
  | CGe a n => match assoc a item with Some (VNum x) => (n <=? x)%Z | _ => false end
  | CLe a n => match assoc a item with Some (VNum x) => (x <=? n)%Z | _ => false end
  | CEq a v => match assoc a item with Some x => Value_eqb x v | None => false end
  | CContainsAny a vs => existsb (contains (assoc a item)) vs
  end.

(** [filterExpressions.join(' AND ')]: every conjunct must hold. *)
Definition eval_filter (cs : list Cond) (item : Item) : bool :=
  forallb (fun c => eval_cond c item) cs.

Record QueryInput := {
  q_userId : string;            (* KeyConditionExpression userId = :userId *)
  q_filter : list Cond;         (* FilterExpression, absent when empty *)
  q_names : option (list (string * string));
                                (* ExpressionAttributeNames, when given *)
  q_forward : bool;             (* ScanIndexForward, true when not given *)
  q_keys_only : bool            (* ProjectionExpression 'userId, #ts' *)
}.

Inductive DynamoCommand :=
| PutCommand (item : Item)
| GetCommand (key : Key)
| UpdateCommand (key : Key) (sets : list (string * Value))
| QueryCommand (input : QueryInput)
| BatchWriteCommand (deletes : list (option Value * option Value)).

(** The body of InvokeModel: anthropic_version "bedrock-2023-05-31",
    max_tokens, temperature (0.7, kept in tenths) and one user message. *)
Record InvokeInput := {
  modelId : string;
  max_tokens : Z;
  temperature_tenths : Z;
  content : string
}.

Record PublishInput := {
  TopicArn : string;
  Message : string;
  Subject : string;
  attr_userId : string;         (* MessageAttributes.userId.StringValue *)
  attr_timestamp : string       (* MessageAttributes.timestamp.StringValue *)
}.

(** What the outside world answers.  Each service is asked a sequence of
    requests; an environment fixes the answer to the n-th one. *)
Record Env := {
  (** the n-th reading of the wall clock, in epoch milliseconds *)
  clock : nat -> Z;
  (** the n-th InvokeModel call: it rejects, or returns the response body
      as TextDecoder decodes it *)
  bedrock_send : nat -> InvokeInput -> Res string;
  (** whether the n-th DynamoDB command is rejected, and with what error
      (throttling, network, a validation other than that of the key
      types) *)
  dynamo_fault : nat -> DynamoCommand -> option Exn;
  (** the n-th SNS Publish: it rejects, or returns the MessageId *)
  sns_send : nat -> PublishInput -> Res string;
  (** process.env *)
  SNS_TOPIC_ARN : string;
  BEDROCK_MODEL_ID : string;
  NODE_ENV : string
}.

(** The state the handlers act on. *)
Record World := {
  table : Table;
  clock_reads : nat;
  bedrock_log : list InvokeInput;      (* InvokeModel calls, oldest first *)
  dynamo_log : list DynamoCommand;     (* DynamoDB commands, oldest first *)
  sns_log : list PublishInput          (* Publish calls, oldest first *)
}.

Definition set_table (t : Table) (w : World) : World :=
  {| table := t; clock_reads := clock_reads w; bedrock_log := bedrock_log w;
     dynamo_log := dynamo_log w; sns_log := sns_log w |}.

(** *** Computations that read the clock, call services and may throw *)

Definition M (A : Type) : Type := World -> Res A * World.

Definition ret {A} (a : A) : M A := fun w => (inr a, w).
Definition throw {A} (e : Exn) : M A := fun w => (inl e, w).

Definition bind {A B} (c : M A) (k : A -> M B) : M B :=
  fun w =>
    match c w with
    | (inr a, w') => k a w'
    | (inl e, w') => (inl e, w')
    end.

(** [try { c } catch (e) { h e }] *)
Definition try_catch {A} (c : M A) (h : Exn -> M A) : M A :=
  fun w =>
    match c w with
    | (inr a, w') => (inr a, w')
    | (inl e, w') => h e w'
    end.

(** A pure step that may throw. *)
Definition lift {A} (r : Res A) : M A := fun w => (r, w).

Declare Scope js_scope.
Delimit Scope js_scope with js.
Notation "'let*' x ':=' c 'in' k" := (bind c (fun x => k))
  (at level 10, x pattern, c at level 100, k at level 200) : js_scope.
Notation "c ';;;' k" := (bind c (fun _ => k))
  (at level 100, k at level 200, right associativity) : js_scope.
Local Open Scope js_scope.

Section Services.
Context (E : Env).

(** [Date.now()], also the instant [new Date()] captures. *)
Definition Date_now : M Z :=
  fun w =>
    (inr (clock E (clock_reads w)),
     {| table := table w; clock_reads := S (clock_reads w);
        bedrock_log := bedrock_log w; dynamo_log := dynamo_log w;
        sns_log := sns_log w |}).

(** [bedrockClient.send(new InvokeModelCommand(input))], followed by the
    decoding of the response body. *)
Definition invoke_model (input : InvokeInput) : M string :=
  fun w =>
    (bedrock_send E (length (bedrock_log w)) input,
     {| table := table w; clock_reads := clock_reads w;
        bedrock_log := bedrock_log w ++ [input]; dynamo_log := dynamo_log w;
        sns_log := sns_log w |}).

(** [snsClient.send(new PublishCommand(input))] *)
Definition sns_publish (input : PublishInput) : M string :=
  fun w =>
    (sns_send E (length (sns_log w)) input,
     {| table := table w; clock_reads := clock_reads w;
        bedrock_log := bedrock_log w; dynamo_log := dynamo_log w;
        sns_log := sns_log w ++ [input] |}).

(** The order of the sort key. *)
Definition by_timestamp (a b : Key * Item) : Prop := (snd (fst a) <= snd (fst b))%Z.

#[local] Instance by_timestamp_dec a b : Decision (by_timestamp a b).
Proof. unfold by_timestamp. apply _. Defined.

(** The items of one partition in sort-key order. *)
Definition partition (u : string) (t : Table) : list (Key * Item) :=
  merge_sort by_timestamp
    (filter (fun kv => fst (fst kv) = u) (map_to_list t)).

(** What a Query returns: the partition, ascending or descending, with the
    filter applied and the projection taken.  The whole partition is
    returned in one page. *)
Definition run_query (q : QueryInput) (t : Table) : list Item :=
  let rows := partition (q_userId q) t in
  let rows := if q_forward q then rows else reverse rows in
  let rows := filter (fun kv => eval_filter (q_filter q) (snd kv) = true) rows in
  map (fun kv => if q_keys_only q then key_attrs (fst kv) else snd kv) rows.

(** SET name = value, one assignment after the other. *)
Definition apply_sets (sets : list (string * Value)) (item : Item) : Item :=
  fold_left (fun it kv => assoc_set (fst kv) (snd kv) it) sets item.

(** The attribute a condition is about. *)
Definition cond_attr (c : Cond) : string :=
  match c with
  | CGe a _ | CLe a _ | CEq a _ | CContainsAny a _ => a
  end.

(** The attributes of the primary key, as DynamoDBConstruct declares the
    table. *)
Definition key_schema : list string := ["userId"; "timestamp"].

(** What the service refuses in a Query before it reads anything: an
    ExpressionAttributeNames map that is given but empty, and a
    FilterExpression that names an attribute of the primary key (key
    attributes belong in the KeyConditionExpression). *)
Definition query_refused (q : QueryInput) : option Exn :=
  match q_names q with
  | Some [] =>
      Some (mkExn ServiceException "ExpressionAttributeNames must not be empty")
  | _ =>
      match find (fun c => existsb (String.eqb (cond_attr c)) key_schema)
              (q_filter q) with
      | Some c =>
          Some (mkExn ServiceException
                  ("Filter Expression can only contain non-primary key attributes: "
                   ++ "Primary key attribute: " ++ cond_attr c))
      | None => None
      end
  end.

(** The key a DeleteRequest names, when it is well typed. *)
Definition delete_key (d : option Value * option Value) : option Key :=
  match d with
  | (Some (VStr u), Some (VNum t)) => Some (u, t)
  | _ => None
  end.

Definition validation_error : Exn :=
  mkExn ServiceException "One or more parameter values were invalid".

(** What the service replies: nothing of interest, an item or none
    (Get, Update with ReturnValues ALL_NEW), a list of items (Query). *)
Inductive DynamoReply :=
| RNone
| RItem (item : option Item)
| RItems (items : list Item).

(** The effect of a command the service accepts: the new table and the
    reply.  A Put stores the item under its own key, in place of any item
    already there; an Update changes the named attributes of the item at
    the key (creating it from the key attributes when absent) and returns
    it whole; a Query is answered unless the service refuses it as
    malformed; a BatchWrite carries out every DeleteRequest.  A key
    attribute of the wrong type is a validation error.  All commands go to
    the one table named by DYNAMODB_TABLE_NAME. *)
Definition run_command (c : DynamoCommand) (t : Table) : Res (Table * DynamoReply) :=
  match c with
  | PutCommand item =>
      match key_of item with
      | Some k => inr (<[k := item]> t, RNone)
      | None => inl validation_error
      end
  | GetCommand k => inr (t, RItem (t !! k))
  | UpdateCommand k sets =>
      let item := apply_sets sets (default (key_attrs k) (t !! k)) in
      inr (<[k := item]> t, RItem (Some item))
  | QueryCommand q =>
      match query_refused q with
      | Some e => inl e
      | None => inr (t, RItems (run_query q t))
      end
  | BatchWriteCommand ds =>
      match mapM delete_key ds with
      | Some ks => inr (fold_left (fun t' k => delete k t') ks t, RNone)
      | None => inl validation_error
      end
  end.

(** [docClient.send(command)] *)
Definition dynamo_send (c : DynamoCommand) : M DynamoReply :=
  fun w =>
    let w' := {| table := table w; clock_reads := clock_reads w;
                 bedrock_log := bedrock_log w; dynamo_log := dynamo_log w ++ [c];
                 sns_log := sns_log w |} in
    match dynamo_fault E (length (dynamo_log w)) c with
    | Some e => (inl e, w')
    | None =>
        match run_command c (table w) with
        | inr (t, r) => (inr r, set_table t w')
        | inl e => (inl e, w')
        end
    end.

End Services.

(** An API Gateway proxy event, reduced to what the handlers read. *)
Record ApiEvent := {
  (** event.requestContext?.authorizer?.claims?.sub *)
  sub : option string;
  (** event.pathParameters?.timestamp *)
  path_timestamp : option string;
  (** event.queryStringParameters, null when the URL has no query *)
  queryStringParameters : option (gmap string string);
  (** event.body, null when the request has none *)
  body : option string
}.

(** An API Gateway proxy response.  [body] is the object handed to
    JSON.stringify, properties whose value is undefined left out (as
    JSON.stringify leaves them out); the CORS headers are constant. *)
Record Response := {
  statusCode : Z;
  response_body : Value
}.

(** [event.body || '{}'] *)
Definition body_or_empty (b : option string) : string :=
  match b with
  | Some s => if String.eqb s "" then "{}" else s
  | None => "{}"
  end.

(** [result.Items || []] *)
Definition items_of (r : DynamoReply) : list Item :=
  match r with
  | RItems items => items
  | _ => []
  end.

(** [existingItem.Item], [result.Attributes] *)
Definition item_of (r : DynamoReply) : option Item :=
  match r with
  | RItem item => item
  | _ => None
  end.

(** [!userId] for the caller identity. *)
Definition no_user (u : option string) : bool :=
  match u with
  | Some s => String.eqb s ""
  | None => true
  end.

(** A property to include only when its value is defined. *)
Definition field (k : string) (o : option Value) : list (string * Value) :=
  match o with
  | Some v => [(k, v)]
  | None => []
  end.

Definition error_response (code : Z) (error msg : string) : Response :=
  {| statusCode := code;
     response_body := VObj [("error", VStr error); ("message", VStr msg)] |}.

(** The 500 response of every handler: [details] carries the error's
    message in development only. *)
Definition internal_error (E : Env) (msg : string) (e : Exn) : Response :=
  {| statusCode := 500;
     response_body :=
       VObj ([("error", VStr "Internal Server Error"); ("message", VStr msg)]
             ++ field "details"
                  (if String.eqb (NODE_ENV E) "development"
                   then Some (VStr (message e)) else None)) |}.

Definition unauthorized : Response :=
  error_response 401 "Unauthorized" "User ID not found in authentication context".

End Cloud.

(* ===================================================================== *)
(** ** Submission intake: lambdas/postFeedback.js *)
(* ===================================================================== *)

Module PostFeedback.
Import JS Cloud.
Local Open Scope js_scope.

Section Handler.
Context {RT : Runtime} (E : Env).

Definition bad_request (msg : string) : Response :=
  error_response 400 "Bad Request" msg.

(** The object published to the topic. *)
Definition envelope (userId trimmed : string) (now : Z)
    (tags feedbackType : option Value) : Value :=
  VObj [("userId", VStr userId);
        ("feedback", VStr trimmed);
        ("timestamp", VNum now);
        ("tags", or_else tags (VArr []));
        ("feedbackType", or_else feedbackType (VStr "general"))].

Definition publish_input (userId : string) (now : Z) (msg : Value) : PublishInput :=
  {| TopicArn := SNS_TOPIC_ARN E;
     Message := JSON_stringify msg;
     Subject := "Feedback Recommendation Request";
     attr_userId := userId;
     attr_timestamp := string_of_Z now |}.

Definition accepted (mid : string) : Response :=
  {| statusCode := 202;
     response_body :=
       VObj [("message", VStr "Feedback submitted successfully for processing");
             ("messageId", VStr mid);
             ("status", VStr "processing")] |}.

(** The validated request: everything after the body has been parsed. *)
Definition submit (userId : string) (requestBody : Value) : M Response :=
  lift (destructurable requestBody "feedback" "requestBody") ;;;
  let feedback := get_opt (Some requestBody) "feedback" in
  let tags := get_opt (Some requestBody) "tags" in
  let feedbackType := get_opt (Some requestBody) "feedbackType" in
  match feedback with
  | Some (VStr text) =>
      (* !feedback || feedback.trim().length === 0 *)
      if String.eqb text "" || (Z.of_nat (String.length (trim text)) =? 0)%Z then
        ret (bad_request "Feedback text is required and must be a non-empty string")
      else if (10000 <? Z.of_nat (String.length text))%Z then
        ret (bad_request "Feedback text must not exceed 10,000 characters")
      else if (match tags with Some t => negb (isArray t) | None => false end) then
        ret (bad_request "Tags must be an array of strings")
      else
        let* now := Date_now E in
        let msg := envelope userId (trim text) now tags feedbackType in
        let* mid := sns_publish E (publish_input userId now msg) in
        ret (accepted mid)
  | _ =>
      (* !feedback || typeof feedback !== 'string' *)
      ret (bad_request "Feedback text is required and must be a non-empty string")
  end.

Definition handler (event : ApiEvent) : M Response :=
  try_catch
    (if no_user (sub event) then ret unauthorized
     else
       match JSON_parse (body_or_empty (body event)) with
       | inl _ => ret (bad_request "Invalid JSON in request body")
       | inr requestBody => submit (default "" (sub event)) requestBody
       end)
    (fun e => ret (internal_error E "Failed to submit feedback for processing" e)).

End Handler.
End PostFeedback.

(* ===================================================================== *)
(** ** Enrichment worker: lambdas/processFeedback.js *)
(* ===================================================================== *)

Module ProcessFeedback.
Import JS Cloud.
Local Open Scope js_scope.

(** One SQS message of the batch. *)
Record SQSRecord := {
  messageId : string;
  record_body : string
}.

(** The [results] object of the handler. *)
Record Results := {
  successful : list Value;
  failed : list Value
}.

Definition no_results : Results := {| successful := []; failed := [] |}.

Definition push_successful (r : Results) (v : Value) : Results :=
  {| successful := successful r ++ [v]; failed := failed r |}.

Definition push_failed (r : Results) (v : Value) : Results :=
  {| successful := successful r; failed := failed r ++ [v] |}.

Definition failed_entry (mid msg : string) : Value :=
  VObj [("messageId", VStr mid); ("error", VStr msg)].

Definition successful_entry (mid : string) (userId : Value) : Value :=
  VObj [("messageId", VStr mid); ("userId", userId)].

(** The prompt sent to the model, the feedback text spliced in. *)
Definition prompt (feedback : string) : string :=
  ("You are a helpful assistant that analyzes feedback and provides actionable recommendations for improvement." ++ nl
   ++ nl
   ++ "Analyze the following feedback and provide 3-5 specific, actionable recommendations:" ++ nl
   ++ nl
   ++ "Feedback: " ++ dq ++ feedback ++ dq ++ nl
   ++ nl
   ++ "Provide your response as a JSON array of recommendation objects. Each recommendation should have:" ++ nl
   ++ "- title: A brief title (max 100 characters)" ++ nl
   ++ "- description: Detailed explanation (max 500 characters)" ++ nl
   ++ "- priority: One of " ++ dq ++ "high" ++ dq ++ ", " ++ dq ++ "medium" ++ dq ++ ", " ++ dq ++ "low" ++ dq ++ nl
   ++ "- category: The category this recommendation falls into" ++ nl
   ++ nl
   ++ "Example format:" ++ nl
   ++ "[" ++ nl
   ++ "  {" ++ nl
   ++ "    " ++ dq ++ "title" ++ dq ++ ": " ++ dq ++ "Improve response time" ++ dq ++ "," ++ nl
   ++ "    " ++ dq ++ "description" ++ dq ++ ": " ++ dq ++ "Consider implementing caching to reduce API response times by 50%" ++ dq ++ "," ++ nl
   ++ "    " ++ dq ++ "priority" ++ dq ++ ": " ++ dq ++ "high" ++ dq ++ "," ++ nl
   ++ "    " ++ dq ++ "category" ++ dq ++ ": " ++ dq ++ "performance" ++ dq ++ nl
   ++ "  }" ++ nl
   ++ "]" ++ nl
   ++ nl
   ++ "Respond ONLY with the JSON array, no additional text.")%string.

(** The single recommendation returned when anything in the call fails. *)
Definition fallback_item (now : Z) : Value :=
  VObj [("id", VStr ("rec-fallback-" ++ string_of_Z now));
        ("title", VStr "Review and analyze feedback");
        ("description", VStr "A detailed analysis of this feedback is recommended to identify specific areas for improvement.");
        ("priority", VStr "medium");
        ("category", VStr "general")].

Definition not_an_array : Exn :=
  mkExn PlainError "Bedrock did not return an array of recommendations".

Definition not_a_function (what : string) : Exn :=
  mkExn TypeError (what ++ " is not a function").

(** [JSON.parse(x)] for an [x] that need not be a string: the argument is
    converted with ToString first, undefined reading "undefined". *)
Definition JSON_parse_any {RT : Runtime} (o : option Value) : Res Value :=
  match o with
  | None => JSON_parse "undefined"
  | Some v =>
      match ToString v with
      | inl e => inl e
      | inr s => JSON_parse s
      end
  end.

Section Handler.
Context {RT : Runtime} (E : Env).

(** The callback of [recommendations.map]: one model item made into a
    stored recommendation. *)
Definition sanitize (rec : Value) (index : nat) : M Value :=
  let* now := Date_now E in
  let* title := lift (get rec "title") in
  let* title_s := lift (ToString (or_else title (VStr "Recommendation"))) in
  let* description := lift (get rec "description") in
  let* description_s := lift (ToString (or_else description (VStr ""))) in
  let* priority := lift (get rec "priority") in
  let* category := lift (get rec "category") in
  let* category_s := lift (ToString (or_else category (VStr "general"))) in
  ret (VObj [("id", VStr ("rec-" ++ string_of_Z now ++ "-" ++ string_of_Z (Z.of_nat index)));
             ("title", VStr (substring0 100 title_s));
             ("description", VStr (substring0 500 description_s));
             ("priority",
              if includes_str ["high"; "medium"; "low"] priority
              then default VNull priority else VStr "medium");
             ("category", VStr category_s)]).

Fixpoint sanitize_all (recs : list Value) (index : nat) : M (list Value) :=
  match recs with
  | [] => ret []
  | rec :: rest =>
      let* r := sanitize rec index in
      let* rs := sanitize_all rest (S index) in
      ret (r :: rs)
  end.

(** The body of the try block of generateRecommendations. *)
Definition ask_model (input : InvokeInput) : M (list Value) :=
  let* text := invoke_model E input in
  let* responseBody := lift (JSON_parse text) in
  let* content := lift (get responseBody "content") in
  (* responseBody.content?.[0]?.text || '' *)
  match or_else (get_opt (get0_opt content) "text") (VStr "") with
  | VStr recommendationsText =>
      let stripped :=
        trim (remove_all "```" (remove_all "```json" recommendationsText)) in
      let* recommendations := lift (JSON_parse stripped) in
      match recommendations with
      | VArr recs => sanitize_all recs 0
      | _ => throw not_an_array
      end
  | _ => throw (not_a_function "recommendationsText.replace")
  end.

(** The catch block: one fallback recommendation. *)
Definition fallback : M (list Value) :=
  let* now := Date_now E in
  ret [fallback_item now].

Definition invoke_input (feedback_text : string) : InvokeInput :=
  {| modelId := BEDROCK_MODEL_ID E;
     max_tokens := 2000;
     temperature_tenths := 7;
     content := prompt feedback_text |}.

Definition generateRecommendations (feedback : Value) : M (list Value) :=
  (* the template literal converts the feedback, outside the try block *)
  let* feedback_text := lift (ToString feedback) in
  try_catch (ask_model (invoke_input feedback_text)) (fun _ => fallback).

(** The item written for a message. *)
Definition new_item (userId feedback timestamp message : Value)
    (recommendations : list Value) (generatedAt updatedAt : Z) : Item :=
  [("userId", userId);
   ("timestamp", timestamp);
   ("feedbackType", or_else (get_opt (Some message) "feedbackType") (VStr "general"));
   ("originalFeedback", feedback);
   ("recommendations", VArr recommendations);
   ("generatedAt", VStr (toISOString generatedAt));
   ("modelId", VStr (BEDROCK_MODEL_ID E));
   ("tags", or_else (get_opt (Some message) "tags") (VArr []));
   ("completed", VBool false);
   ("updatedAt", VStr (toISOString updatedAt))].

(** [timestamp || Date.now()] *)
Definition timestamp_or_now (timestamp : option Value) : M Value :=
  if truthy_opt timestamp then ret (default VNull timestamp)
  else let* now := Date_now E in ret (VNum now).

(** The loop body from the call of the model on: the message has been
    parsed and carries a user and a feedback. *)
Definition enrich_and_store (record : SQSRecord) (results : Results)
    (message userId feedback : Value) : M Results :=
  let* recommendations := generateRecommendations feedback in
  let* timestamp := timestamp_or_now (get_opt (Some message) "timestamp") in
  let* generatedAt := Date_now E in
  let* updatedAt := Date_now E in
  dynamo_send E
    (PutCommand (new_item userId feedback timestamp message recommendations
                   generatedAt updatedAt)) ;;;
  ret (push_successful results (successful_entry (messageId record) userId)).

(** The try block of the loop body. *)
Definition process_record (record : SQSRecord) (results : Results) : M Results :=
  let* snsMessage := lift (JSON_parse (record_body record)) in
  let* inner := lift (get snsMessage "Message") in
  let* message := lift (JSON_parse_any inner) in
  lift (destructurable message "userId" "message") ;;;
  let userId := get_opt (Some message) "userId" in
  let feedback := get_opt (Some message) "feedback" in
  if negb (truthy_opt userId) || negb (truthy_opt feedback) then
    (* recorded as failed; the loop goes on with the next record *)
    ret (push_failed results
           (failed_entry (messageId record) "Invalid message format"))
  else
    enrich_and_store record results message
      (default VNull userId) (default VNull feedback).

(** How the loop ends: it ran through the batch, or an error left it; the
    [results] object is given as it stood at that moment. *)
Inductive LoopEnd :=
| Completed (results : Results)
| Aborted (error : Exn) (results : Results).

(** [for (const record of event.Records) { try {...} catch (error) {...} }]:
    the catch block appends to [results.failed] and throws the error
    again, which ends the loop. *)
Fixpoint process_records (records : list SQSRecord) (results : Results)
    (w : World) : LoopEnd * World :=
  match records with
  | [] => (Completed results, w)
  | record :: rest =>
      match process_record record results w with
      | (inr results', w') => process_records rest results' w'
      | (inl error, w') =>
          (Aborted error
             (push_failed results (failed_entry (messageId record) (message error))),
           w')
      end
  end.

Definition results_value (r : Results) : Value :=
  VObj [("successful", VArr (successful r)); ("failed", VArr (failed r))].

(** The handler: it resolves with a 200 response, or rejects with the
    error that ended the loop.  A rejected invocation leaves the whole
    batch unacknowledged, so the queue delivers all of it again. *)
Definition handler (Records : list SQSRecord) : M Response :=
  fun w =>
    match process_records Records no_results w with
    | (Completed results, w') =>
        (inr {| statusCode := 200; response_body := results_value results |}, w')
    | (Aborted error _, w') => (inl error, w')
    end.

End Handler.
End ProcessFeedback.

(* ===================================================================== *)
(** ** Search: the handler of GET /recommendations/search *)
(* ===================================================================== *)

Module SearchRecommendations.
Import JS Cloud.
Local Open Scope js_scope.

Section Handler.
Context {RT : Runtime} (E : Env).

(** A query-string parameter that is present and not empty: [if (p)]. *)
Definition given (p : option string) : option string :=
  match p with
  | Some s => if String.eqb s "" then None else Some s
  | None => None
  end.

(** [#timestamp >= :fromTimestamp], left out when the date does not parse. *)
Definition from_filter (fromDate : option string) : list Cond :=
  match given fromDate with
  | Some d =>
      match Date_getTime d with
      | Some fromTimestamp => [CGe "timestamp" fromTimestamp]
      | None => []
      end
  | None => []
  end.

(** [#timestamp <= :toTimestamp] *)
Definition to_filter (toDate : option string) : list Cond :=
  match given toDate with
  | Some d =>
      match Date_getTime d with
      | Some toTimestamp => [CLe "timestamp" toTimestamp]
      | None => []
      end
  | None => []
  end.

(** [#feedbackType = :feedbackType] *)
Definition type_filter (feedbackType : option string) : list Cond :=
  match given feedbackType with
  | Some t => [CEq "feedbackType" (VStr t)]
  | None => []
  end.

(** [#completed = :completed] with [completed === 'true'] as the value;
    the test is [completed !== undefined]. *)
Definition completed_filter (completed : option string) : list Cond :=
  match completed with
  | Some c => [CEq "completed" (VBool (String.eqb c "true"))]
  | None => []
  end.

(** [tags.split(',').map(t => t.trim()).filter(t => t)] *)
Definition tag_array (tags : string) : list string :=
  filter (fun t => t <> ""%string) (map trim (split_comma tags)).

(** The parenthesised OR of one [contains] per tag. *)
Definition tags_filter (tags : option string) : list Cond :=
  match given tags with
  | Some ts =>
      match tag_array ts with
      | [] => []
      | tagArray => [CContainsAny "tags" (map VStr tagArray)]
      end
  | None => []
  end.

(** The filter expressions, in the order they are pushed. *)
Definition filterExpressions (q : gmap string string) : list Cond :=
  from_filter (q !! "fromDate") ++ to_filter (q !! "toDate")
  ++ type_filter (q !! "feedbackType") ++ completed_filter (q !! "completed")
  ++ tags_filter (q !! "tags").

(** The callback of the text filter: the serialized recommendations or the
    original feedback contain the search string, case folded.  A truthy
    originalFeedback that is not a string has no toLowerCase. *)
Definition text_match (searchLower : string) (item : Item) : Res bool :=
  let recommendationsText :=
    toLowerCase (JSON_stringify (or_else (assoc "recommendations" item) (VArr []))) in
  match or_else (assoc "originalFeedback" item) (VStr "") with
  | VStr f =>
      let feedbackText := toLowerCase f in
      inr (includes searchLower recommendationsText || includes searchLower feedbackText)
  | _ => inl (mkExn TypeError "(item.originalFeedback || '').toLowerCase is not a function")
  end.

(** [items.filter(callback)] for a callback that may throw. *)
Fixpoint filter_res (f : Item -> Res bool) (items : list Item) : Res (list Item) :=
  match items with
  | [] => inr []
  | item :: rest =>
      match f item with
      | inl e => inl e
      | inr keep =>
          match filter_res f rest with
          | inl e => inl e
          | inr kept => inr (if keep then item :: kept else kept)
          end
      end
  end.

(** [if (search && search.trim())] then filter, else leave as is *)
Definition text_search (search : option string) (items : list Item) : Res (list Item) :=
  match given search with
  | Some s =>
      if String.eqb (trim s) "" then inr items
      else filter_res (text_match (toLowerCase s)) items
  | None => inr items
  end.

Definition str_field (k : string) (o : option string) : list (string * Value) :=
  field k (option_map VStr o).

Definition found (items : list Item) (q : gmap string string) : Response :=
  {| statusCode := 200;
     response_body :=
       VObj [("recommendations", VArr (map VObj items));
             ("count", VNum (Z.of_nat (length items)));
             ("filters",
              VObj (str_field "search" (q !! "search")
                    ++ str_field "tags" (q !! "tags")
                    ++ str_field "completed" (q !! "completed")
                    ++ str_field "feedbackType" (q !! "feedbackType")
                    ++ str_field "fromDate" (q !! "fromDate")
                    ++ str_field "toDate" (q !! "toDate")))] |}.

(** [queryCommandParams.ExpressionAttributeNames]: it starts as the empty
    object and gets one [#name] per attribute as the filters are pushed. *)
Definition attributeNames (cs : list Cond) : list (string * string) :=
  fold_left (fun names c => assoc_set ("#" ++ cond_attr c)%string (cond_attr c) names)
    cs [].

Definition query_input (userId : string) (q : gmap string string) : QueryInput :=
  {| q_userId := userId;
     q_filter := filterExpressions q;
     q_names := Some (attributeNames (filterExpressions q));
     q_forward := false;
     q_keys_only := false |}.

Definition handler (event : ApiEvent) : M Response :=
  try_catch
    (if no_user (sub event) then ret unauthorized
     else
       let userId := default "" (sub event) in
       (* event.queryStringParameters || {} *)
       let queryParams := default ∅ (queryStringParameters event) in
       let* result := dynamo_send E (QueryCommand (query_input userId queryParams)) in
       let* recommendations :=
         lift (text_search (queryParams !! "search") (items_of result)) in
       ret (found recommendations queryParams))
    (fun e => ret (internal_error E "Failed to search recommendations" e)).

End Handler.
End SearchRecommendations.

(* ===================================================================== *)
(** ** Update: lambdas/updateRecommendation.js *)
(* ===================================================================== *)

Module UpdateRecommendation.
Import JS Cloud.
Local Open Scope js_scope.

Section Handler.
Context {RT : Runtime} (E : Env).

Definition bad_request (msg : string) : Response :=
  error_response 400 "Bad Request" msg.

Definition not_found : Response :=
  error_response 404 "Not Found" "Recommendation not found".

Definition updated (item : option Item) : Response :=
  {| statusCode := 200;
     response_body :=
       VObj ([("message", VStr "Recommendation updated successfully")]
             ++ field "recommendation" (option_map VObj item)) |}.

(** The SET assignments, one per field the body provides; [tags] only when
    it is an array. *)
Definition requested_sets (completed tags recommendations feedbackType : option Value)
  : list (string * Value) :=
  field "completed" completed
  ++ (if isArray_opt tags then field "tags" tags else [])
  ++ field "recommendations" recommendations
  ++ field "feedbackType" feedbackType.

(** From the existence check on. *)
Definition update (key : Key) (requestBody : Value) : M Response :=
  let* existingItem := dynamo_send E (GetCommand key) in
  match item_of existingItem with
  | None => ret not_found
  | Some _ =>
      let* completed := lift (get requestBody "completed") in
      let* tags := lift (get requestBody "tags") in
      let* recommendations := lift (get requestBody "recommendations") in
      let* feedbackType := lift (get requestBody "feedbackType") in
      (* always update the updatedAt timestamp *)
      let* now := Date_now E in
      let updateExpressions :=
        requested_sets completed tags recommendations feedbackType
        ++ [("updatedAt", VStr (toISOString now))] in
      if (length updateExpressions =? 1)%nat then
        ret (bad_request "No valid fields to update")
      else
        let* result := dynamo_send E (UpdateCommand key updateExpressions) in
        ret (updated (item_of result))
  end.

Definition handler (event : ApiEvent) : M Response :=
  try_catch
    (if no_user (sub event) then ret unauthorized
     else
       let userId := default "" (sub event) in
       match parseInt_opt (path_timestamp event) with
       | Some timestamp =>
           if (timestamp =? 0)%Z then
             ret (bad_request "Invalid or missing timestamp in path")
           else
             match JSON_parse (body_or_empty (body event)) with
             | inl _ => ret (bad_request "Invalid JSON in request body")
             | inr requestBody => update (userId, timestamp) requestBody
             end
       | None => ret (bad_request "Invalid or missing timestamp in path")
       end)
    (fun e => ret (internal_error E "Failed to update recommendation" e)).

End Handler.
End UpdateRecommendation.

(* ===================================================================== *)
(** ** Bulk delete: the second handler of lambdas/getRecommendations.js *)
(* ===================================================================== *)

Module DeleteRecommendations.
Import JS Cloud.
Local Open Scope js_scope.

Section Handler.
Context (E : Env).

(** BatchWrite can handle max 25 items at a time. *)
Definition batchSize : nat := 25.

(** [items.slice(i, i + batchSize)] *)
Definition slice (i n : nat) (items : list Item) : list Item :=
  firstn n (skipn i items).

Definition delete_request (item : Item) : option Value * option Value :=
  (assoc "userId" item, assoc "timestamp" item).

(** [for (let i = 0; i < items.length; i += batchSize) {...}], entered at
    index [i] with [deletedCount].  Every turn advances [i] by 25, so
    [length items] turns always suffice; [fuel] counts them down. *)
Fixpoint delete_loop (fuel : nat) (items : list Item) (i deletedCount : nat)
  : M nat :=
  if (i <? length items)%nat then
    match fuel with
    | S fuel' =>
        let batch := slice i batchSize items in
        dynamo_send E (BatchWriteCommand (map delete_request batch)) ;;;
        delete_loop fuel' items (i + batchSize) (deletedCount + length batch)
    | O => ret deletedCount
    end
  else ret deletedCount.

Definition keys_query (userId : string) : QueryInput :=
  {| q_userId := userId; q_filter := []; q_names := Some [("#ts", "timestamp")];
     q_forward := true; q_keys_only := true |}.

Definition deleted (msg : string) (deletedCount : nat) : Response :=
  {| statusCode := 200;
     response_body :=
       VObj [("message", VStr msg);
             ("deletedCount", VNum (Z.of_nat deletedCount))] |}.

Definition handler (event : ApiEvent) : M Response :=
  try_catch
    (if no_user (sub event) then ret unauthorized
     else
       let userId := default "" (sub event) in
       let* queryResult := dynamo_send E (QueryCommand (keys_query userId)) in
       match items_of queryResult with
       | [] => ret (deleted "No recommendations to delete" 0)
       | items =>
           let* deletedCount := delete_loop (length items) items 0 0 in
           ret (deleted "Recommendations deleted successfully" deletedCount)
       end)
    (fun e => ret (internal_error E "Failed to delete recommendations" e)).

End Handler.
End DeleteRecommendations.

(* ===================================================================== *)
(** ** List all: the first handler of lambdas/getRecommendations.js *)
(* ===================================================================== *)

Module GetRecommendations.
Import JS Cloud.
Local Open Scope js_scope.

Section Handler.
Context (E : Env).

(** The query for a whole partition, newest first. *)
Definition all_query (userId : string) : QueryInput :=
  {| q_userId := userId; q_filter := []; q_names := None; q_forward := false;
     q_keys_only := false |}.

(** [{recommendations: result.Items || [], count: result.Items?.length || 0}] *)
Definition listed (items : list Item) : Response :=
  {| statusCode := 200;
     response_body :=
       VObj [("recommendations", VArr (map VObj items));
             ("count", VNum (Z.of_nat (length items)))] |}.

Definition handler (event : ApiEvent) : M Response :=
  try_catch
    (if no_user (sub event) then ret unauthorized
     else
       let userId := default "" (sub event) in
       let* result := dynamo_send E (QueryCommand (all_query userId)) in
       ret (listed (items_of result)))
    (fun e => ret (internal_error E "Failed to retrieve recommendations" e)).

End Handler.
End GetRecommendations.


(* ===================================================================== *)
(** ** The stack: lib/serverless-backend-stack.js and its constructs *)
(* ===================================================================== *)

(** What the CDK code decides by itself: which properties it accepts, the
    environment variables it gives each function, the API configuration it
    selects, the permissions it grants.  The CDK library calls that turn
    these into resources are not modelled; values that exist only at
    deployment (the topic's ARN) are parameters. *)
Module Stack.
Import JS.

Definition error (msg : string) : Exn := mkExn PlainError msg.

(** [x || d] for a string property that may be undefined: the empty
    string is falsy. *)
Definition or_string (x : option string) (d : string) : string :=
  match x with
  | Some s => if String.eqb s "" then d else s
  | None => d
  end.

(** [!x] for a string property that may be undefined. *)
Definition missing (x : option string) : bool :=
  match x with
  | Some s => String.eqb s ""
  | None => true
  end.

(** *** The patterns of CognitoAuthorizerConstruct

    Both patterns are anchored and are matched here from left to right
    without backtracking: each repetition takes all it can.  That is all
    a backtracking matcher can do with them, since every repetition is
    followed by a character outside its class (the colon) or by the end
    of the input. *)

Definition in_range (lo hi : nat) (c : ascii) : bool :=
  ((lo <=? nat_of_ascii c) && (nat_of_ascii c <=? hi))%nat.

Definition lower (c : ascii) : bool := in_range 97 122 c.
Definition upper (c : ascii) : bool := in_range 65 90 c.
(** [\d] *)
Definition digit (c : ascii) : bool := in_range 48 57 c.
(** [[a-z0-9\-]] *)
Definition region_char (c : ascii) : bool :=
  lower c || digit c || Ascii.eqb c "-".
(** [[a-zA-Z0-9\-_]] *)
Definition pool_char (c : ascii) : bool :=
  lower c || upper c || digit c || Ascii.eqb c "-" || Ascii.eqb c "_".
(** [.]: any character but a line terminator *)
Definition any_char (c : ascii) : bool :=
  negb (Ascii.eqb c "010" || Ascii.eqb c "013").

(** A literal: what is left of the input after it. *)
Fixpoint lit (p s : string) : option string :=
  match p, s with
  | EmptyString, _ => Some s
  | String a p', String b s' => if Ascii.eqb a b then lit p' s' else None
  | String _ _, EmptyString => None
  end.

(** The longest run of characters of a class, and what follows it. *)
Fixpoint many (cls : ascii -> bool) (s : string) : string * string :=
  match s with
  | String c s' =>
      if cls c then let '(m, r) := many cls s' in (String c m, r)
      else (EmptyString, s)
  | EmptyString => (EmptyString, EmptyString)
  end.

(** [cls+] *)
Definition plus (cls : ascii -> bool) (s : string) : option (string * string) :=
  match many cls s with
  | (EmptyString, _) => None
  | (m, r) => Some (m, r)
  end.

(** [cls{n}] *)
Fixpoint times (n : nat) (cls : ascii -> bool) (s : string) : option string :=
  match n with
  | O => Some s
  | S n' =>
      match s with
      | String c s' => if cls c then times n' cls s' else None
      | EmptyString => None
      end
  end.

(** [^arn:aws:cognito-idp:(region+):\d{12}:userpool\/(last+)$]: the two
    groups, when the input matches. *)
Definition arn_pattern (last : ascii -> bool) (arn : string)
  : option (string * string) :=
  s1 ← lit "arn:aws:cognito-idp:" arn;
  '(region, s2) ← plus region_char s1;
  s3 ← lit ":" s2;
  s4 ← times 12 digit s3;
  s5 ← lit ":userpool/" s4;
  '(poolId, s6) ← plus last s5;
  if String.eqb s6 "" then Some (region, poolId) else None.

(** [/^arn:aws:cognito-idp:[a-z0-9\-]+:\d{12}:userpool\/[a-zA-Z0-9\-_]+$/.test(arn)] *)
Definition _isValidArn (arn : string) : bool :=
  bool_decide (is_Some (arn_pattern pool_char arn)).

(** [_parseArn]: the region and the pool id, by
    [/^arn:aws:cognito-idp:([a-z0-9\-]+):\d{12}:userpool\/(.+)$/]. *)
Definition _parseArn (arn : string) : Res (string * string) :=
  match arn_pattern any_char arn with
  | Some (region, userPoolId) => inr (region, userPoolId)
  | None =>
      inl (error ("Invalid User Pool ARN format: " ++ arn ++ ". "
                  ++ "Expected: arn:aws:cognito-idp:region:account-id:userpool/pool-id"))
  end.

(** CognitoAuthorizerConstruct: [_validateProps] (the stack always passes
    props and a REST API), then [_createAuthorizer], which parses the
    ARN. *)
Definition CognitoAuthorizerConstruct (userPoolArn : option string)
  : Res (string * string) :=
  if missing userPoolArn then
    inl (error "CognitoAuthorizerConstruct requires userPoolArn property")
  else
    let arn := default EmptyString userPoolArn in
    if negb (_isValidArn arn) then
      inl (error ("Invalid User Pool ARN: " ++ arn ++ ". "
                  ++ "Expected format: arn:aws:cognito-idp:region:account-id:userpool/poolid"))
    else _parseArn arn.

(** *** config/apiConfig and ApiGatewayConstruct *)

Record ApiConfig := {
  stageName : string;
  enableCloudWatchLogs : bool;
  loggingLevel : string;
  rateLimit : Z;
  burstLimit : Z;
  allowOrigins : list string;
  allowCredentials : bool
}.

Definition apiConfig : list (string * ApiConfig) :=
  [("dev",
    {| stageName := "api"; enableCloudWatchLogs := false; loggingLevel := "INFO";
       rateLimit := 10000; burstLimit := 5000;
       allowOrigins := ["http://localhost:3000"; "http://localhost:3001"];
       allowCredentials := true |});
   ("staging",
    {| stageName := "api"; enableCloudWatchLogs := false; loggingLevel := "INFO";
       rateLimit := 10000; burstLimit := 5000;
       allowOrigins := ["https://staging.example.com"];
       allowCredentials := true |});
   ("prod",
    {| stageName := "api"; enableCloudWatchLogs := false; loggingLevel := "WARN";
       rateLimit := 10000; burstLimit := 5000;
       allowOrigins := ["https://example.com"];
       allowCredentials := true |})].

(** The property names an object literal inherits from Object.prototype:
    [apiConfig[name]] is defined for them, and is not a configuration. *)
Definition inherited : list string :=
  ["constructor"; "toString"; "toLocaleString"; "valueOf"; "hasOwnProperty";
   "isPrototypeOf"; "propertyIsEnumerable"; "__proto__"; "__defineGetter__";
   "__defineSetter__"; "__lookupGetter__"; "__lookupSetter__"].

Inductive Looked :=
| Config (c : ApiConfig)
| Inherited (name : string).

(** [getApiConfig(environment)] *)
Definition getApiConfig (environment : string) : Res Looked :=
  match assoc environment apiConfig with
  | Some c => inr (Config c)
  | None =>
      if existsb (String.eqb environment) inherited then inr (Inherited environment)
      else
        inl (error ("Unknown environment: " ++ environment ++ ". "
                    ++ "Supported environments: dev, staging, prod"))
  end.

(** ApiGatewayConstruct: [_validateProps], then the configuration of
    [props.environment || 'dev']. *)
Definition ApiGatewayConstruct (environment : option string) : Res Looked :=
  if negb (missing environment)
     && negb (existsb (String.eqb (default EmptyString environment))
                ["dev"; "staging"; "prod"])
  then
    inl (error ("Invalid environment: " ++ default EmptyString environment
                ++ ". Must be: dev, staging, or prod"))
  else getApiConfig (or_string environment "dev").

(** *** LambdaConstruct: the environment of each function *)

Inductive LambdaFunction :=
| GetRecommendations
| DeleteRecommendations
| PostFeedback
| ProcessFeedback
| UpdateRecommendation
| SearchRecommendations.

Record LambdaEnvironment := {
  DYNAMODB_TABLE_NAME : string;
  NODE_ENV : string;
  SNS_TOPIC_ARN : option string;
  BEDROCK_MODEL_ID : option string
}.

Definition LambdaConstruct (environment tableName topicArn bedrockModelId : string)
    (f : LambdaFunction) : LambdaEnvironment :=
  let commonProps :=
    {| DYNAMODB_TABLE_NAME := tableName; NODE_ENV := environment;
       SNS_TOPIC_ARN := None; BEDROCK_MODEL_ID := None |} in
  match f with
  | PostFeedback =>
      {| DYNAMODB_TABLE_NAME := DYNAMODB_TABLE_NAME commonProps;
         NODE_ENV := NODE_ENV commonProps;
         SNS_TOPIC_ARN := Some topicArn; BEDROCK_MODEL_ID := None |}
  | ProcessFeedback =>
      {| DYNAMODB_TABLE_NAME := DYNAMODB_TABLE_NAME commonProps;
         NODE_ENV := NODE_ENV commonProps;
         SNS_TOPIC_ARN := None; BEDROCK_MODEL_ID := Some bedrockModelId |}
  | _ => commonProps
  end.

(** *** Permissions: [_grantPermissions] *)

Inductive Grant :=
| TableRead          (* dynamoDB.grantRead *)
| TableReadWrite     (* dynamoDB.grantReadWrite *)
| TopicPublish       (* topic.grantPublish *)
| ModelInvoke.       (* bedrock:InvokeModel *)

#[global] Instance Grant_eq_dec : EqDecision Grant.
Proof. intros a b. unfold Decision. decide equality. Defined.

Definition _grantPermissions (f : LambdaFunction) : list Grant :=
  match f with
  | GetRecommendations => [TableRead]
  | DeleteRecommendations => [TableReadWrite]
  | PostFeedback => [TopicPublish]
  | ProcessFeedback => [TableReadWrite; ModelInvoke]
  | UpdateRecommendation => [TableReadWrite]
  | SearchRecommendations => [TableRead]
  end.

(** *** ServerlessBackendStack *)

Record StackProps := {
  cognitoUserPoolArn : option string;
  environment : option string;
  bedrockModelId : option string
}.

Definition _validateProps (props : option StackProps) : Res StackProps :=
  match props with
  | None => inl (error "ServerlessBackendStack requires props parameter")
  | Some p =>
      if missing (cognitoUserPoolArn p) then
        inl (error ("ServerlessBackendStack requires cognitoUserPoolArn property. "
                    ++ "Provide the ARN of your existing Cognito User Pool."))
      else inr p
  end.

(** What a stack that was constructed holds. *)
Record Deployment := {
  tableName : string;
  lambdas : LambdaFunction -> LambdaEnvironment;
  grants : LambdaFunction -> list Grant;
  api : Looked;
  userPool : string * string       (* region, pool id *)
}.

(** The constructor, in the order of the source: the properties are
    validated, the table, the queue and the functions are declared, then
    the API and the authorizer, each of which validates what it is given.
    [topicArn] is what the topic's ARN resolves to. *)
Definition ServerlessBackendStack (props : option StackProps) (topicArn : string)
  : Res Deployment :=
  match _validateProps props with
  | inl e => inl e
  | inr p =>
      let env := or_string (environment p) "dev" in
      let model :=
        or_string (bedrockModelId p) "anthropic.claude-3-sonnet-20240229-v1:0" in
      (* DynamoDBConstruct: props.tableName || `Recommendations-${environment}` *)
      let table := ("Recommendations-" ++ or_string (Some env) "dev")%string in
      match ApiGatewayConstruct (Some env) with
      | inl e => inl e
      | inr config =>
          match CognitoAuthorizerConstruct (cognitoUserPoolArn p) with
          | inl e => inl e
          | inr pool =>
              inr {| tableName := table;
                     lambdas := LambdaConstruct env table topicArn model;
                     grants := _grantPermissions;
                     api := config;
                     userPool := pool |}
          end
      end
  end.

(** bin/serverless-backend.js: the ARN is taken from the CDK context or,
    failing that, from the variable COGNITO_USER_POOL_ARN; the stack is
    given the ARN and nothing else of what it reads. *)
Definition app (context variable : option string) (topicArn : string)
  : Res Deployment :=
  let arn := if missing context then variable else context in
  if missing arn then
    inl (error ("Cognito User Pool ARN is required. "
                ++ "Provide it using: cdk deploy -c cognitoUserPoolArn="
                ++ dq ++ "arn:..." ++ dq ++ " "
                ++ "or set COGNITO_USER_POOL_ARN environment variable"))
  else
    ServerlessBackendStack
      (Some {| cognitoUserPoolArn := arn; environment := None;
               bedrockModelId := None |})
      topicArn.

End Stack.

(* ===================================================================== *)
(** ** A reference runtime, to run the handlers on concrete inputs *)
(* ===================================================================== *)

(** An executable implementation of the [Runtime] interface for the
    fragment of JSON and of ISO dates that the value model covers: number
    literals are integers, \u escapes stay below 256, dates are
    YYYY-MM-DD or YYYY-MM-DDTHH:mm:ss[.sss]Z.  Text outside the fragment is
    rejected.  Only the examples use it. *)
Module Node.
Import JS.

Definition syntax_error : Exn := mkExn SyntaxError "Unexpected token in JSON".

Definition is_json_ws (c : ascii) : bool :=
  let n := nat_of_ascii c in
  ((n =? 32) || (n =? 9) || (n =? 10) || (n =? 13))%nat.

Fixpoint skip_ws (s : string) : string :=
  match s with
  | String c rest => if is_json_ws c then skip_ws rest else s
  | EmptyString => EmptyString
  end.

Fixpoint drop (n : nat) (s : string) : string :=
  match n, s with
  | S n', String _ rest => drop n' rest
  | _, _ => s
  end.

Definition hex2 (a b : ascii) : option ascii :=
  match digit_value 16 a, digit_value 16 b with
  | Some x, Some y => Some (ascii_of_nat (Z.to_nat (16 * x + y)))
  | _, _ => None
  end.

(** The characters of a string literal after its opening quote, and the
    text after its closing quote. *)
Fixpoint parse_chars (s : string) : option (string * string) :=
  match s with
  | EmptyString => None
  | String "034" rest => Some (EmptyString, rest)
  | String "\" (String e rest) =>
      let continue (c : ascii) (r : option (string * string)) :=
        match r with
        | Some (cs, after) => Some (String c cs, after)
        | None => None
        end in
      match e with
      | "034"%char => continue "034"%char (parse_chars rest)
      | "\"%char => continue "\"%char (parse_chars rest)
      | "/"%char => continue "/"%char (parse_chars rest)
      | "b"%char => continue "008"%char (parse_chars rest)
      | "f"%char => continue "012"%char (parse_chars rest)
      | "n"%char => continue "010"%char (parse_chars rest)
      | "r"%char => continue "013"%char (parse_chars rest)
      | "t"%char => continue "009"%char (parse_chars rest)
      | "u"%char =>
          match rest with
          | String "0" (String "0" (String h1 (String h2 rest'))) =>
              match hex2 h1 h2 with
              | Some c => continue c (parse_chars rest')
              | None => None
              end
          | _ => None
          end
      | _ => None
      end
  | String c rest =>
      if (nat_of_ascii c <? 32)%nat then None
      else match parse_chars rest with
           | Some (cs, after) => Some (String c cs, after)
           | None => None
           end
  end.

Definition is_digit (c : ascii) : bool :=
  let n := nat_of_ascii c in ((48 <=? n) && (n <=? 57))%nat.

Fixpoint span_digits (s : string) : string * string :=
  match s with
  | String c rest =>
      if is_digit c then let '(ds, after) := span_digits rest in (String c ds, after)
      else (EmptyString, s)
  | EmptyString => (EmptyString, EmptyString)
  end.

(** An integer literal: no leading zero, no fraction, no exponent. *)
Definition parse_number (s : string) : option (Z * string) :=
  let '(sign, s1) :=
    match s with
    | String "-" rest => ((-1)%Z, rest)
    | _ => (1%Z, s)
    end in
  let '(ds, after) := span_digits s1 in
  let well_formed :=
    match ds with
    | EmptyString => false
    | String "0" (String _ _) => false
    | _ => true
    end in
  let fractional :=
    match after with
    | String "." _ | String "e" _ | String "E" _ => true
    | _ => false
    end in
  if well_formed && negb fractional then
    match digits_prefix 10 None ds with
    | Some n => Some ((sign * n)%Z, after)
    | None => None
    end
  else None.

Fixpoint parse_value (fuel : nat) (s : string) {struct fuel}
  : option (Value * string) :=
  match fuel with
  | O => None
  | S fuel' =>
      let s := skip_ws s in
      match s with
      | String "n" _ => if starts_with "null" s then Some (VNull, drop 4 s) else None
      | String "t" _ => if starts_with "true" s then Some (VBool true, drop 4 s) else None
      | String "f" _ => if starts_with "false" s then Some (VBool false, drop 5 s) else None
      | String "034" rest =>
          match parse_chars rest with
          | Some (cs, after) => Some (VStr cs, after)
          | None => None
          end
      | String "[" rest =>
          match skip_ws rest with
          | String "]" after => Some (VArr [], after)
          | _ =>
              match parse_elements fuel' rest with
              | Some (vs, after) => Some (VArr vs, after)
              | None => None
              end
          end
      | String "{" rest =>
          match skip_ws rest with
          | String "}" after => Some (VObj [], after)
          | _ =>
              match parse_members fuel' rest [] with
              | Some (ms, after) => Some (VObj ms, after)
              | None => None
              end
          end
      | _ =>
          match parse_number s with
          | Some (n, after) => Some (VNum n, after)
          | None => None
          end
      end
  end
with parse_elements (fuel : nat) (s : string) {struct fuel}
  : option (list Value * string) :=
  match fuel with
  | O => None
  | S fuel' =>
      match parse_value fuel' s with
      | Some (v, after) =>
          match skip_ws after with
          | String "]" after' => Some ([v], after')
          | String "," after' =>
              match parse_elements fuel' after' with
              | Some (vs, after'') => Some (v :: vs, after'')
              | None => None
              end
          | _ => None
          end
      | None => None
      end
  end
with parse_members (fuel : nat) (s : string) (acc : list (string * Value))
  {struct fuel} : option (list (string * Value) * string) :=
  match fuel with
  | O => None
  | S fuel' =>
      match skip_ws s with
      | String "034" rest =>
          match parse_chars rest with
          | Some (k, after) =>
              match skip_ws after with
              | String ":" after' =>
                  match parse_value fuel' after' with
                  | Some (v, after'') =>
                      (* a repeated name keeps its place and takes the new value *)
                      let acc' := assoc_set k v acc in
                      match skip_ws after'' with
                      | String "}" rest' => Some (acc', rest')
                      | String "," rest' => parse_members fuel' rest' acc'
                      | _ => None
                      end
                  | None => None
                  end
              | _ => None
              end
          | None => None
          end
      | _ => None
      end
  end.

Definition parse (s : string) : Res Value :=
  match parse_value (2 * String.length s + 2) s with
  | Some (v, after) =>
      match skip_ws after with
      | EmptyString => inr v
      | _ => inl syntax_error
      end
  | None => inl syntax_error
  end.

Definition hex_digit (n : nat) : ascii :=
  ascii_of_nat (if (n <? 10)%nat then 48 + n else 87 + n).

Fixpoint quote_chars (s : string) : string :=
  match s with
  | EmptyString => EmptyString
  | String c rest =>
      let n := nat_of_ascii c in
      ((if (n =? 34)%nat then "\" ++ dq
        else if (n =? 92)%nat then "\\"
        else if (n =? 8)%nat then "\b"
        else if (n =? 12)%nat then "\f"
        else if (n =? 10)%nat then "\n"
        else if (n =? 13)%nat then "\r"
        else if (n =? 9)%nat then "\t"
        else if (n <? 32)%nat then
          "\u00" ++ String (hex_digit (n / 16)) (String (hex_digit (n mod 16)) EmptyString)
        else String c EmptyString) ++ quote_chars rest)%string
  end.

Definition quote (s : string) : string := (dq ++ quote_chars s ++ dq)%string.

Fixpoint stringify (v : Value) : string :=
  match v with
  | VNull => "null"
  | VBool true => "true"
  | VBool false => "false"
  | VNum n => string_of_Z n
  | VStr s => quote s
  | VArr elems =>
      "[" ++
      (fix items (l : list Value) : string :=
         match l with
         | [] => ""
         | [x] => stringify x
         | x :: rest => stringify x ++ "," ++ items rest
         end) elems ++ "]"
  | VObj props =>
      "{" ++
      (fix members (l : list (string * Value)) : string :=
         match l with
         | [] => ""
         | [(k, x)] => quote k ++ ":" ++ stringify x
         | (k, x) :: rest => quote k ++ ":" ++ stringify x ++ "," ++ members rest
         end) props ++ "}"
  end%string.

Definition lower_char (c : ascii) : ascii :=
  let n := nat_of_ascii c in
  if ((65 <=? n) && (n <=? 90) || (192 <=? n) && (n <=? 222) && negb (n =? 215))%nat
  then ascii_of_nat (n + 32) else c.

Fixpoint lower (s : string) : string :=
  match s with
  | String c rest => String (lower_char c) (lower rest)
  | EmptyString => EmptyString
  end.

Section Dates.
Local Open Scope Z_scope.

(** Days from 1970-01-01 to a date of the proleptic Gregorian calendar. *)
Definition days_from_civil (y m d : Z) : Z :=
  let y' := if m <=? 2 then y - 1 else y in
  let era := y' / 400 in
  let yoe := y' - era * 400 in
  let doy := (153 * (if 2 <? m then m - 3 else m + 9) + 2) / 5 + d - 1 in
  let doe := yoe * 365 + yoe / 4 - yoe / 100 + doy in
  era * 146097 + doe - 719468.

(** The date (year, month, day) of a number of days from 1970-01-01. *)
Definition civil_from_days (z : Z) : Z * Z * Z :=
  let z := z + 719468 in
  let era := z / 146097 in
  let doe := z - era * 146097 in
  let yoe := (doe - doe / 1460 + doe / 36524 - doe / 146096) / 365 in
  let doy := doe - (365 * yoe + yoe / 4 - yoe / 100) in
  let mp := (5 * doy + 2) / 153 in
  let d := doy - (153 * mp + 2) / 5 + 1 in
  let m := if mp <? 10 then mp + 3 else mp - 9 in
  (yoe + era * 400 + (if m <=? 2 then 1 else 0), m, d).

(** [n] in decimal, padded with zeros to [width] digits. *)
Definition pad (width : nat) (n : Z) : string :=
  let s := string_of_Z n in
  (String.concat "" (repeat "0" (width - String.length s)%nat) ++ s)%string.

Definition iso (ms : Z) : string :=
  let days := ms / 86400000 in
  let rest := ms mod 86400000 in
  let '(y, m, d) := civil_from_days days in
  (pad 4 y ++ "-" ++ pad 2 m ++ "-" ++ pad 2 d ++ "T"
   ++ pad 2 (rest / 3600000) ++ ":" ++ pad 2 (rest / 60000 mod 60) ++ ":"
   ++ pad 2 (rest / 1000 mod 60) ++ "." ++ pad 3 (rest mod 1000) ++ "Z")%string.

(** Exactly [n] digits, read as a number, and the text after them. *)
Fixpoint take_digits (n : nat) (acc : Z) (s : string) : option (Z * string) :=
  match n, s with
  | O, _ => Some (acc, s)
  | S n', String c rest =>
      if is_digit c
      then take_digits n' (acc * 10 + Z.of_nat (nat_of_ascii c) - 48) rest
      else None
  | S _, EmptyString => None
  end.

Definition expect (c : ascii) (s : string) : option string :=
  match s with
  | String c' rest => if Ascii.eqb c c' then Some rest else None
  | EmptyString => None
  end.

Definition time_of_day (s : string) : option Z :=
  '(h, s) ← take_digits 2 0 s; s ← expect ":" s;
  '(mi, s) ← take_digits 2 0 s; s ← expect ":" s;
  '(sec, s) ← take_digits 2 0 s;
  '(ms, s) ← (match s with
              | String "." rest => take_digits 3 0 rest
              | _ => Some (0, s)
              end);
  if String.eqb s "Z" && (h <? 24) && (mi <? 60) && (sec <? 60)
  then Some (h * 3600000 + mi * 60000 + sec * 1000 + ms) else None.

Definition getTime (s : string) : option Z :=
  '(y, s) ← take_digits 4 0 s; s ← expect "-" s;
  '(m, s) ← take_digits 2 0 s; s ← expect "-" s;
  '(d, s) ← take_digits 2 0 s;
  if (1 <=? m) && (m <=? 12) && (1 <=? d) && (d <=? 31) then
    let day := days_from_civil y m d * 86400000 in
    match s with
    | EmptyString => Some day
    | String "T" rest => t ← time_of_day rest; Some (day + t)
    | _ => None
    end
  else None.

End Dates.

#[export] Instance runtime : Runtime := {
  JSON_parse := parse;
  JSON_stringify := stringify;
  toLowerCase := lower;
  Date_getTime := getTime;
  toISOString := iso
}.

End Node.

(* ===================================================================== *)
(** ** The vocabulary of the properties *)
(* ===================================================================== *)

(** The predicates and functions in which the theorems are stated: what
    the specification calls a rejected feedback, a delivered message, a
    supplied field, a matching record, a batch. *)
Section Vocabulary.
Import JS Cloud.
Context {RT : Runtime} (E : Env).

(** A computation is quiet when it sends nothing to DynamoDB or SNS: the
    table and both logs come out as they went in. *)
Definition quiet {A} (c : M A) : Prop :=
  forall w, table (snd (c w)) = table w
            /\ dynamo_log (snd (c w)) = dynamo_log w
            /\ sns_log (snd (c w)) = sns_log w.

(** A feedback the validation turns down: missing, not a string, empty
    once trimmed, or longer than 10,000 characters. *)
Definition feedback_rejected (feedback : option Value) : Prop :=
  match feedback with
  | Some (VStr text) =>
      String.length (trim text) = 0%nat \/ (10000 < Z.of_nat (String.length text))%Z
  | _ => True
  end.

(** Tags that are present but not an array. *)
Definition tags_rejected (tags : option Value) : Prop :=
  exists t, tags = Some t /\ isArray t = false.

(** A submission that is to be turned down, given what JSON.parse made of
    its body: the body is not JSON, or the feedback or the tags of the value
    it holds are rejected.  (The literal null holds no feedback.) *)
Definition invalid_submission (parsed : Res Value) : Prop :=
  match parsed with
  | inl _ => True
  | inr requestBody =>
      feedback_rejected (get_opt (Some requestBody) "feedback")
      \/ tags_rejected (get_opt (Some requestBody) "tags")
  end.

(** The record's body parses, level by level, to the submission
    [message]: the SQS body to the SNS notification, its Message to the
    inner payload, which is not null. *)
Definition delivers (record : ProcessFeedback.SQSRecord) (message : Value) : Prop :=
  exists snsMessage inner,
    JSON_parse (ProcessFeedback.record_body record) = inr snsMessage
    /\ get snsMessage "Message" = inr inner
    /\ ProcessFeedback.JSON_parse_any inner = inr message
    /\ message <> VNull.

(** A timestamp that counts ([timestamp || Date.now()] keeps it) is a
    number, as the table's sort key requires. *)
Definition timestamp_is_number (message : Value) : Prop :=
  forall t, get_opt (Some message) "timestamp" = Some t -> truthy t = true ->
            exists n, t = VNum n.

(** The store accepts the next command sent to it. *)
Definition store_accepts_next (w : World) : Prop :=
  forall c, dynamo_fault E (length (dynamo_log w)) c = None.

(** The fields an update may change. *)
Definition whitelist : list string :=
  ["completed"; "tags"; "recommendations"; "feedbackType"].

(** The value a request body supplies for a whitelisted field; a [tags]
    that is not an array supplies nothing. *)
Definition supplied (requestBody : Value) (k : string) : option Value :=
  let v := get_opt (Some requestBody) k in
  if String.eqb k "tags" then (if isArray_opt v then v else None) else v.

(** The body supplies none of the whitelisted fields. *)
Definition supplies_nothing (requestBody : Value) : bool :=
  forallb (fun k => bool_decide (supplied requestBody k = None)) whitelist.

(** The store answers every command. *)
Definition store_reliable : Prop :=
  forall n c, dynamo_fault E n c = None.

(** Two query strings that differ at most in [priority]. *)
Definition same_but_priority (q1 q2 : gmap string string) : Prop :=
  forall k, k <> "priority"%string -> q1 !! k = q2 !! k.

(** What a search asks for besides the text: a category, a completed flag
    and tags, each of which may be left out. *)
Record Asked := {
  a_category : option string;
  a_completed : option bool;
  a_tags : list string }.

Fixpoint comma_free (s : string) : bool :=
  match s with
  | EmptyString => true
  | String c rest => negb (Ascii.eqb c ","%char) && comma_free rest
  end.

(** A tag that a query string can list as it is: not empty, free of commas
    and without white space at either end. *)
Definition listable (tag : string) : bool :=
  negb (String.eqb tag "") && comma_free tag && String.eqb (trim tag) tag.

(** The query string [q] asks for [a]: feedbackType holds the category,
    completed the flag spelled true or false, tags the listed tags separated
    by commas; what is not asked for is absent. *)
Definition asks (q : gmap string string) (a : Asked) : Prop :=
  q !! "feedbackType" = a_category a
  /\ a_category a <> Some ""%string
  /\ q !! "completed"
     = option_map (fun b : bool => if b then "true" else "false")%string
         (a_completed a)
  /\ q !! "tags"
     = match a_tags a with
       | [] => None
       | listed => Some (String.concat "," listed)
       end
  /\ forallb listable (a_tags a) = true.

(** Something is asked for. *)
Definition asks_something (a : Asked) : Prop :=
  a_category a <> None \/ a_completed a <> None \/ a_tags a <> [].

(** The record carries the tag. *)
Definition has_tag (item : Item) (tag : string) : bool :=
  match assoc "tags" item with
  | Some (VArr elems) => existsb (Value_eqb (VStr tag)) elems
  | _ => false
  end.

(** The record is one that [a] asks for: it is of the category, has the
    completed flag, and carries at least one of the listed tags, as far as
    each is asked for. *)
Definition asked_for (a : Asked) (item : Item) : bool :=
  match a_category a with
  | Some c =>
      match assoc "feedbackType" item with
      | Some (VStr c') => String.eqb c' c
      | _ => false
      end
  | None => true
  end
  && match a_completed a with
     | Some b =>
         match assoc "completed" item with
         | Some (VBool b') => Bool.eqb b' b
         | _ => false
         end
     | None => true
     end
  && match a_tags a with
     | [] => true
     | listed => existsb (has_tag item) listed
     end.

(** A date parameter that sets a bound: it is present and parses. *)
Definition date_bound (d : option string) : Prop :=
  exists s t, d = Some s /\ s <> ""%string /\ Date_getTime s = Some t.

(** A date parameter that sets no bound: it is absent, empty or not a
    date. *)
Definition no_date_bound (d : option string) : Prop :=
  match d with
  | Some s => s = ""%string \/ Date_getTime s = None
  | None => True
  end.

(** The parameters from which the search builds its stored-side filters. *)
Definition filter_parameters : list string :=
  ["fromDate"; "toDate"; "feedbackType"; "completed"; "tags"].

(** The record's tags, when it has any, are a sequence (Intake and Update
    accept nothing else). *)
Definition tags_are_sequence (item : Item) : Prop :=
  match assoc "tags" item with
  | Some v => isArray v = true
  | None => True
  end.

#[global] Instance tags_are_sequence_dec (item : Item) :
  Decision (tags_are_sequence item).
Proof. unfold tags_are_sequence. destruct (assoc "tags" item); apply _. Defined.

(** No text search is asked for: the parameter is absent, empty or blank. *)
Definition no_text_search (search : option string) : Prop :=
  match search with
  | Some s => trim s = ""%string
  | None => True
  end.

(** A list cut into runs of 25, the last one possibly shorter. *)
Fixpoint batches_of {X : Type} (fuel : nat) (l : list X) : list (list X) :=
  match fuel with
  | O => []
  | S fuel' =>
      match l with
      | [] => []
      | _ :: _ => firstn 25 l :: batches_of fuel' (skipn 25 l)
      end
  end.

(** The sizes of the runs of 25 that [n] elements make. *)
Fixpoint batch_sizes (fuel n : nat) : list nat :=
  match fuel with
  | O => []
  | S fuel' => if (n =? 0)%nat then [] else Nat.min 25 n :: batch_sizes fuel' (n - 25)
  end.

(** The table once the given keys have been deleted. *)
Definition delete_all (ks : list Key) (t : Table) : Table :=
  fold_left (fun t' k => delete k t') ks t.

(** The BatchWrite that deletes one batch of keys. *)
Definition batch_command (b : list Key) : DynamoCommand :=
  BatchWriteCommand (map DeleteRecommendations.delete_request (map key_attrs b)).

(** The keys of a user's records, in sort-key order. *)
Definition keys_of_user (u : string) (t : Table) : list Key :=
  map fst (partition u t).

End Vocabulary.

(* ===================================================================== *)
(** ** More vocabulary: outcomes, orders and invariants *)
(* ===================================================================== *)

Section MoreVocabulary.
Import JS Cloud.
Context {RT : Runtime} (E : Env).

(** [wp c Q w]: run from the world [w], the computation [c] ends (with a
    value or an error) in a world such that [Q] holds of both. *)
Definition wp {A} (c : M A) (Q : Res A -> World -> Prop) (w : World) : Prop :=
  Q (fst (c w)) (snd (c w)).

(** A handler's outcome: it resolved with a response whose status is one
    of [codes]. *)
Definition answers (codes : list Z) (r : Res Response) : Prop :=
  exists resp, r = inr resp /\ statusCode resp ∈ codes.

(** Rows in strictly descending order of the sort key: newest first. *)
Definition newest_first (rows : list (Key * Item)) : Prop :=
  StronglySorted (fun a b => (snd (fst b) < snd (fst a))%Z) rows.

(** The rows are the records of the user [u] in the table, each once. *)
Definition records_of (u : string) (t : Table) (rows : list (Key * Item)) : Prop :=
  NoDup rows
  /\ forall k item, (k, item) ∈ rows <-> t !! k = Some item /\ fst k = u.

(** Every item of the table carries, in its userId and timestamp
    attributes, the key it is stored under. *)
Definition table_wf (t : Table) : Prop :=
  map_Forall (fun k item => key_of item = Some k) t.

(** Between two worlds no service was called: at most the clock was
    read. *)
Definition calls_nothing (w w' : World) : Prop :=
  table w' = table w /\ dynamo_log w' = dynamo_log w
  /\ sns_log w' = sns_log w /\ bedrock_log w' = bedrock_log w.

(** A recommendation as the worker stores it: the five fields, all
    strings, a title of at most 100 characters, a description of at most
    500 and one of the three priorities. *)
Definition well_formed_recommendation (v : Value) : Prop :=
  exists id title description priority category,
    v = VObj [("id", VStr id); ("title", VStr title);
              ("description", VStr description);
              ("priority", VStr priority); ("category", VStr category)]
    /\ String.length title <= 100
    /\ String.length description <= 500
    /\ priority ∈ ["high"; "medium"; "low"]%string.

(** An item as the worker writes it: not completed, with well-formed
    recommendations. *)
Definition fresh_item (item : Item) : Prop :=
  assoc "completed" item = Some (VBool false)
  /\ exists recs, assoc "recommendations" item = Some (VArr recs)
                  /\ Forall well_formed_recommendation recs.

(** What a command needs: reading for Get and Query, writing for Put,
    Update and BatchWrite. *)
Definition permits (grants : list Stack.Grant) (c : DynamoCommand) : bool :=
  match c with
  | GetCommand _ | QueryCommand _ =>
      bool_decide (Stack.TableRead ∈ grants)
      || bool_decide (Stack.TableReadWrite ∈ grants)
  | PutCommand _ | UpdateCommand _ _ | BatchWriteCommand _ =>
      bool_decide (Stack.TableReadWrite ∈ grants)
  end.

(** From [w] to [w'] only calls that the grants allow were made. *)
Definition within_grants (grants : list Stack.Grant) (w w' : World) : Prop :=
  (exists cmds, dynamo_log w' = dynamo_log w ++ cmds
                /\ Forall (fun c => permits grants c = true) cmds)
  /\ (Stack.TopicPublish ∉ grants -> sns_log w' = sns_log w)
  /\ (Stack.ModelInvoke ∉ grants -> bedrock_log w' = bedrock_log w).

(** The names of the environments the API configuration knows. *)
Definition environments : list string := ["dev"; "staging"; "prod"].

(** The record's original feedback is a string, when it has one that
    counts ([item.originalFeedback || '']). *)
Definition feedback_is_text (item : Item) : Prop :=
  exists s, or_else (assoc "originalFeedback" item) (VStr "") = VStr s.

End MoreVocabulary.

(* ===================================================================== *)
(** ** Concrete requests, batches and environments *)
(* ===================================================================== *)

Module Examples.
Import JS Cloud.

(** An environment in which every service answers: the clock advances by
    one millisecond per reading, the topic numbers its messages, the store
    accepts every command, and the model call is rejected. *)
Definition env : Env :=
  {| clock := fun n => (1700000000000 + Z.of_nat n)%Z;
     bedrock_send := fun _ _ => inl (mkExn ServiceException "ThrottlingException");
     dynamo_fault := fun _ _ => None;
     sns_send := fun n _ => inr ("msg-" ++ string_of_Z (Z.of_nat n))%string;
     SNS_TOPIC_ARN := "arn:aws:sns:eu-central-1:123456789012:FeedbackRecommendations-dev";
     BEDROCK_MODEL_ID := "anthropic.claude-3-sonnet-20240229-v1:0";
     NODE_ENV := "dev" |}.

Definition world0 : World :=
  {| table := ∅; clock_reads := 0; bedrock_log := []; dynamo_log := [];
     sns_log := [] |}.

Definition request (user : string) (b : string) : ApiEvent :=
  {| sub := Some user; path_timestamp := None; queryStringParameters := None;
     body := Some b |}.

Fixpoint spaces (n : nat) : string :=
  match n with
  | O => EmptyString
  | S n' => String " " (spaces n')
  end.

(** A feedback of one letter followed by 10,000 spaces. *)
Definition padded_text : string := String "a" (spaces 10000).

Definition padded_request : ApiEvent :=
  request "U1" (Node.stringify (VObj [("feedback", VStr padded_text)])).

(** tags given as a string, feedback missing *)
Definition untagged_request : ApiEvent :=
  request "U1" (Node.stringify (VObj [("tags", VStr "urgent")])).

Definition good_request : ApiEvent :=
  request "U1"
    (Node.stringify
       (VObj [("feedback", VStr "  Response times are slow ");
              ("tags", VArr [VStr "performance"])])).

(** *** Batches for the worker *)

(** The SQS body of a submission: the SNS notification around the
    serialized envelope. *)
Definition sqs_body (envelope : Value) : string :=
  Node.stringify
    (VObj [("Type", VStr "Notification");
           ("Message", VStr (Node.stringify envelope))]).

Definition submission (user text : string) (ts : Z) : Value :=
  VObj [("userId", VStr user); ("feedback", VStr text); ("timestamp", VNum ts);
        ("tags", VArr []); ("feedbackType", VStr "general")].

Definition record1 : ProcessFeedback.SQSRecord :=
  {| ProcessFeedback.messageId := "m1";
     ProcessFeedback.record_body := sqs_body (submission "U1" "Response times are slow" 1001) |}.

Definition record2 : ProcessFeedback.SQSRecord :=
  {| ProcessFeedback.messageId := "m2";
     ProcessFeedback.record_body := sqs_body (submission "U2" "The export button is hard to find" 1002) |}.

Definition record3 : ProcessFeedback.SQSRecord :=
  {| ProcessFeedback.messageId := "m3";
     ProcessFeedback.record_body := sqs_body (submission "U3" "Login fails on mobile" 1003) |}.

(** A message with no feedback *)
Definition record_without_feedback : ProcessFeedback.SQSRecord :=
  {| ProcessFeedback.messageId := "m4";
     ProcessFeedback.record_body := sqs_body (VObj [("userId", VStr "U4")]) |}.

(** A message whose body is not JSON *)
Definition record_unparsable : ProcessFeedback.SQSRecord :=
  {| ProcessFeedback.messageId := "m5";
     ProcessFeedback.record_body := "not json" |}.

(** A response of the model whose text is [answer], serialized. *)
Definition model_response (answer : Value) : string :=
  Node.stringify
    (VObj [("content",
            VArr [VObj [("type", VStr "text");
                        ("text", VStr (Node.stringify answer))]])]).

Definition two_items : Value :=
  VArr [VObj [("title", VStr "Add caching"); ("description", VStr "Cache hot queries");
              ("priority", VStr "high"); ("category", VStr "performance")];
        VObj [("title", VStr "Profile the API"); ("priority", VStr "urgent")]].

(** An object where an array is expected *)
Definition one_object : Value :=
  VObj [("title", VStr "Add caching"); ("priority", VStr "high")].

(** The model answers the first two calls with an array and every later
    call with an object. *)
Definition env_object_third : Env :=
  {| clock := clock env;
     bedrock_send := fun n _ =>
       if (n <? 2)%nat then inr (model_response two_items)
       else inr (model_response one_object);
     dynamo_fault := dynamo_fault env;
     sns_send := sns_send env;
     SNS_TOPIC_ARN := SNS_TOPIC_ARN env;
     BEDROCK_MODEL_ID := BEDROCK_MODEL_ID env;
     NODE_ENV := NODE_ENV env |}.

(** The model answers every call with an object. *)
Definition env_object : Env :=
  {| clock := clock env;
     bedrock_send := fun _ _ => inr (model_response one_object);
     dynamo_fault := dynamo_fault env;
     sns_send := sns_send env;
     SNS_TOPIC_ARN := SNS_TOPIC_ARN env;
     BEDROCK_MODEL_ID := BEDROCK_MODEL_ID env;
     NODE_ENV := NODE_ENV env |}.

(** *** Tables for the query surface *)

Definition stored (user : string) (ts : Z) (category : string)
    (tags : list string) (completed : bool) : Key * Item :=
  ((user, ts),
   [("userId", VStr user); ("timestamp", VNum ts);
    ("feedbackType", VStr category);
    ("originalFeedback", VStr "Response times are slow");
    ("recommendations", VArr [ProcessFeedback.fallback_item ts]);
    ("generatedAt", VStr (Node.iso ts));
    ("modelId", VStr "anthropic.claude-3-sonnet-20240229-v1:0");
    ("tags", VArr (map VStr tags));
    ("completed", VBool completed);
    ("updatedAt", VStr (Node.iso ts))]).

Definition with_table (t : Table) : World :=
  {| table := t; clock_reads := 0; bedrock_log := []; dynamo_log := [];
     sns_log := [] |}.

Definition small_table : Table :=
  list_to_map
    [stored "U1" 1700000000000 "general" ["a"; "x"] false;
     stored "U1" 1700000001000 "general" ["b"] true;
     stored "U1" 1700000002000 "billing" ["c"] false;
     stored "U2" 1700000003000 "general" ["a"] false].

(** 57 records of U1, one millisecond apart, and two of U2. *)
Definition big_table : Table :=
  list_to_map
    (map (fun i => stored "U1" (1700000000000 + Z.of_nat i) "general" [] false)
       (seq 0 57)
     ++ [stored "U2" 1700000000000 "general" [] false;
         stored "U2" 1700000000001 "general" [] false]).

Definition update_request (b : Value) : ApiEvent :=
  {| sub := Some "U1"; path_timestamp := Some "1700000000000";
     queryStringParameters := None; body := Some (Node.stringify b) |}.

Definition search_request (q : gmap string string) : ApiEvent :=
  {| sub := Some "U1"; path_timestamp := None;
     queryStringParameters := Some q; body := None |}.

Definition tags_query : gmap string string :=
  {[ "tags" := "a, b"; "completed" := "false" ]}.

Definition delete_request_of (user : string) : ApiEvent :=
  {| sub := Some user; path_timestamp := None; queryStringParameters := None;
     body := None |}.

End Examples.

(* ===================================================================== *)
(** ** More requests and batches *)
(* ===================================================================== *)

Module MoreExamples.
Import JS Cloud Examples.

(** A submission whose body is the JSON literal null. *)
Definition null_request : ApiEvent := request "U1" "null".

(** A search for the records submitted since 14 November 2023. *)
Definition dated_query : gmap string string :=
  {[ "fromDate" := "2023-11-14" ]}.

(** A search for the general records not completed that carry a or b. *)
Definition plain_query : gmap string string :=
  {[ "feedbackType" := "general"; "completed" := "false"; "tags" := "a,b" ]}.

(** What [plain_query] asks for. *)
Definition plain_asked : Asked :=
  {| a_category := Some "general"%string; a_completed := Some false;
     a_tags := ["a"; "b"]%string |}.

(** A search request without a query string. *)
Definition bare_search : ApiEvent :=
  {| sub := Some "U1"; path_timestamp := None; queryStringParameters := None;
     body := None |}.

(** A request that carries no caller identity. *)
Definition anonymous_request : ApiEvent :=
  {| sub := None; path_timestamp := Some "1700000000000";
     queryStringParameters := None; body := Some "{}" |}.

(** An update whose path does not hold a number. *)
Definition misaddressed_update : ApiEvent :=
  {| sub := Some "U1"; path_timestamp := Some "latest";
     queryStringParameters := None;
     body := Some (Node.stringify (VObj [("completed", VBool true)])) |}.

(** A batch whose second message is not JSON. *)
Definition broken_batch : list ProcessFeedback.SQSRecord :=
  [record1; record_unparsable; record3].

(** The record of U1 at the timestamp of [record1], already completed. *)
Definition table_with_completed : Table :=
  <[("U1"%string, 1001%Z) := snd (stored "U1" 1001 "general" ["done"] true)]>
    small_table.



(** The properties bin/serverless-backend.js passes, with a user pool
    of the account and region it names. *)
Definition pool_arn : string :=
  "arn:aws:cognito-idp:eu-central-1:695438154048:userpool/eu-central-1_AbCdEf123".

Definition stack_props : Stack.StackProps :=
  {| Stack.cognitoUserPoolArn := Some pool_arn;
     Stack.environment := None;
     Stack.bedrockModelId := None |}.

(** The stack constructed from them. *)
Definition dev_deployment : Stack.Deployment :=
  {| Stack.tableName := "Recommendations-dev";
     Stack.lambdas :=
       Stack.LambdaConstruct "dev" "Recommendations-dev" (SNS_TOPIC_ARN env)
         "anthropic.claude-3-sonnet-20240229-v1:0";
     Stack.grants := Stack._grantPermissions;
     Stack.api :=
       Stack.Config
         {| Stack.stageName := "api"; Stack.enableCloudWatchLogs := false;
            Stack.loggingLevel := "INFO";
            Stack.rateLimit := 10000; Stack.burstLimit := 5000;
            Stack.allowOrigins := ["http://localhost:3000"; "http://localhost:3001"];
            Stack.allowCredentials := true |};
     Stack.userPool := ("eu-central-1"%string, "eu-central-1_AbCdEf123"%string) |}.

End MoreExamples.

(* ===================================================================== *)
(** ** Computations that leave the store and the topic alone *)
(* ===================================================================== *)

Module Frame.
Import JS Cloud.

Lemma quiet_ret {A} (a : A) : quiet (ret a).
Proof. intros w. done. Qed.

Lemma quiet_throw {A} (e : Exn) : quiet (@throw A e).
Proof. intros w. done. Qed.

Lemma quiet_lift {A} (r : Res A) : quiet (lift r).
Proof. intros w. done. Qed.

Lemma quiet_bind {A B} (c : M A) (k : A -> M B) :
  quiet c -> (forall a, quiet (k a)) -> quiet (bind c k).
Proof.
  intros Hc Hk w. unfold bind. specialize (Hc w).
  destruct (c w) as [[e|a] w1]; [exact Hc|].
  specialize (Hk a w1). cbn [snd] in Hc.
  destruct Hc as (<- & <- & <-). exact Hk.
Qed.

Lemma quiet_Date_now (E : Env) : quiet (Date_now E).
Proof. intros w. done. Qed.

Lemma quiet_invoke_model (E : Env) (input : InvokeInput) :
  quiet (invoke_model E input).
Proof. intros w. done. Qed.

End Frame.

(* ===================================================================== *)
(** ** Properties of the submission intake *)
(* ===================================================================== *)

Section IntakeProperties.
Import JS Cloud PostFeedback.
Context {RT : Runtime} (E : Env).

Lemma trim_empty : trim "" = ""%string.
Proof. reflexivity. Qed.

Lemma handler_parsed (event : ApiEvent) (userId : string) (requestBody : Value)
    (w : World) :
  sub event = Some userId -> userId <> ""%string ->
  JSON_parse (body_or_empty (body event)) = inr requestBody ->
  requestBody <> VNull ->
  handler E event w =
  try_catch (submit E userId requestBody)
    (fun e => ret (internal_error E "Failed to submit feedback for processing" e)) w.
Proof.
  intros Hsub Hne Hparse Hnull.
  unfold handler, try_catch. rewrite Hsub. simpl.
  apply String.eqb_neq in Hne. rewrite Hne, Hparse. reflexivity.
Qed.

Lemma submit_checked (requestBody : Value) (w : World) :
  requestBody <> VNull ->
  lift (destructurable requestBody "feedback" "requestBody") w = (inr tt, w).
Proof. intros H. destruct requestBody; try reflexivity. congruence. Qed.

(** X27. A submission with a caller identity whose body is not JSON, or
    whose feedback is missing, not a string, empty after trimming or longer
    than 10,000 characters, or whose tags are present but not an array, is
    turned down and nothing is done: no message is published, the clock is
    not read, the table is untouched.  The answer is 400 Bad Request, except
    for the body that parses to null: there the fields cannot be taken out
    of the body, and the answer is the 500 of the catch-all. *)
Theorem invalid_submission_is_turned_down (event : ApiEvent) (userId : string)
    (w : World) :
  sub event = Some userId -> userId <> ""%string ->
  invalid_submission (JSON_parse (body_or_empty (body event))) ->
  exists resp,
    handler E event w = (inr resp, w)
    /\ (JSON_parse (body_or_empty (body event)) <> inr VNull ->
        exists msg,
          resp = {| statusCode := 400;
                    response_body :=
                      VObj [("error", VStr "Bad Request");
                            ("message", VStr msg)] |})
    /\ (JSON_parse (body_or_empty (body event)) = inr VNull ->
        resp = internal_error E "Failed to submit feedback for processing"
                 (mkExn TypeError (destructure_message "feedback" "requestBody"))).
Proof.
  intros Hsub Hne Hbad.
  destruct (JSON_parse (body_or_empty (body event))) as [e|requestBody] eqn:Hparse.
  { unfold handler, try_catch. rewrite Hsub. cbn [no_user].
    apply String.eqb_neq in Hne. rewrite Hne, Hparse. eexists.
    split; [reflexivity|]. split; [eexists; reflexivity | discriminate]. }
  assert (Hcase : requestBody = VNull \/ requestBody <> VNull)
    by (destruct requestBody; [left; reflexivity | right; discriminate..]).
  destruct Hcase as [-> | Hnull].
  { unfold handler, try_catch. rewrite Hsub. cbn [no_user].
    apply String.eqb_neq in Hne. rewrite Hne, Hparse. eexists.
    split; [reflexivity|]. split; [congruence | reflexivity]. }
  unfold invalid_submission in Hbad.
  rewrite (handler_parsed _ _ _ _ Hsub Hne Hparse Hnull).
  unfold try_catch, submit, bind. rewrite submit_checked by assumption.
  assert (Hout : forall msg,
            exists resp,
              (inr (bad_request msg), w) = (@inr Exn Response resp, w)
              /\ (@inr Exn Value requestBody <> inr VNull ->
                  exists msg',
                    resp = {| statusCode := 400;
                              response_body :=
                                VObj [("error", VStr "Bad Request");
                                      ("message", VStr msg')] |})
              /\ (@inr Exn Value requestBody = inr VNull ->
                  resp = internal_error E "Failed to submit feedback for processing"
                           (mkExn TypeError
                              (destructure_message "feedback" "requestBody")))).
  { intros msg. exists (bad_request msg). split; [reflexivity|].
    split; [intros _; exists msg; reflexivity | congruence]. }
  destruct (get_opt (Some requestBody) "feedback") as [[| | |text| |]|] eqn:Hf;
    try apply Hout.
  destruct (String.eqb text "" || (Z.of_nat (String.length (trim text)) =? 0)%Z) eqn:Hempty;
    [apply Hout|].
  destruct (10000 <? Z.of_nat (String.length text))%Z eqn:Hlong;
    [apply Hout|].
  apply orb_false_iff in Hempty as [_ Hlen].
  apply Z.eqb_neq in Hlen. apply Z.ltb_ge in Hlong.
  destruct Hbad as [[Hz | Hl] | (t & Ht & Harr)]; [lia | lia |].
  rewrite Ht, Harr. apply Hout.
Qed.

(** C10. The 10,000-character limit is tested on the text as sent, not on
    the trimmed text: when the trimmed text has between 1 and 10,000
    characters but the raw text has more than 10,000, the answer is the
    400 of the length check and nothing is published. *)
Theorem intake_limit_is_on_raw_text (event : ApiEvent) (userId : string)
    (requestBody : Value) (text : string) (w : World) :
  sub event = Some userId -> userId <> ""%string ->
  JSON_parse (body_or_empty (body event)) = inr requestBody ->
  get_opt (Some requestBody) "feedback" = Some (VStr text) ->
  (1 <= Z.of_nat (String.length (trim text)) <= 10000)%Z ->
  (10000 < Z.of_nat (String.length text))%Z ->
  handler E event w =
    (inr (bad_request "Feedback text must not exceed 10,000 characters"), w)
  /\ statusCode (bad_request "Feedback text must not exceed 10,000 characters") = 400%Z.
Proof.
  intros Hsub Hne Hparse Hf Htrim Hraw.
  assert (Hnull : requestBody <> VNull) by (intros ->; discriminate).
  rewrite (handler_parsed _ _ _ _ Hsub Hne Hparse Hnull).
  unfold try_catch, submit, bind. rewrite submit_checked by assumption.
  rewrite Hf.
  assert (Hne' : String.eqb text "" = false).
  { apply String.eqb_neq. intros ->. rewrite trim_empty in Htrim. simpl in Htrim. lia. }
  assert (Hlen : (Z.of_nat (String.length (trim text)) =? 0)%Z = false)
    by (apply Z.eqb_neq; lia).
  rewrite Hne', Hlen. simpl.
  apply Z.ltb_lt in Hraw. rewrite Hraw. split; reflexivity.
Qed.

(** C6 (amended). A submission with a caller identity whose feedback is a
    string of at most 10,000 characters with at least one character left
    after trimming, and whose tags are absent or an array, reads the clock
    once and sends exactly one Publish, whose Message is the serialized
    envelope with the caller as userId, the trimmed text, the clock
    reading, the tags or the empty array, and the feedbackType or
    "general"; when the topic returns a MessageId the answer is 202 with
    that identifier and the status "processing". *)
Theorem intake_publishes_one_envelope (event : ApiEvent) (userId : string)
    (requestBody : Value) (text mid : string) (w : World) :
  sub event = Some userId -> userId <> ""%string ->
  JSON_parse (body_or_empty (body event)) = inr requestBody ->
  get_opt (Some requestBody) "feedback" = Some (VStr text) ->
  (1 <= Z.of_nat (String.length (trim text)))%Z ->
  (Z.of_nat (String.length text) <= 10000)%Z ->
  isArray (default (VArr []) (get_opt (Some requestBody) "tags")) = true ->
  let now := clock E (clock_reads w) in
  let tags := get_opt (Some requestBody) "tags" in
  let feedbackType := get_opt (Some requestBody) "feedbackType" in
  let published :=
    {| TopicArn := SNS_TOPIC_ARN E;
       Message :=
         JSON_stringify
           (VObj [("userId", VStr userId);
                  ("feedback", VStr (trim text));
                  ("timestamp", VNum now);
                  ("tags", default (VArr []) tags);
                  ("feedbackType",
                   match feedbackType with
                   | Some c => if truthy c then c else VStr "general"
                   | None => VStr "general"
                   end)]);
       Subject := "Feedback Recommendation Request";
       attr_userId := userId;
       attr_timestamp := string_of_Z now |} in
  sns_send E (length (sns_log w)) published = inr mid ->
  exists w',
    handler E event w =
      (inr {| statusCode := 202;
              response_body :=
                VObj [("message", VStr "Feedback submitted successfully for processing");
                      ("messageId", VStr mid);
                      ("status", VStr "processing")] |}, w')
    /\ sns_log w' = sns_log w ++ [published]
    /\ clock_reads w' = S (clock_reads w)
    /\ table w' = table w.
Proof.
  intros Hsub Hne Hparse Hf Htrim Hraw Htags now tags feedbackType published Hsend.
  assert (Hnull : requestBody <> VNull) by (intros ->; discriminate).
  rewrite (handler_parsed _ _ _ _ Hsub Hne Hparse Hnull).
  unfold try_catch, submit, bind. rewrite submit_checked by assumption.
  rewrite Hf. fold tags feedbackType in Htags |- *.
  clearbody tags feedbackType.
  assert (Hne' : String.eqb text "" = false).
  { apply String.eqb_neq. intros ->. rewrite trim_empty in Htrim. simpl in Htrim. lia. }
  assert (Hlen : (Z.of_nat (String.length (trim text)) =? 0)%Z = false)
    by (apply Z.eqb_neq; lia).
  assert (Hshort : (10000 <? Z.of_nat (String.length text))%Z = false)
    by (apply Z.ltb_ge; lia).
  rewrite Hne', Hlen, Hshort.
  assert (Henv : publish_input E userId now
                   (envelope userId (trim text) now tags feedbackType) = published).
  { unfold publish_input, envelope, published. do 3 f_equal.
    destruct tags as [t|]; [|reflexivity].
    simpl in Htags. destruct t; try discriminate. reflexivity. }
  replace (match tags with Some t => negb (isArray t) | None => false end) with false
    by (destruct tags as [t|]; [simpl in Htags; rewrite Htags|]; reflexivity).
  cbn [orb]. unfold Date_now, sns_publish, ret. fold now.
  rewrite Henv. cbn [sns_log]. rewrite Hsend.
  eexists. split; [reflexivity|]. simpl. auto.
Qed.

End IntakeProperties.

(* ===================================================================== *)
(** ** Properties of the enrichment worker *)
(* ===================================================================== *)

Import Frame.

(** Splits a sequence of quiet steps into its steps. *)
Ltac quiet_steps :=
  repeat first
    [ apply quiet_ret | apply quiet_throw | apply quiet_lift
    | apply quiet_Date_now | apply quiet_invoke_model
    | apply quiet_bind; [|intros ?] ].

Section WorkerProperties.
Import JS Cloud ProcessFeedback.
Context {RT : Runtime} (E : Env).

Lemma process_record_parsed (record : SQSRecord) (message : Value)
    (results : Results) (w : World) :
  delivers record message ->
  process_record E record results w =
  (if negb (truthy_opt (get_opt (Some message) "userId"))
      || negb (truthy_opt (get_opt (Some message) "feedback"))
   then ret (push_failed results
               (failed_entry (messageId record) "Invalid message format"))
   else enrich_and_store E record results message
          (default VNull (get_opt (Some message) "userId"))
          (default VNull (get_opt (Some message) "feedback"))) w.
Proof.
  intros (snsMessage & inner & Hbody & Hmsg & Hinner & Hnull).
  unfold process_record, bind, lift. rewrite Hbody, Hmsg, Hinner.
  destruct message; try reflexivity. congruence.
Qed.

(** The calls made while asking the model leave the table alone. *)
Lemma sanitize_quiet (rec : Value) (index : nat) : quiet (sanitize E rec index).
Proof. unfold sanitize. quiet_steps. Qed.

Lemma sanitize_all_quiet (recs : list Value) (index : nat) :
  quiet (sanitize_all E recs index).
Proof.
  revert index. induction recs as [|rec rest IH]; intros index; cbn [sanitize_all].
  - quiet_steps.
  - apply quiet_bind; [apply sanitize_quiet|]. intros r.
    apply quiet_bind; [apply IH|]. intros rs. quiet_steps.
Qed.

Lemma ask_model_quiet (input : InvokeInput) : quiet (ask_model E input).
Proof.
  unfold ask_model. quiet_steps.
  destruct (or_else _ _); quiet_steps.
  match goal with |- quiet (match ?x with VArr _ => _ | _ => _ end) => destruct x end;
    quiet_steps.
  apply sanitize_all_quiet.
Qed.

(** What the worker stores for a message once the model has been asked
    and the recommendations are known. *)
Lemma store_step (record : SQSRecord) (results : Results)
    (message feedback : Value) (uid : string) (recs : list Value) (w : World) :
  (forall t, get_opt (Some message) "timestamp" = Some t -> truthy t = true ->
             exists n, t = VNum n) ->
  (forall c, dynamo_fault E (length (dynamo_log w)) c = None) ->
  exists (key : Key) (item : Item) (w' : World),
    (let* timestamp := timestamp_or_now E (get_opt (Some message) "timestamp") in
     let* generatedAt := Date_now E in
     let* updatedAt := Date_now E in
     dynamo_send E
       (PutCommand (new_item E (VStr uid) feedback timestamp message recs
                      generatedAt updatedAt)) ;;;
     ret (push_successful results
            (successful_entry (messageId record) (VStr uid))))%js w
    = (inr (push_successful results
              (successful_entry (messageId record) (VStr uid))), w')
    /\ table w' = <[key := item]> (table w)
    /\ dynamo_log w' = dynamo_log w ++ [PutCommand item]
    /\ fst key = uid
    /\ assoc "userId" item = Some (VStr uid)
    /\ assoc "originalFeedback" item = Some feedback
    /\ assoc "recommendations" item = Some (VArr recs)
    /\ assoc "completed" item = Some (VBool false).
Proof.
  intros Hts Hstore.
  unfold timestamp_or_now.
  destruct (get_opt (Some message) "timestamp") as [t|] eqn:Ht.
  - cbn [truthy_opt]. destruct (truthy t) eqn:Htruthy.
    + destruct (Hts t eq_refl Htruthy) as [n ->].
      unfold bind, ret, Date_now, dynamo_send. cbn -[new_item].
      rewrite Hstore. cbn.
      eexists (uid, n), _, _. repeat split; reflexivity.
    + unfold bind, ret, Date_now, dynamo_send. cbn -[new_item].
      rewrite Hstore. cbn.
      eexists (uid, _), _, _. repeat split; reflexivity.
  - unfold bind, ret, Date_now, dynamo_send. cbn -[new_item].
    rewrite Hstore. cbn.
    eexists (uid, _), _, _. repeat split; reflexivity.
Qed.

(** When the try block of generateRecommendations ends in an error, the
    function returns the fallback array, stamped with the next clock
    reading. *)
Lemma generateRecommendations_fallback (feedback : Value) (text : string)
    (e : Exn) (w w1 : World) :
  ToString feedback = inr text ->
  ask_model E (invoke_input E text) w = (inl e, w1) ->
  exists w2,
    generateRecommendations E feedback w
    = (inr [fallback_item (clock E (clock_reads w1))], w2)
    /\ table w2 = table w /\ dynamo_log w2 = dynamo_log w.
Proof.
  intros Htext Hask.
  pose proof (ask_model_quiet (invoke_input E text) w) as (Ht & Hd & _).
  rewrite Hask in Ht, Hd. cbn [snd] in Ht, Hd.
  unfold generateRecommendations, bind, lift, try_catch. rewrite Htext, Hask.
  unfold fallback, bind, Date_now, ret.
  eexists. split; [reflexivity|]. cbn [table dynamo_log]. auto.
Qed.

(** A message that arrives whole, with a user and a feedback, whose model
    call fails: the record is stored with the fallback array and counted
    as successful. *)
Lemma process_record_fallback (record : SQSRecord) (results : Results)
    (message feedback : Value) (uid text : string) (e : Exn) (w w1 : World) :
  delivers record message ->
  get_opt (Some message) "userId" = Some (VStr uid) -> uid <> ""%string ->
  get_opt (Some message) "feedback" = Some feedback -> truthy feedback = true ->
  ToString feedback = inr text ->
  ask_model E (invoke_input E text) w = (inl e, w1) ->
  timestamp_is_number message ->
  store_accepts_next E w ->
  exists (key : Key) (item : Item) (w' : World),
    process_record E record results w
    = (inr (push_successful results
              (successful_entry (messageId record) (VStr uid))), w')
    /\ table w' = <[key := item]> (table w)
    /\ dynamo_log w' = dynamo_log w ++ [PutCommand item]
    /\ fst key = uid
    /\ assoc "userId" item = Some (VStr uid)
    /\ assoc "originalFeedback" item = Some feedback
    /\ assoc "recommendations" item
       = Some (VArr [fallback_item (clock E (clock_reads w1))])
    /\ assoc "completed" item = Some (VBool false).
Proof.
  intros Hdel Hu Hne Hf Htruthy Htext Hask Hts Hstore.
  rewrite (process_record_parsed _ _ _ _ Hdel), Hu, Hf.
  cbn [truthy_opt truthy default from_option id]. apply String.eqb_neq in Hne.
  rewrite Hne, Htruthy. cbn [negb orb].
  destruct (generateRecommendations_fallback _ _ _ _ _ Htext Hask)
    as (w2 & Hgen & Htable & Hlog).
  unfold enrich_and_store. unfold bind at 1. rewrite Hgen.
  assert (Hstore2 : forall c, dynamo_fault E (length (dynamo_log w2)) c = None)
    by (rewrite Hlog; exact Hstore).
  destruct (store_step record results message feedback uid
              [fallback_item (clock E (clock_reads w1))] w2 Hts Hstore2)
    as (key & item & w' & Hrun & Ht & Hd & Hrest).
  exists key, item, w'. rewrite Hrun, Ht, Hd, Htable, Hlog. auto.
Qed.


(** Ways for the try block to end in an error: the InvokeModel call is
    rejected (a timeout, a throttled request), the response body is not
    JSON, the model's text is not JSON. *)
Lemma ask_model_rejected (input : InvokeInput) (e : Exn) (w : World) :
  bedrock_send E (length (bedrock_log w)) input = inl e ->
  fst (ask_model E input w) = inl e.
Proof.
  intros Hsend. unfold ask_model, bind, invoke_model. rewrite Hsend. reflexivity.
Qed.

Lemma ask_model_bad_response (input : InvokeInput) (body : string) (e : Exn)
    (w : World) :
  bedrock_send E (length (bedrock_log w)) input = inr body ->
  JSON_parse body = inl e ->
  fst (ask_model E input w) = inl e.
Proof.
  intros Hsend Hbody. unfold ask_model, bind, invoke_model, lift.
  rewrite Hsend, Hbody. reflexivity.
Qed.

Lemma ask_model_bad_text (input : InvokeInput) (body modelText : string)
    (responseBody : Value) (content : option Value) (e : Exn) (w : World) :
  bedrock_send E (length (bedrock_log w)) input = inr body ->
  JSON_parse body = inr responseBody ->
  get responseBody "content" = inr content ->
  or_else (get_opt (get0_opt content) "text") (VStr "") = VStr modelText ->
  JSON_parse (trim (remove_all "```" (remove_all "```json" modelText))) = inl e ->
  fst (ask_model E input w) = inl e.
Proof.
  intros Hsend Hbody Hcontent Htext Hanswer.
  unfold ask_model, bind, invoke_model, lift.
  rewrite Hsend, Hbody, Hcontent, Htext, Hanswer. reflexivity.
Qed.

(** A model text that parses to something other than an array makes the
    try block throw its own error. *)
Lemma ask_model_not_array (text body modelText : string)
    (responseBody answer : Value) (content : option Value) (w : World) :
  bedrock_send E (length (bedrock_log w)) (invoke_input E text) = inr body ->
  JSON_parse body = inr responseBody ->
  get responseBody "content" = inr content ->
  or_else (get_opt (get0_opt content) "text") (VStr "") = VStr modelText ->
  JSON_parse (trim (remove_all "```" (remove_all "```json" modelText))) = inr answer ->
  isArray answer = false ->
  exists w1,
    ask_model E (invoke_input E text) w = (inl not_an_array, w1)
    /\ clock_reads w1 = clock_reads w.
Proof.
  intros Hsend Hbody Hcontent Htext Hanswer Harr.
  unfold ask_model, bind, invoke_model, lift. rewrite Hsend, Hbody, Hcontent, Htext, Hanswer.
  destruct answer; try discriminate; eexists; split; reflexivity.
Qed.

(** C1 (amended). A model response that is not an array does not end the
    batch.  The error raised for it inside generateRecommendations is
    caught there and replaced by the fallback recommendation; the record is
    stored with it (the store accepting the write), the message is counted
    as successful, and the loop goes on with the rest of the batch. *)
Theorem non_array_response_gets_fallback (record : SQSRecord)
    (rest : list SQSRecord) (results : Results) (message feedback : Value)
    (uid text body modelText : string) (responseBody answer : Value)
    (content : option Value) (w : World) :
  delivers record message ->
  get_opt (Some message) "userId" = Some (VStr uid) -> uid <> ""%string ->
  get_opt (Some message) "feedback" = Some feedback -> truthy feedback = true ->
  ToString feedback = inr text ->
  bedrock_send E (length (bedrock_log w)) (invoke_input E text) = inr body ->
  JSON_parse body = inr responseBody ->
  get responseBody "content" = inr content ->
  or_else (get_opt (get0_opt content) "text") (VStr "") = VStr modelText ->
  JSON_parse (trim (remove_all "```" (remove_all "```json" modelText))) = inr answer ->
  isArray answer = false ->
  timestamp_is_number message ->
  store_accepts_next E w ->
  exists (key : Key) (item : Item) (w' : World),
    generateRecommendations E feedback w
    = (inr [fallback_item (clock E (clock_reads w))],
       snd (generateRecommendations E feedback w))
    /\ process_records E (record :: rest) results w
       = process_records E rest
           (push_successful results
              (successful_entry (messageId record) (VStr uid))) w'
    /\ table w' = <[key := item]> (table w)
    /\ fst key = uid
    /\ assoc "recommendations" item
       = Some (VArr [fallback_item (clock E (clock_reads w))]).
Proof.
  intros Hdel Hu Hne Hf Htruthy Htext Hsend Hbody Hcontent Hmodel Hanswer Harr
    Hts Hstore.
  destruct (ask_model_not_array text body modelText responseBody answer content w
              Hsend Hbody Hcontent Hmodel Hanswer Harr) as (w1 & Hask & Hclock).
  destruct (process_record_fallback record results message feedback uid text _
              w w1 Hdel Hu Hne Hf Htruthy Htext Hask Hts Hstore)
    as (key & item & w' & Hrun & Ht & _ & Hk & _ & _ & Hrecs & _).
  destruct (generateRecommendations_fallback _ _ _ _ _ Htext Hask)
    as (w2 & Hgen & _).
  exists key, item, w'. rewrite Hclock in *.
  split; [rewrite Hgen; reflexivity|].
  split; [cbn [process_records]; rewrite Hrun; reflexivity|]. auto.
Qed.

(** C2 (amended). A message whose body parses, to a payload other than
    null, but which carries no user or no feedback (absent or falsy) is
    set aside on the spot: it is added to the failed list as "Invalid
    message format", nothing is thrown, no service is called, and the loop
    goes on with the next record. *)
Theorem incomplete_message_is_skipped (record : SQSRecord)
    (rest : list SQSRecord) (results : Results) (message : Value) (w : World) :
  delivers record message ->
  truthy_opt (get_opt (Some message) "userId") = false
  \/ truthy_opt (get_opt (Some message) "feedback") = false ->
  process_record E record results w
  = (inr {| successful := successful results;
            failed :=
              failed results
              ++ [VObj [("messageId", VStr (messageId record));
                        ("error", VStr "Invalid message format")]] |}, w)
  /\ process_records E (record :: rest) results w
     = process_records E rest
         {| successful := successful results;
            failed :=
              failed results
              ++ [VObj [("messageId", VStr (messageId record));
                        ("error", VStr "Invalid message format")]] |} w.
Proof.
  intros Hdel Hmissing.
  assert (Hrun : process_record E record results w
                 = (inr (push_failed results
                           (failed_entry (messageId record) "Invalid message format")), w)).
  { rewrite (process_record_parsed _ _ _ _ Hdel).
    destruct Hmissing as [-> | ->]; [reflexivity|].
    rewrite orb_true_r. reflexivity. }
  split; [exact Hrun|]. cbn [process_records]. rewrite Hrun. reflexivity.
Qed.

End WorkerProperties.

(* ===================================================================== *)
(** ** Properties of the update operation *)
(* ===================================================================== *)

Section AssocFacts.
Import JS.
Context {A : Type}.

Lemma assoc_set_eq (k : string) (v : A) (l : list (string * A)) :
  assoc k (assoc_set k v l) = Some v.
Proof.
  induction l as [|[k' v'] l IH]; cbn [assoc_set assoc].
  - rewrite String.eqb_refl. reflexivity.
  - destruct (String.eqb k k') eqn:Hk; cbn [assoc].
    + rewrite String.eqb_refl. reflexivity.
    + rewrite Hk. exact IH.
Qed.

Lemma assoc_set_ne (k k' : string) (v : A) (l : list (string * A)) :
  k <> k' -> assoc k' (assoc_set k v l) = assoc k' l.
Proof.
  intros Hne. induction l as [|[k0 v0] l IH]; cbn [assoc_set assoc].
  - destruct (String.eqb k' k) eqn:Hk; [|reflexivity].
    apply String.eqb_eq in Hk. congruence.
  - destruct (String.eqb k k0) eqn:Hk; cbn [assoc].
    + apply String.eqb_eq in Hk. subst k0.
      destruct (String.eqb k' k) eqn:Hk'; [|reflexivity].
      apply String.eqb_eq in Hk'. congruence.
    + destruct (String.eqb k' k0); [reflexivity|exact IH].
Qed.

End AssocFacts.

Section UpdateProperties.
Import JS Cloud UpdateRecommendation.
Context {RT : Runtime} (E : Env).

Lemma get_not_null (v : Value) (k : string) :
  v <> VNull -> get v k = inr (get_opt (Some v) k).
Proof. destruct v; try reflexivity. congruence. Qed.

Lemma handler_valid_request (event : ApiEvent) (userId : string) (ts : Z)
    (requestBody : Value) (w : World) :
  sub event = Some userId -> userId <> ""%string ->
  parseInt_opt (path_timestamp event) = Some ts -> ts <> 0%Z ->
  JSON_parse (body_or_empty (body event)) = inr requestBody ->
  handler E event w =
  try_catch (update E (userId, ts) requestBody)
    (fun e => ret (internal_error E "Failed to update recommendation" e)) w.
Proof.
  intros Hsub Hne Hts Hnz Hparse.
  unfold handler, try_catch. rewrite Hsub. cbn [no_user default from_option id].
  apply String.eqb_neq in Hne. apply Z.eqb_neq in Hnz.
  rewrite Hne, Hts, Hnz, Hparse. reflexivity.
Qed.

(** The item an accepted update leaves behind, attribute by attribute. *)
Lemma apply_requested_sets (requestBody : Value) (item : Item) (stamp : Value) :
  let item' :=
    apply_sets
      (requested_sets (get_opt (Some requestBody) "completed")
         (get_opt (Some requestBody) "tags")
         (get_opt (Some requestBody) "recommendations")
         (get_opt (Some requestBody) "feedbackType")
       ++ [("updatedAt", stamp)]) item in
  (forall k, k ∈ whitelist ->
     assoc k item' = match supplied requestBody k with
                     | Some v => Some v
                     | None => assoc k item
                     end)
  /\ assoc "updatedAt" item' = Some stamp
  /\ (forall k, k ∉ whitelist -> k <> "updatedAt"%string ->
        assoc k item' = assoc k item).
Proof.
  intros item'. subst item'. unfold requested_sets.
  destruct (get_opt (Some requestBody) "completed") as [cv|] eqn:Hcv;
    destruct (get_opt (Some requestBody) "tags") as [tv|] eqn:Htv;
    destruct (get_opt (Some requestBody) "recommendations") as [rv|] eqn:Hrv;
    destruct (get_opt (Some requestBody) "feedbackType") as [fv|] eqn:Hfv;
    cbn [isArray_opt]; try destruct (isArray tv) eqn:Harr;
    cbn [field app apply_sets fold_left fst snd].
  all: split; [|split].
  all: try (apply assoc_set_eq).
  all: try (intros k Hk; unfold whitelist in Hk;
            repeat (apply elem_of_cons in Hk as [-> | Hk]);
            [..|by apply elem_of_nil in Hk];
            unfold supplied; cbn [String.eqb Ascii.eqb Bool.eqb andb];
            rewrite ?Hcv, ?Htv, ?Hrv, ?Hfv; cbn [isArray_opt]; rewrite ?Harr;
            repeat first [ rewrite assoc_set_eq
                         | rewrite assoc_set_ne by discriminate ];
            reflexivity).
  all: intros k Hk Hu; unfold whitelist in Hk;
    assert (Hc : "completed"%string <> k)
      by (intros <-; apply Hk; repeat constructor);
    assert (Ht : "tags"%string <> k)
      by (intros <-; apply Hk; repeat constructor);
    assert (Hr : "recommendations"%string <> k)
      by (intros <-; apply Hk; repeat constructor);
    assert (Hf : "feedbackType"%string <> k)
      by (intros <-; apply Hk; repeat constructor);
    assert (Hu' : "updatedAt"%string <> k) by congruence;
    repeat rewrite assoc_set_ne by assumption; reflexivity.
Qed.

Lemma supplies_nothing_sets (requestBody : Value) :
  supplies_nothing requestBody
  = (length (requested_sets (get_opt (Some requestBody) "completed")
               (get_opt (Some requestBody) "tags")
               (get_opt (Some requestBody) "recommendations")
               (get_opt (Some requestBody) "feedbackType")) =? 0)%nat.
Proof.
  unfold supplies_nothing, whitelist, supplied, requested_sets.
  cbn [forallb String.eqb Ascii.eqb Bool.eqb andb].
  destruct (get_opt (Some requestBody) "completed");
    destruct (get_opt (Some requestBody) "tags") as [tv|];
    destruct (get_opt (Some requestBody) "recommendations");
    destruct (get_opt (Some requestBody) "feedbackType");
    cbn [isArray_opt]; try destruct (isArray tv); reflexivity.
Qed.


End UpdateProperties.

(* ===================================================================== *)
(** ** Properties of the search operation *)
(* ===================================================================== *)

Section SearchProperties.
Import JS Cloud SearchRecommendations.
Context {RT : Runtime} (E : Env).

(** C9. The search does not look at the priority parameter: two requests
    by the same caller whose query strings agree on every parameter other
    than priority (which may differ in value or be absent on one side, or
    the query string itself be absent) get the same response, records,
    count and echoed filters included, and leave the same state. *)
Theorem search_ignores_priority (ev1 ev2 : ApiEvent) (w : World) :
  sub ev1 = sub ev2 ->
  same_but_priority (default ∅ (queryStringParameters ev1))
                    (default ∅ (queryStringParameters ev2)) ->
  handler E ev1 w = handler E ev2 w.
Proof.
  intros Hsub Hq. unfold handler. rewrite Hsub.
  set (q1 := default ∅ (queryStringParameters ev1)) in *.
  set (q2 := default ∅ (queryStringParameters ev2)) in *.
  assert (Hfilter : query_input (default "" (sub ev2)) q1
                    = query_input (default "" (sub ev2)) q2).
  { unfold query_input, filterExpressions.
    rewrite !(Hq "fromDate"), !(Hq "toDate"), !(Hq "feedbackType"),
      !(Hq "completed"), !(Hq "tags") by discriminate. reflexivity. }
  assert (Hfound : forall items, found items q1 = found items q2).
  { intros items. unfold found.
    rewrite !(Hq "search"), !(Hq "tags"), !(Hq "completed"),
      !(Hq "feedbackType"), !(Hq "fromDate"), !(Hq "toDate") by discriminate.
    reflexivity. }
  rewrite Hfilter, (Hq "search") by discriminate.
  unfold try_catch, bind. destruct (no_user (sub ev2)); [reflexivity|].
  destruct (dynamo_send E _ w) as [[e|result] w1]; [reflexivity|].
  unfold lift. destruct (text_search _ _); [reflexivity|].
  unfold ret. rewrite Hfound. reflexivity.
Qed.

(** *** The filters, as the specification words them *)

Lemma Value_eqb_bool (v : Value) (b : bool) :
  Value_eqb v (VBool b)
  = match v with VBool b' => Bool.eqb b' b | _ => false end.
Proof. destruct v; reflexivity. Qed.

Lemma Value_eqb_str (v : Value) (s : string) :
  Value_eqb v (VStr s)
  = match v with VStr s' => String.eqb s' s | _ => false end.
Proof. destruct v; reflexivity. Qed.

(** Splitting at commas undoes joining with commas. *)
Lemma split_comma_free (s : string) :
  comma_free s = true -> split_comma s = [s].
Proof.
  induction s as [|c s IH]; [reflexivity|]. cbn [comma_free split_comma].
  intros [Hc Hs]%andb_true_iff. apply negb_true_iff in Hc.
  rewrite Hc, (IH Hs). reflexivity.
Qed.

Lemma split_comma_app (s rest : string) :
  comma_free s = true ->
  split_comma (s ++ String ","%char rest) = s :: split_comma rest.
Proof.
  induction s as [|c s IH]; [reflexivity|].
  cbn [comma_free]. intros [Hc Hs]%andb_true_iff.
  apply negb_true_iff in Hc.
  change (String c s ++ String ","%char rest)%string
    with (String c (s ++ String ","%char rest))%string.
  cbn [split_comma]. rewrite Hc, (IH Hs). reflexivity.
Qed.

Lemma split_comma_concat (tag : string) (tags : list string) :
  forallb comma_free (tag :: tags) = true ->
  split_comma (String.concat "," (tag :: tags)) = tag :: tags.
Proof.
  revert tag. induction tags as [|tag' tags IH]; intros tag Hfree.
  - cbn in Hfree. rewrite andb_true_r in Hfree. apply split_comma_free, Hfree.
  - cbn [forallb] in Hfree. apply andb_true_iff in Hfree as [Htag Hrest].
    change (String.concat "," (tag :: tag' :: tags))
      with (tag ++ String ","%char (String.concat "," (tag' :: tags)))%string.
    rewrite (split_comma_app _ _ Htag), (IH _ Hrest). reflexivity.
Qed.

Lemma listable_spec (tag : string) :
  listable tag = true ->
  tag <> ""%string /\ comma_free tag = true /\ trim tag = tag.
Proof.
  unfold listable. rewrite !andb_true_iff, negb_true_iff.
  intros [[Hne Hfree] Htrim]. apply String.eqb_neq in Hne.
  apply String.eqb_eq in Htrim. auto.
Qed.

(** The tags the handler takes from a comma-joined list are the tags that
    were joined. *)
Lemma tag_array_concat (listed : list string) :
  listed <> [] -> forallb listable listed = true ->
  tag_array (String.concat "," listed) = listed.
Proof.
  intros Hne Hok. destruct listed as [|tag tags]; [congruence|]. clear Hne.
  unfold tag_array. rewrite split_comma_concat.
  - generalize dependent (tag :: tags). intros l.
    induction l as [|x l IH]; [reflexivity|]. cbn [forallb map].
    intros [Hx Hl]%andb_true_iff. apply listable_spec in Hx as (Hx & _ & Htrim).
    rewrite Htrim, filter_cons_True by exact Hx. rewrite (IH Hl). reflexivity.
  - clear -Hok. generalize dependent (tag :: tags). intros l.
    induction l as [|x l IH]; [reflexivity|]. cbn [forallb].
    intros [Hx Hl]%andb_true_iff. apply listable_spec in Hx as (_ & Hx & _).
    rewrite Hx, (IH Hl). reflexivity.
Qed.

Lemma concat_listed_given (listed : list string) :
  listed <> [] -> forallb listable listed = true ->
  given (Some (String.concat "," listed)) = Some (String.concat "," listed).
Proof.
  intros Hne Hok. destruct listed as [|tag tags]; [congruence|].
  cbn [forallb] in Hok. apply andb_true_iff in Hok as [Htag _].
  apply listable_spec in Htag as (Htag & _).
  unfold given.
  destruct (String.eqb (String.concat "," (tag :: tags)) "") eqn:Hempty;
    [|reflexivity].
  apply String.eqb_eq in Hempty. exfalso. apply Htag.
  destruct tags as [|tag' tags]; [exact Hempty|].
  change (String.concat "," (tag :: tag' :: tags))
    with (tag ++ String ","%char (String.concat "," (tag' :: tags)))%string
    in Hempty.
  destruct tag; [reflexivity | discriminate Hempty].
Qed.

Lemma no_date_bound_from (d : option string) :
  no_date_bound d -> from_filter d = [].
Proof.
  unfold no_date_bound, from_filter, given. destruct d as [s|]; [|reflexivity].
  intros [-> | Hbad]; [reflexivity|].
  destruct (String.eqb s ""); [reflexivity|]. rewrite Hbad. reflexivity.
Qed.

Lemma no_date_bound_to (d : option string) :
  no_date_bound d -> to_filter d = [].
Proof.
  unfold no_date_bound, to_filter, given. destruct d as [s|]; [|reflexivity].
  intros [-> | Hbad]; [reflexivity|].
  destruct (String.eqb s ""); [reflexivity|]. rewrite Hbad. reflexivity.
Qed.

(** The filter expressions the handler builds from a query string that
    asks for [a] and sets no date bound. *)
Lemma filterExpressions_asks (q : gmap string string) (a : Asked) :
  asks q a ->
  no_date_bound (q !! "fromDate") -> no_date_bound (q !! "toDate") ->
  filterExpressions q
  = match a_category a with
    | Some c => [CEq "feedbackType" (VStr c)]
    | None => []
    end
    ++ match a_completed a with
       | Some b => [CEq "completed" (VBool b)]
       | None => []
       end
    ++ match a_tags a with
       | [] => []
       | listed => [CContainsAny "tags" (map VStr listed)]
       end.
Proof.
  intros (Hcat & Hcat_ne & Hcompleted & Htags & Hok) Hfrom Hto.
  unfold filterExpressions.
  rewrite (no_date_bound_from _ Hfrom), (no_date_bound_to _ Hto).
  rewrite Hcat, Hcompleted, Htags. cbn [app]. f_equal; [|f_equal].
  - unfold type_filter, given. destruct (a_category a) as [c|]; [|reflexivity].
    destruct (String.eqb c "") eqn:Hc; [|reflexivity].
    apply String.eqb_eq in Hc. congruence.
  - unfold completed_filter. destruct (a_completed a) as [[]|]; reflexivity.
  - unfold tags_filter. destruct (a_tags a) as [|tag tags] eqn:Hl; [reflexivity|].
    rewrite concat_listed_given, tag_array_concat by (congruence || exact Hok).
    reflexivity.
Qed.

(** The FilterExpression the handler builds holds of a record exactly when
    the record is asked for. *)
Lemma filterExpressions_spec (q : gmap string string) (a : Asked) (item : Item) :
  asks q a ->
  no_date_bound (q !! "fromDate") -> no_date_bound (q !! "toDate") ->
  tags_are_sequence item ->
  eval_filter (filterExpressions q) item = asked_for a item.
Proof.
  intros Hasks Hfrom Hto Hseq.
  rewrite (filterExpressions_asks _ _ Hasks Hfrom Hto).
  unfold eval_filter, asked_for. rewrite !forallb_app, andb_assoc.
  f_equal; [f_equal|].
  - destruct (a_category a) as [c|]; [|reflexivity]. cbn.
    destruct (assoc "feedbackType" item) as [v|]; [|reflexivity].
    rewrite Value_eqb_str, andb_true_r. destruct v; reflexivity.
  - destruct (a_completed a) as [b|]; [|reflexivity]. cbn.
    destruct (assoc "completed" item) as [v|]; [|reflexivity].
    rewrite Value_eqb_bool, andb_true_r. destruct v; reflexivity.
  - destruct (a_tags a) as [|tag tags]; [reflexivity|].
    cbn [forallb eval_cond]. rewrite andb_true_r.
    assert (Hone : forall t, contains (assoc "tags" item) (VStr t) = has_tag item t).
    { intros t. unfold contains, has_tag. unfold tags_are_sequence in Hseq.
      destruct (assoc "tags" item) as [[]|]; try discriminate; reflexivity. }
    generalize (tag :: tags). intros l.
    induction l as [|t l IH]; [reflexivity|].
    cbn [map existsb]. rewrite Hone, IH. reflexivity.
Qed.

(** The store takes the query of a search that asks for something and sets
    no date bound. *)
Lemma query_accepted (userId : string) (q : gmap string string) (a : Asked) :
  asks q a -> asks_something a ->
  no_date_bound (q !! "fromDate") -> no_date_bound (q !! "toDate") ->
  query_refused (query_input userId q) = None.
Proof.
  intros Hasks Hsome Hfrom Hto. unfold query_refused, query_input.
  cbn [q_names q_filter]. rewrite (filterExpressions_asks _ _ Hasks Hfrom Hto).
  unfold asks_something in Hsome. clear Hasks.
  destruct (a_category a) as [c|], (a_completed a) as [b|],
    (a_tags a) as [|tag tags]; try reflexivity.
  destruct Hsome as [H | [H | H]]; congruence.
Qed.

(** The store refuses the query of a search that sets a date bound, or that
    gives none of the parameters a filter is built from. *)
Lemma find_first {X : Type} (f : X -> bool) (l : list X) (x : X) :
  In x l -> f x = true -> exists y, find f l = Some y /\ f y = true.
Proof.
  intros Hin Hx. destruct (find f l) as [y|] eqn:Hfind.
  - exists y. split; [reflexivity|]. apply (find_some _ _ Hfind).
  - rewrite (find_none _ _ Hfind _ Hin) in Hx. discriminate.
Qed.

Lemma date_bound_from (d : option string) :
  date_bound d -> exists t, from_filter d = [CGe "timestamp" t].
Proof.
  intros (s & t & -> & Hne & Hparse). exists t. unfold from_filter, given.
  apply String.eqb_neq in Hne. rewrite Hne, Hparse. reflexivity.
Qed.

Lemma date_bound_to (d : option string) :
  date_bound d -> exists t, to_filter d = [CLe "timestamp" t].
Proof.
  intros (s & t & -> & Hne & Hparse). exists t. unfold to_filter, given.
  apply String.eqb_neq in Hne. rewrite Hne, Hparse. reflexivity.
Qed.

Lemma query_not_accepted (userId : string) (q : gmap string string) :
  date_bound (q !! "fromDate") \/ date_bound (q !! "toDate")
  \/ (forall k, In k filter_parameters -> q !! k = None) ->
  exists e, query_refused (query_input userId q) = Some e.
Proof.
  intros Hcase. unfold query_refused, query_input. cbn [q_names q_filter].
  destruct (attributeNames (filterExpressions q)) as [|name names] eqn:Hnames;
    [eexists; reflexivity|].
  assert (Hkey : exists c, In c (filterExpressions q)
                           /\ existsb (String.eqb (cond_attr c)) key_schema = true).
  { destruct Hcase as [Hfrom | [Hto | Hnone]].
    - destruct (date_bound_from _ Hfrom) as [t Ht]. eexists. split.
      + unfold filterExpressions. rewrite Ht. left. reflexivity.
      + reflexivity.
    - destruct (date_bound_to _ Hto) as [t Ht]. eexists. split.
      + unfold filterExpressions. rewrite Ht. apply in_or_app. right.
        left. reflexivity.
      + reflexivity.
    - exfalso. unfold filterExpressions in Hnames.
      rewrite !Hnone in Hnames by (cbn; tauto). discriminate Hnames. }
  destruct Hkey as (c & Hin & Hc).
  destruct (find_first
              (fun c => existsb (String.eqb (cond_attr c)) key_schema) _ _ Hin Hc)
    as (y & -> & _).
  eexists. reflexivity.
Qed.

(** The rows of a partition are the entries of the table under that
    user. *)
Lemma elem_of_partition (u : string) (t : Table) (kv : Key * Item) :
  kv ∈ partition u t <-> t !! fst kv = Some (snd kv) /\ fst (fst kv) = u.
Proof.
  unfold partition. rewrite merge_sort_Permutation, list_elem_of_filter.
  destruct kv as [k item]. rewrite elem_of_map_to_list. cbn [fst snd]. tauto.
Qed.

(** What a query for whole items returns. *)
Lemma elem_of_run_query (q : QueryInput) (t : Table) (item : Item) :
  q_keys_only q = false ->
  item ∈ run_query q t <->
  (exists ts, t !! (q_userId q, ts) = Some item)
  /\ eval_filter (q_filter q) item = true.
Proof.
  intros Hfull. unfold run_query. rewrite Hfull, list_elem_of_fmap.
  split.
  - intros ([k it] & -> & Hin). cbn [snd].
    apply list_elem_of_filter in Hin as [Hf Hin]. cbn [snd] in Hf.
    assert (Hp : (k, it) ∈ partition (q_userId q) t)
      by (destruct (q_forward q); [|rewrite elem_of_reverse in Hin]; exact Hin).
    apply elem_of_partition in Hp as [Hlook Hu]. cbn [fst snd] in Hlook, Hu.
    destruct k as [u ts]. cbn [fst] in Hu. subst u. eauto.
  - intros [[ts Hlook] Hf]. exists ((q_userId q, ts), item). split; [reflexivity|].
    apply list_elem_of_filter. split; [exact Hf|].
    assert (Hp : ((q_userId q, ts), item) ∈ partition (q_userId q) t)
      by (apply elem_of_partition; auto).
    destruct (q_forward q); [|rewrite elem_of_reverse]; exact Hp.
Qed.

Lemma filter_res_subset (f : Item -> Res bool) (items kept : list Item) :
  filter_res f items = inr kept -> forall item, item ∈ kept -> item ∈ items.
Proof.
  revert kept. induction items as [|x items IH]; intros kept Hrun item Hin.
  - cbn in Hrun. injection Hrun as <-. exact Hin.
  - cbn [filter_res] in Hrun. destruct (f x) as [e|keep]; [discriminate|].
    destruct (filter_res f items) as [e|kept']; [discriminate|].
    injection Hrun as <-. destruct keep.
    + apply elem_of_cons in Hin as [-> | Hin]; [left | right; eauto].
    + right. eauto.
Qed.

Lemma text_search_subset (search : option string) (items kept : list Item) :
  text_search search items = inr kept -> forall item, item ∈ kept -> item ∈ items.
Proof.
  unfold text_search. destruct (given search) as [s|].
  - destruct (String.eqb (trim s) "").
    + intros [= <-]. auto.
    + apply filter_res_subset.
  - intros [= <-]. auto.
Qed.

Lemma text_search_absent (search : option string) (items : list Item) :
  no_text_search search -> text_search search items = inr items.
Proof.
  unfold no_text_search, text_search, given. destruct search as [s|]; [|done].
  intros Hblank. destruct (String.eqb s ""); [done|].
  rewrite Hblank. reflexivity.
Qed.

(** X28. Take a search by an identified caller that asks for a category, a
    completed flag or tags (the tags joined by commas in the query string)
    and sets no date bound, on a store that accepts the query.  The records
    the store returns are those of the caller that are asked for on every
    count at once: of the category, with the completed flag, and carrying
    at least one of the listed tags.  The text search can only remove
    records from them, so a search listing tags never returns a record that
    carries none of them. *)
Theorem accepted_search_conjoins_filters (event : ApiEvent) (userId : string)
    (a : Asked) (w : World) :
  sub event = Some userId -> userId <> ""%string ->
  store_accepts_next E w ->
  (forall ts item, table w !! (userId, ts) = Some item -> tags_are_sequence item) ->
  let q := default ∅ (queryStringParameters event) in
  asks q a -> asks_something a ->
  no_date_bound (q !! "fromDate") -> no_date_bound (q !! "toDate") ->
  exists (stored : list Item) (w' : World),
    handler E event w
    = (inr match text_search (q !! "search") stored with
           | inr items => found items q
           | inl e => internal_error E "Failed to search recommendations" e
           end, w')
    /\ table w' = table w
    /\ (forall item,
          item ∈ stored <->
          (exists ts, table w !! (userId, ts) = Some item)
          /\ asked_for a item = true)
    /\ (forall items item,
          text_search (q !! "search") stored = inr items -> item ∈ items ->
          item ∈ stored
          /\ (a_tags a <> [] ->
              exists tag, tag ∈ a_tags a /\ has_tag item tag = true))
    /\ (no_text_search (q !! "search") ->
        text_search (q !! "search") stored = inr stored).
Proof.
  intros Hsub Hne Hstore Hseq q Hasks Hsome Hfrom Hto.
  set (input := query_input userId q).
  assert (Hstored : forall item,
            item ∈ run_query input (table w) <->
            (exists ts, table w !! (userId, ts) = Some item)
            /\ asked_for a item = true).
  { intros item. rewrite elem_of_run_query by reflexivity.
    cbn [q_userId q_filter input query_input].
    split; intros [[ts Hlook] Hf]; (split; [eauto|]).
    - rewrite <- (filterExpressions_spec q) by eauto. exact Hf.
    - rewrite (filterExpressions_spec q a) by eauto. exact Hf. }
  exists (run_query input (table w)). eexists.
  split; [|split; [|split; [|split]]].
  - unfold handler, try_catch. rewrite Hsub. cbn [no_user default from_option id].
    apply String.eqb_neq in Hne. rewrite Hne.
    unfold bind, dynamo_send. fold q input. rewrite Hstore.
    cbn [run_command]. unfold input at 1.
    rewrite (query_accepted userId q a Hasks Hsome Hfrom Hto). fold input.
    cbn [set_table items_of]. unfold lift, ret.
    destruct (text_search (q !! "search") (run_query input (table w)));
      reflexivity.
  - reflexivity.
  - exact Hstored.
  - intros items item Hsearch Hin.
    pose proof (text_search_subset _ _ _ Hsearch _ Hin) as Hin'.
    split; [exact Hin'|]. intros Hlisted.
    apply Hstored in Hin' as [_ Hm]. unfold asked_for in Hm.
    rewrite !andb_true_iff in Hm. destruct Hm as [_ Htags].
    destruct (a_tags a) as [|t l] eqn:Hl; [congruence|].
    apply existsb_exists in Htags as (tag & Hin_tag & Htag).
    exists tag. split; [apply list_elem_of_In; exact Hin_tag | exact Htag].
  - apply text_search_absent.
Qed.

(** X29. A search by an identified caller that sets a date bound (a
    fromDate or a toDate that parses), or that gives none of the parameters
    a filter is built from (no query string, or a text search alone), is
    answered 500 whatever the table holds: the date bounds are put on the
    sort key in the FilterExpression, which the store refuses, and without
    a filter the query carries an empty ExpressionAttributeNames, which the
    store refuses as well.  The table is left as it was. *)
Theorem unaccepted_search_is_answered_500 (event : ApiEvent) (userId : string)
    (w : World) :
  sub event = Some userId -> userId <> ""%string ->
  let q := default ∅ (queryStringParameters event) in
  date_bound (q !! "fromDate") \/ date_bound (q !! "toDate")
  \/ (forall k, In k filter_parameters -> q !! k = None) ->
  exists (e : Exn) (w' : World),
    handler E event w
    = (inr (internal_error E "Failed to search recommendations" e), w')
    /\ table w' = table w.
Proof.
  intros Hsub Hne q Hcase.
  destruct (query_not_accepted userId q Hcase) as [e He].
  unfold handler, try_catch. rewrite Hsub. cbn [no_user default from_option id].
  apply String.eqb_neq in Hne. rewrite Hne.
  unfold bind, dynamo_send. fold q.
  destruct (dynamo_fault E _ _) as [e'|]; [eexists _, _; split; reflexivity|].
  cbn [run_command]. rewrite He. eexists _, _; split; reflexivity.
Qed.

End SearchProperties.

(* ===================================================================== *)
(** ** Properties of the bulk delete *)
(* ===================================================================== *)

Section BatchFacts.
Context {X : Type}.

Lemma batches_of_concat (fuel : nat) (l : list X) :
  length l <= fuel -> concat (batches_of fuel l) = l.
Proof.
  revert l. induction fuel as [|fuel IH]; intros l Hlen.
  - destruct l; [reflexivity | cbn in Hlen; lia].
  - destruct l as [|x l]; [reflexivity|].
    cbn [batches_of concat]. rewrite IH.
    + apply firstn_skipn.
    + rewrite length_skipn. cbn [length] in *. lia.
Qed.

Lemma batches_of_sizes (fuel : nat) (l : list X) :
  map (@length X) (batches_of fuel l) = batch_sizes fuel (length l).
Proof.
  revert l. induction fuel as [|fuel IH]; intros l; [reflexivity|].
  destruct l as [|x l]; [reflexivity|].
  cbn [batches_of map batch_sizes]. rewrite IH, length_firstn, length_skipn.
  reflexivity.
Qed.

Lemma batches_of_bounded (fuel : nat) (l : list X) :
  Forall (fun b => 1 <= length b <= 25) (batches_of fuel l).
Proof.
  revert l. induction fuel as [|fuel IH]; intros l; [constructor|].
  destruct l as [|x l]; [constructor|].
  cbn [batches_of]. constructor; [|apply IH].
  rewrite length_firstn. cbn [length]. lia.
Qed.

Lemma batches_of_count (fuel : nat) (l : list X) :
  length l <= fuel -> length (batches_of fuel l) = (length l + 24) / 25.
Proof.
  revert l. induction fuel as [|fuel IH]; intros l Hlen.
  - destruct l; [reflexivity | cbn in Hlen; lia].
  - destruct l as [|x l]; [reflexivity|].
    cbn [batches_of length]. rewrite IH by (rewrite length_skipn; cbn [length] in *; lia).
    rewrite length_skipn. cbn [length].
    destruct (Nat.le_gt_cases 25 (S (length l))) as [Hge | Hlt].
    + replace (S (length l) + 24) with ((S (length l) - 25 + 24) + 1 * 25) by lia.
      rewrite Nat.div_add by lia. lia.
    + replace (S (length l) - 25) with 0 by lia.
      rewrite (Nat.div_small 24) by lia.
      apply (Nat.div_unique _ 25 1 (length l)); lia.
Qed.

End BatchFacts.

Section DeleteProperties.
Import JS Cloud DeleteRecommendations.
Context (E : Env).

Lemma lookup_delete_all (ks : list Key) (t : Table) (k : Key) :
  delete_all ks t !! k = if bool_decide (k ∈ ks) then None else t !! k.
Proof.
  revert t. induction ks as [|k0 ks IH]; intros t; [reflexivity|].
  cbn [delete_all fold_left]. fold (delete_all ks (delete k0 t)). rewrite IH.
  destruct (decide (k = k0)) as [-> | Hne].
  - rewrite lookup_delete_eq. rewrite (bool_decide_eq_true_2 (k0 ∈ k0 :: ks)) by left.
    destruct (bool_decide (k0 ∈ ks)); reflexivity.
  - rewrite lookup_delete_ne by congruence.
    destruct (decide (k ∈ ks)) as [Hin | Hnin].
    + rewrite !bool_decide_eq_true_2; [reflexivity | by right | exact Hin].
    + rewrite !bool_decide_eq_false_2; [reflexivity | | exact Hnin].
      intros [-> | Hin]%elem_of_cons; [congruence | contradiction].
Qed.

(** The DeleteRequests made from the projected items name their keys. *)
Lemma delete_requests_keys (ks : list Key) :
  mapM delete_key (map delete_request (map key_attrs ks)) = Some ks.
Proof.
  rewrite map_map. apply mapM_fmap_Forall_Some, Forall_forall.
  intros [u ts] _. reflexivity.
Qed.

(** The loop, entered at index [i] with enough turns left, deletes the
    keys from [i] on in runs of 25 and adds their number to the count. *)
Lemma delete_loop_spec (fuel : nat) (ks : list Key) (i deletedCount : nat)
    (w : World) :
  (forall n c, dynamo_fault E n c = None) ->
  length ks - i <= fuel ->
  exists w',
    delete_loop E fuel (map key_attrs ks) i deletedCount w
    = (inr (deletedCount + (length ks - i)), w')
    /\ table w' = delete_all (skipn i ks) (table w)
    /\ dynamo_log w'
       = dynamo_log w ++ map batch_command (batches_of fuel (skipn i ks))
    /\ sns_log w' = sns_log w.
Proof.
  intros Hstore. revert i deletedCount w.
  induction fuel as [|fuel IH]; intros i deletedCount w Hfuel.
  - cbn [delete_loop]. rewrite length_map.
    replace (i <? length ks)%nat with false by (symmetry; apply Nat.ltb_ge; lia).
    exists w. replace (length ks - i) with 0 by lia.
    rewrite Nat.add_0_r, app_nil_r. repeat split; try reflexivity.
    rewrite skipn_all2 by lia. reflexivity.
  - cbn [delete_loop]. rewrite length_map.
    destruct (i <? length ks)%nat eqn:Hi.
    + apply Nat.ltb_lt in Hi.
      unfold bind at 1. unfold dynamo_send at 1. rewrite Hstore.
      unfold slice, batchSize. rewrite skipn_map, firstn_map.
      fold (batch_command (take 25 (skipn i ks))).
      cbn [run_command batch_command]. rewrite delete_requests_keys.
      cbn [set_table].
      match goal with
      | |- context [delete_loop E fuel _ _ _ ?w1] =>
          destruct (IH (i + 25) (deletedCount + length (map key_attrs (take 25 (skipn i ks)))) w1)
            as (w' & Hrun & Ht & Hd & Hs); [lia|]
      end.
      exists w'. rewrite Hrun. cbn [table dynamo_log sns_log set_table] in Ht, Hd, Hs.
      rewrite length_map, length_take, length_skipn.
      split; [f_equal; f_equal; lia|].
      assert (Hsplit : skipn i ks = take 25 (skipn i ks) ++ skipn (i + 25) ks).
      { rewrite <- (firstn_skipn 25 (skipn i ks)) at 1.
        rewrite skipn_skipn, (Nat.add_comm 25 i). reflexivity. }
      split; [|split; [|exact Hs]].
      * rewrite Ht. unfold delete_all. rewrite <- fold_left_app, <- Hsplit. reflexivity.
      * rewrite Hd, <- app_assoc. f_equal.
        destruct (skipn i ks) as [|k rest] eqn:Hskip.
        { apply (f_equal (@length Key)) in Hskip. rewrite length_skipn in Hskip.
          cbn in Hskip. lia. }
        cbn [batches_of map app]. f_equal. f_equal. f_equal.
        rewrite <- Hskip, skipn_skipn, (Nat.add_comm 25 i). reflexivity.
    + apply Nat.ltb_ge in Hi. exists w. replace (length ks - i) with 0 by lia.
      rewrite Nat.add_0_r. rewrite skipn_all2 by lia. cbn [batches_of map].
      rewrite app_nil_r. repeat split; reflexivity.
Qed.

Lemma elem_of_keys_of_user (u : string) (t : Table) (k : Key) :
  k ∈ keys_of_user u t <-> is_Some (t !! k) /\ fst k = u.
Proof.
  unfold keys_of_user. rewrite list_elem_of_fmap. split.
  - intros ([k' item] & -> & Hin). apply elem_of_partition in Hin as [Hl Hu].
    cbn [fst snd] in *. eauto.
  - intros [[item Hl] Hu]. exists (k, item). split; [reflexivity|].
    apply elem_of_partition. auto.
Qed.

Lemma keys_of_user_NoDup (u : string) (t : Table) : NoDup (keys_of_user u t).
Proof.
  unfold keys_of_user, partition. rewrite merge_sort_Permutation.
  assert (Hsub : sublist (map fst (filter (fun kv : Key * Item => fst (fst kv) = u)
                                     (map_to_list t)))
                         (map fst (map_to_list t))).
  { apply fmap_sublist. apply sublist_filter. }
  eapply sublist_NoDup; [|exact Hsub]. apply NoDup_fst_map_to_list.
Qed.

Lemma filter_everything {X : Type} (l : list X) :
  filter (fun _ : X => true = true) l = l.
Proof.
  induction l as [|x l IH]; [reflexivity|].
  rewrite filter_cons_True by reflexivity. f_equal. exact IH.
Qed.

(** The projected query returns the key attributes of every record of the
    user. *)
Lemma run_query_keys (u : string) (t : Table) :
  run_query (keys_query u) t = map key_attrs (keys_of_user u t).
Proof.
  unfold run_query, keys_query, keys_of_user. cbn [q_userId q_forward q_filter q_keys_only eval_filter forallb].
  rewrite filter_everything, map_map. reflexivity.
Qed.

(** C8. With a caller identity and a store that answers, the bulk delete
    reads the keys of all the caller's records with one query, then sends
    them to the store in BatchWrite calls of 25 keys, the last call taking
    what remains: every key is sent exactly once, no call carries more than
    25, there are ceil(n/25) calls for n records (25, 25 and 7 keys for
    57 records, no call at all for none).  The answer is 200 with
    deletedCount = n (0 for a caller with no record); afterwards the
    caller has no record left and every other user's records are as they
    were. *)
Theorem bulk_delete_in_batches (event : ApiEvent) (userId : string) (w : World) :
  sub event = Some userId -> userId <> ""%string ->
  store_reliable E ->
  let keys := keys_of_user userId (table w) in
  let n := length keys in
  exists (batches : list (list Key)) (w' : World),
    handler E event w
    = (inr {| statusCode := 200;
              response_body :=
                VObj [("message",
                       VStr (if (n =? 0)%nat then "No recommendations to delete"
                             else "Recommendations deleted successfully"));
                      ("deletedCount", VNum (Z.of_nat n))] |}, w')
    /\ dynamo_log w'
       = dynamo_log w
         ++ QueryCommand (keys_query userId)
            :: map (fun b =>
                      BatchWriteCommand
                        (map (fun k => (Some (VStr (fst k)), Some (VNum (snd k)))) b))
                 batches
    /\ concat batches = keys
    /\ NoDup keys
    /\ (forall k, k ∈ keys <-> is_Some (table w !! k) /\ fst k = userId)
    /\ Forall (fun b => 1 <= length b <= 25) batches
    /\ length batches = (n + 24) / 25
    /\ map (@length Key) batches = batch_sizes n n
    /\ (n = 57 -> map (@length Key) batches = [25; 25; 7])
    /\ (n = 0 -> batches = [])
    /\ (forall ts, table w' !! (userId, ts) = None)
    /\ (forall u ts, u <> userId -> table w' !! (u, ts) = table w !! (u, ts)).
Proof.
  intros Hsub Hne Hstore keys n.
  assert (Hbatch : forall b,
            batch_command b
            = BatchWriteCommand
                (map (fun k : Key => (Some (VStr (fst k)), Some (VNum (snd k)))) b)).
  { intros b. unfold batch_command. rewrite map_map. reflexivity. }
  assert (Hmem : forall k, k ∈ keys <-> is_Some (table w !! k) /\ fst k = userId)
    by (intros k; apply elem_of_keys_of_user).
  assert (Hnodup : NoDup keys) by apply keys_of_user_NoDup.
  assert (Htable : (forall ts, delete_all keys (table w) !! (userId, ts) = None)
                   /\ (forall u ts, u <> userId ->
                         delete_all keys (table w) !! (u, ts) = table w !! (u, ts))).
  { split.
    - intros ts. rewrite lookup_delete_all.
      destruct (decide ((userId, ts) ∈ keys)) as [Hin | Hnin].
      + rewrite bool_decide_eq_true_2 by exact Hin. reflexivity.
      + rewrite bool_decide_eq_false_2 by exact Hnin.
        destruct (table w !! (userId, ts)) eqn:Hl; [|reflexivity].
        exfalso. apply Hnin, Hmem. rewrite Hl. eauto.
    - intros u ts Hu. rewrite lookup_delete_all.
      rewrite bool_decide_eq_false_2; [reflexivity|].
      intros [_ Hk]%Hmem. cbn in Hk. congruence. }
  exists (batches_of n keys).
  unfold handler, try_catch. rewrite Hsub. cbn [no_user default from_option id].
  apply String.eqb_neq in Hne. rewrite Hne.
  unfold bind at 1. unfold dynamo_send at 1. rewrite Hstore.
  cbn [run_command].
  change (query_refused (keys_query userId)) with (@None Exn).
  cbn [set_table items_of]. rewrite run_query_keys. fold keys.
  subst n. clearbody keys.
  destruct (delete_loop_spec (length keys) keys 0 0
              {| table := table w; clock_reads := clock_reads w;
                 bedrock_log := bedrock_log w;
                 dynamo_log := dynamo_log w ++ [QueryCommand (keys_query userId)];
                 sns_log := sns_log w |} Hstore)
    as (w1 & Hrun & Ht & Hd & _); [lia|].
  change (skipn 0 keys) with keys in Ht, Hd.
  cbn [table dynamo_log] in Ht, Hd.
  rewrite Nat.sub_0_r, Nat.add_0_l in Hrun.
  assert (Hlog : dynamo_log w1
                 = dynamo_log w
                   ++ QueryCommand (keys_query userId)
                      :: map (fun b =>
                                BatchWriteCommand
                                  (map (fun k : Key =>
                                          (Some (VStr (fst k)), Some (VNum (snd k)))) b))
                           (batches_of (length keys) keys)).
  { rewrite Hd, <- app_assoc. cbn [app]. do 2 f_equal.
    apply map_ext. exact Hbatch. }
  assert (Hfacts :
            concat (batches_of (length keys) keys) = keys
            /\ NoDup keys
            /\ (forall k, k ∈ keys <-> is_Some (table w !! k) /\ fst k = userId)
            /\ Forall (fun b : list Key => 1 <= length b <= 25)
                 (batches_of (length keys) keys)
            /\ length (batches_of (length keys) keys) = (length keys + 24) / 25
            /\ map (@length Key) (batches_of (length keys) keys)
               = batch_sizes (length keys) (length keys)
            /\ (length keys = 57 ->
                map (@length Key) (batches_of (length keys) keys) = [25; 25; 7])
            /\ (length keys = 0 -> batches_of (length keys) keys = [])).
  { split; [apply batches_of_concat; lia|].
    split; [exact Hnodup|]. split; [exact Hmem|].
    split; [apply batches_of_bounded|].
    split; [apply batches_of_count; lia|].
    split; [apply batches_of_sizes|].
    split; [intros H57; rewrite batches_of_sizes, H57; reflexivity|].
    intros H0. destruct keys; [reflexivity | discriminate]. }
  destruct keys as [|k0 rest].
  - (* no record: the loop is not entered *)
    eexists. cbn [map]. unfold ret. split; [reflexivity|].
    cbn [dynamo_log table length batches_of map Nat.eqb].
    split; [reflexivity|]. split; [apply Hfacts|]. split; [apply Hfacts|].
    split; [apply Hfacts|]. split; [constructor|]. split; [reflexivity|].
    split; [reflexivity|]. split; [discriminate|]. split; [reflexivity|].
    exact Htable.
  - cbn [map]. unfold bind.
    change (key_attrs k0 :: map key_attrs rest) with (map key_attrs (k0 :: rest)).
    unfold set_table. cbn [table clock_reads bedrock_log dynamo_log sns_log].
    rewrite length_map, Hrun. unfold ret, deleted.
    exists w1. split; [reflexivity|]. split; [exact Hlog|].
    rewrite Ht. tauto.
Qed.

End DeleteProperties.

(* ===================================================================== *)
(** ** The theorems at work on concrete inputs *)
(* ===================================================================== *)

Section Instances.
Import JS Cloud Examples.

(** *** Submission intake *)

(** C5. The body null holds no feedback, and yet the intake does not
    answer it with 400: taking the fields out of the body throws, and the
    answer is the 500 of the catch-all.  Nothing is published. *)
Theorem null_body_is_answered_500 :
  @JSON_parse Node.runtime (body_or_empty (body MoreExamples.null_request))
  = inr VNull
  /\ feedback_rejected (get_opt (Some VNull) "feedback")
  /\ PostFeedback.handler (RT := Node.runtime) env MoreExamples.null_request
       world0
     = (inr (internal_error env "Failed to submit feedback for processing"
               (mkExn TypeError
                  "Cannot destructure property 'feedback' of 'requestBody' as it is null.")),
        world0)
  /\ statusCode
       (internal_error env "Failed to submit feedback for processing"
          (mkExn TypeError
             "Cannot destructure property 'feedback' of 'requestBody' as it is null."))
     = 500%Z.
Proof.
  split; [vm_compute; reflexivity|]. split; [exact I|].
  split; [vm_compute; reflexivity | reflexivity].
Qed.

(** A body with tags given as a string and no feedback. *)
Lemma invalid_submission_is_turned_down_witness :
  exists msg,
    PostFeedback.handler (RT := Node.runtime) env untagged_request world0
    = (inr {| statusCode := 400;
              response_body :=
                VObj [("error", VStr "Bad Request"); ("message", VStr msg)] |},
       world0).
Proof.
  assert (Hparse : @JSON_parse Node.runtime (body_or_empty (body untagged_request))
                   = inr (VObj [("tags", VStr "urgent")]))
    by (vm_compute; reflexivity).
  destruct (invalid_submission_is_turned_down (RT := Node.runtime) env
              untagged_request "U1" world0) as (resp & Hrun & Hbad & _).
  - reflexivity.
  - discriminate.
  - rewrite Hparse. left. exact I.
  - destruct Hbad as [msg ->]; [rewrite Hparse; discriminate|].
    exists msg. exact Hrun.
Defined.

(** The padded text: 10,001 characters, one once trimmed. *)
Lemma padded_text_lengths :
  (1 <= Z.of_nat (String.length (trim padded_text)) <= 10000)%Z
  /\ (10000 < Z.of_nat (String.length padded_text))%Z.
Proof.
  split; [split|]; [apply Z.leb_le | apply Z.leb_le | apply Z.ltb_lt];
    vm_compute; reflexivity.
Qed.

(** One letter followed by 10,000 spaces. *)
Lemma intake_limit_is_on_raw_text_witness :
  PostFeedback.handler (RT := Node.runtime) env padded_request world0
  = (inr (PostFeedback.bad_request
            "Feedback text must not exceed 10,000 characters"), world0)
  /\ statusCode (PostFeedback.bad_request
                  "Feedback text must not exceed 10,000 characters") = 400%Z.
Proof.
  apply (intake_limit_is_on_raw_text (RT := Node.runtime) env padded_request
           "U1" (VObj [("feedback", VStr padded_text)]) padded_text world0).
  - reflexivity.
  - discriminate.
  - vm_compute. reflexivity.
  - reflexivity.
  - apply padded_text_lengths.
  - apply padded_text_lengths.
Defined.

(** C6, as the specification words it, fails on a padded text: the text
    trims to one character, well within [1, 10000], and the caller is
    identified, yet the answer is 400 and nothing is published. *)
Lemma padded_feedback_is_rejected :
  sub padded_request = Some "U1"%string
  /\ Node.parse (body_or_empty (body padded_request))
     = inr (VObj [("feedback", VStr padded_text)])
  /\ (1 <= Z.of_nat (String.length (trim padded_text)) <= 10000)%Z
  /\ fst (PostFeedback.handler (RT := Node.runtime) env padded_request world0)
     = inr {| statusCode := 400;
              response_body :=
                VObj [("error", VStr "Bad Request");
                      ("message",
                       VStr "Feedback text must not exceed 10,000 characters")] |}
  /\ sns_log (snd (PostFeedback.handler (RT := Node.runtime) env padded_request world0))
     = [].
Proof.
  split; [reflexivity|]. split; [vm_compute; reflexivity|].
  split; [apply padded_text_lengths|].
  split; vm_compute; reflexivity.
Qed.

(** A feedback with spaces around it and one tag. *)
Lemma intake_publishes_one_envelope_witness :
  exists w',
    PostFeedback.handler (RT := Node.runtime) env good_request world0
    = (inr (PostFeedback.accepted "msg-0"), w')
    /\ map Message (sns_log w')
       = [Node.stringify
            (VObj [("userId", VStr "U1");
                   ("feedback", VStr "Response times are slow");
                   ("timestamp", VNum 1700000000000);
                   ("tags", VArr [VStr "performance"]);
                   ("feedbackType", VStr "general")])].
Proof.
  destruct (intake_publishes_one_envelope (RT := Node.runtime) env good_request
              "U1"
              (VObj [("feedback", VStr "  Response times are slow ");
                     ("tags", VArr [VStr "performance"])])
              "  Response times are slow " "msg-0" world0)
    as (w' & Hrun & Hlog & _).
  - reflexivity.
  - discriminate.
  - vm_compute. reflexivity.
  - reflexivity.
  - apply Z.leb_le. vm_compute. reflexivity.
  - apply Z.leb_le. vm_compute. reflexivity.
  - reflexivity.
  - reflexivity.
  - exists w'. split; [exact Hrun|]. rewrite Hlog. vm_compute. reflexivity.
Defined.

(** *** Enrichment worker *)

(** The example records parse to their submissions. *)
Lemma record1_delivers :
  delivers (RT := Node.runtime) record1
    (submission "U1" "Response times are slow" 1001).
Proof.
  eexists _, _. split; [vm_compute; reflexivity|].
  split; [reflexivity|]. split; [vm_compute; reflexivity | discriminate].
Qed.

Lemma record3_delivers :
  delivers (RT := Node.runtime) record3
    (submission "U3" "Login fails on mobile" 1003).
Proof.
  eexists _, _. split; [vm_compute; reflexivity|].
  split; [reflexivity|]. split; [vm_compute; reflexivity | discriminate].
Qed.

Lemma submission_timestamp (user text : string) (ts : Z) :
  timestamp_is_number (submission user text ts).
Proof. intros t [= <-] _. eauto. Qed.


(** C1, as the specification words it, fails on this batch of three: the
    model's answer to the third message parses to an object, not an
    array, yet the handler resolves with all three messages successful,
    and the third record is stored with the fallback recommendation. *)
Lemma non_array_batch_is_completed :
  (exists body,
     bedrock_send env_object_third 2
       (ProcessFeedback.invoke_input env_object_third "Login fails on mobile")
     = inr body
     /\ Node.parse body
        = inr (VObj [("content",
                      VArr [VObj [("type", VStr "text");
                                  ("text", VStr (Node.stringify one_object))]])])
     /\ Node.parse (Node.stringify one_object) = inr one_object
     /\ isArray one_object = false)
  /\ fst (ProcessFeedback.handler (RT := Node.runtime) env_object_third
            [record1; record2; record3] world0)
     = inr {| statusCode := 200;
              response_body :=
                VObj [("successful",
                       VArr [VObj [("messageId", VStr "m1"); ("userId", VStr "U1")];
                             VObj [("messageId", VStr "m2"); ("userId", VStr "U2")];
                             VObj [("messageId", VStr "m3"); ("userId", VStr "U3")]]);
                      ("failed", VArr [])] |}
  /\ (exists item,
        table (snd (ProcessFeedback.handler (RT := Node.runtime) env_object_third
                      [record1; record2; record3] world0)) !! ("U3"%string, 1003%Z)
        = Some item
        /\ assoc "recommendations" item
           = Some (VArr [ProcessFeedback.fallback_item 1700000000008])).
Proof.
  split; [eexists; repeat split; vm_compute; reflexivity|].
  split; [vm_compute; reflexivity|].
  eexists. split; vm_compute; reflexivity.
Qed.

(** The model answers with an object; the batch of one completes. *)
Lemma non_array_response_gets_fallback_witness :
  exists (item : Item) (w' : World),
    ProcessFeedback.process_records (RT := Node.runtime) env_object [record3]
      ProcessFeedback.no_results world0
    = (ProcessFeedback.Completed
         {| ProcessFeedback.successful :=
              [VObj [("messageId", VStr "m3"); ("userId", VStr "U3")]];
            ProcessFeedback.failed := [] |}, w')
    /\ (exists ts, table w' !! ("U3"%string, ts) = Some item)
    /\ assoc "recommendations" item
       = Some (VArr [ProcessFeedback.fallback_item 1700000000000]).
Proof.
  destruct (non_array_response_gets_fallback (RT := Node.runtime) env_object
              record3 [] ProcessFeedback.no_results
              (submission "U3" "Login fails on mobile" 1003)
              (VStr "Login fails on mobile") "U3" "Login fails on mobile"
              (model_response one_object) (Node.stringify one_object)
              (VObj [("content",
                      VArr [VObj [("type", VStr "text");
                                  ("text", VStr (Node.stringify one_object))]])])
              one_object
              (Some (VArr [VObj [("type", VStr "text");
                                 ("text", VStr (Node.stringify one_object))]]))
              world0)
    as (key & item & w' & _ & Hrun & Ht & Hk & Hrecs).
  - exact record3_delivers.
  - reflexivity.
  - discriminate.
  - reflexivity.
  - reflexivity.
  - reflexivity.
  - reflexivity.
  - vm_compute. reflexivity.
  - reflexivity.
  - reflexivity.
  - vm_compute. reflexivity.
  - reflexivity.
  - apply submission_timestamp.
  - intros c. reflexivity.
  - exists item, w'. split; [exact Hrun|]. split; [|exact Hrecs].
    destruct key as [u ts]. cbn [fst] in Hk. subst u.
    exists ts. rewrite Ht. apply lookup_insert_eq.
Defined.

(** C2, as the specification words it, fails on a body that is not JSON:
    the error leaves the handler, the second message of the batch is never
    looked at, and nothing has been written. *)
Lemma unparsable_message_aborts_batch :
  Node.parse (ProcessFeedback.record_body record_unparsable) = inl Node.syntax_error
  /\ ProcessFeedback.handler (RT := Node.runtime) env [record_unparsable; record1] world0
     = (inl Node.syntax_error, world0)
  /\ ProcessFeedback.process_records (RT := Node.runtime) env
       [record_unparsable; record1] ProcessFeedback.no_results world0
     = (ProcessFeedback.Aborted Node.syntax_error
          {| ProcessFeedback.successful := [];
             ProcessFeedback.failed :=
               [VObj [("messageId", VStr "m5");
                      ("error", VStr "Unexpected token in JSON")]] |}, world0).
Proof. repeat split; vm_compute; reflexivity. Qed.

(** A message without feedback, followed by a good one. *)
Lemma incomplete_message_is_skipped_witness :
  ProcessFeedback.process_record (RT := Node.runtime) env record_without_feedback
    ProcessFeedback.no_results world0
  = (inr {| ProcessFeedback.successful := [];
            ProcessFeedback.failed :=
              [VObj [("messageId", VStr "m4");
                     ("error", VStr "Invalid message format")]] |}, world0)
  /\ ProcessFeedback.process_records (RT := Node.runtime) env
       [record_without_feedback; record1] ProcessFeedback.no_results world0
     = ProcessFeedback.process_records (RT := Node.runtime) env [record1]
         {| ProcessFeedback.successful := [];
            ProcessFeedback.failed :=
              [VObj [("messageId", VStr "m4");
                     ("error", VStr "Invalid message format")]] |} world0.
Proof.
  apply (incomplete_message_is_skipped (RT := Node.runtime) env
           record_without_feedback [record1] ProcessFeedback.no_results
           (VObj [("userId", VStr "U4")]) world0).
  - eexists _, _. split; [vm_compute; reflexivity|].
    split; [reflexivity|]. split; [vm_compute; reflexivity | discriminate].
  - right. reflexivity.
Defined.

(** *** Update *)



(** *** Search *)

(** Every record of the small table has a sequence of tags. *)
Lemma small_table_tags :
  forall ts item, small_table !! ("U1"%string, ts) = Some item ->
                  tags_are_sequence item.
Proof.
  assert (H : map_Forall (fun (_ : Key) item => tags_are_sequence item) small_table)
    by (apply (bool_decide_unpack _); vm_compute; exact I).
  intros ts item Hl. exact (H _ _ Hl).
Qed.

(** C7. A search with a date bound is not answered with the records in
    range: the caller has a record submitted after the bound, and the
    answer is 500, because the bound is put on the sort key in the
    FilterExpression, which the store refuses.  A search without any filter
    is answered 500 as well, for its empty ExpressionAttributeNames. *)
Theorem dated_search_is_answered_500 :
  @Date_getTime Node.runtime "2023-11-14" = Some 1699920000000%Z
  /\ is_Some (small_table !! ("U1"%string, 1700000000000%Z))
  /\ fst (SearchRecommendations.handler (RT := Node.runtime) env
            (search_request MoreExamples.dated_query) (with_table small_table))
     = inr (internal_error env "Failed to search recommendations"
              (mkExn ServiceException
                 "Filter Expression can only contain non-primary key attributes: Primary key attribute: timestamp"))
  /\ fst (SearchRecommendations.handler (RT := Node.runtime) env
            MoreExamples.bare_search (with_table small_table))
     = inr (internal_error env "Failed to search recommendations"
              (mkExn ServiceException
                 "ExpressionAttributeNames must not be empty"))
  /\ statusCode
       (internal_error env "Failed to search recommendations"
          (mkExn ServiceException
             "ExpressionAttributeNames must not be empty"))
     = 500%Z.
Proof.
  split; [vm_compute; reflexivity|].
  split; [eexists; vm_compute; reflexivity|].
  split; [vm_compute; reflexivity|].
  split; [vm_compute; reflexivity | reflexivity].
Qed.

(** A search for the general records not completed that carry a or b. *)
Lemma accepted_search_conjoins_filters_witness :
  exists (stored : list Item) (w' : World),
    SearchRecommendations.handler (RT := Node.runtime) env
      (search_request MoreExamples.plain_query) (with_table small_table)
    = (inr (SearchRecommendations.found stored MoreExamples.plain_query), w')
    /\ (forall item,
          item ∈ stored <->
          (exists ts, small_table !! ("U1"%string, ts) = Some item)
          /\ asked_for MoreExamples.plain_asked item = true)
    /\ (forall item, item ∈ stored ->
          exists tag, tag ∈ ["a"%string; "b"%string] /\ has_tag item tag = true).
Proof.
  assert (Hsearch : MoreExamples.plain_query !! "search"%string = None)
    by (vm_compute; reflexivity).
  assert (Hfrom : MoreExamples.plain_query !! "fromDate"%string = None)
    by (vm_compute; reflexivity).
  assert (Hto : MoreExamples.plain_query !! "toDate"%string = None)
    by (vm_compute; reflexivity).
  destruct (accepted_search_conjoins_filters (RT := Node.runtime) env
              (search_request MoreExamples.plain_query) "U1"
              MoreExamples.plain_asked (with_table small_table))
    as (stored & w' & Hrun & _ & Hstored & Htext & Habsent).
  - reflexivity.
  - discriminate.
  - intros c. reflexivity.
  - exact small_table_tags.
  - cbn [default from_option id queryStringParameters search_request].
    split; [vm_compute; reflexivity|]. split; [discriminate|].
    split; [vm_compute; reflexivity|]. split; vm_compute; reflexivity.
  - left. discriminate.
  - cbn [default from_option id queryStringParameters search_request].
    rewrite Hfrom. exact I.
  - cbn [default from_option id queryStringParameters search_request].
    rewrite Hto. exact I.
  - cbn [default from_option id queryStringParameters search_request] in *.
    rewrite Hsearch in *. specialize (Habsent I). rewrite Habsent in Hrun.
    exists stored, w'. split; [exact Hrun|]. split; [exact Hstored|].
    intros item Hin.
    destruct (Htext stored item Habsent Hin) as [_ Hlisted].
    apply Hlisted. discriminate.
Defined.

(** A search by date, and a search without a query string. *)
Lemma unaccepted_search_is_answered_500_witness :
  (exists (e : Exn) (w' : World),
     SearchRecommendations.handler (RT := Node.runtime) env
       (search_request MoreExamples.dated_query) (with_table small_table)
     = (inr (internal_error env "Failed to search recommendations" e), w')
     /\ table w' = small_table)
  /\ (exists (e : Exn) (w' : World),
        SearchRecommendations.handler (RT := Node.runtime) env
          MoreExamples.bare_search (with_table small_table)
        = (inr (internal_error env "Failed to search recommendations" e), w')
        /\ table w' = small_table).
Proof.
  split.
  - apply (unaccepted_search_is_answered_500 (RT := Node.runtime) env
             (search_request MoreExamples.dated_query) "U1"
             (with_table small_table)).
    + reflexivity.
    + discriminate.
    + left. exists "2023-11-14"%string, 1699920000000%Z.
      split; [vm_compute; reflexivity|]. split; [discriminate|].
      vm_compute; reflexivity.
  - apply (unaccepted_search_is_answered_500 (RT := Node.runtime) env
             MoreExamples.bare_search "U1" (with_table small_table)).
    + reflexivity.
    + discriminate.
    + right. right. intros k _. apply lookup_empty.
Defined.

(** The same search with and without priority=high. *)
Lemma search_ignores_priority_witness :
  SearchRecommendations.handler (RT := Node.runtime) env
    (search_request (<["priority" := "high"]> tags_query))
    (with_table small_table)
  = SearchRecommendations.handler (RT := Node.runtime) env
      (search_request tags_query) (with_table small_table).
Proof.
  apply (search_ignores_priority (RT := Node.runtime) env).
  - reflexivity.
  - intros k Hk. cbn [default from_option id queryStringParameters search_request].
    apply lookup_insert_ne. congruence.
Defined.

(** *** Bulk delete *)

(** 57 records: three calls, of 25, 25 and 7 keys. *)
Lemma bulk_delete_in_batches_witness :
  exists (batches : list (list Key)) (w' : World),
    DeleteRecommendations.handler env (delete_request_of "U1") (with_table big_table)
    = (inr {| statusCode := 200;
              response_body :=
                VObj [("message", VStr "Recommendations deleted successfully");
                      ("deletedCount", VNum 57)] |}, w')
    /\ dynamo_log w'
       = QueryCommand (DeleteRecommendations.keys_query "U1")
         :: map (fun b =>
                   BatchWriteCommand
                     (map (fun k : Key => (Some (VStr (fst k)), Some (VNum (snd k)))) b))
              batches
    /\ map (@length Key) batches = [25; 25; 7]
    /\ (forall ts, table w' !! ("U1"%string, ts) = None)
    /\ table w' !! ("U2"%string, 1700000000000%Z)
       = big_table !! ("U2"%string, 1700000000000%Z).
Proof.
  destruct (bulk_delete_in_batches env (delete_request_of "U1") "U1"
              (with_table big_table))
    as (batches & w' & Hrun & Hlog & _ & _ & _ & _ & _ & _ & H57 & _ & Hgone & Hkept).
  - reflexivity.
  - discriminate.
  - intros n c. reflexivity.
  - assert (Hn : length (keys_of_user "U1" (table (with_table big_table))) = 57)
      by (vm_compute; reflexivity).
    rewrite Hn in Hrun, H57.
    exists batches, w'. split; [exact Hrun|]. split; [exact Hlog|].
    split; [exact (H57 eq_refl)|]. split; [exact Hgone|].
    apply Hkept. discriminate.
Defined.

End Instances.

(* ===================================================================== *)
(** ** Reasoning along the control flow of a handler *)
(* ===================================================================== *)

Section WpRules.
Import JS Cloud.
Context {A B : Type}.

Lemma wp_ret (a : A) (Q : Res A -> World -> Prop) (w : World) :
  Q (inr a) w -> wp (ret a) Q w.
Proof. exact id. Qed.

Lemma wp_throw (e : Exn) (Q : Res A -> World -> Prop) (w : World) :
  Q (inl e) w -> wp (throw e) Q w.
Proof. exact id. Qed.

Lemma wp_lift (r : Res A) (Q : Res A -> World -> Prop) (w : World) :
  Q r w -> wp (lift r) Q w.
Proof. exact id. Qed.

Lemma wp_bind (c : M A) (k : A -> M B) (Q : Res B -> World -> Prop) (w : World) :
  wp c (fun r w1 => match r with
                    | inr a => wp (k a) Q w1
                    | inl e => Q (inl e) w1
                    end) w ->
  wp (bind c k) Q w.
Proof. unfold wp, bind. destruct (c w) as [[e|a] w1]; exact id. Qed.

Lemma wp_try_catch (c : M A) (h : Exn -> M A) (Q : Res A -> World -> Prop)
    (w : World) :
  wp c (fun r w1 => match r with
                    | inr a => Q (inr a) w1
                    | inl e => wp (h e) Q w1
                    end) w ->
  wp (try_catch c h) Q w.
Proof. unfold wp, try_catch. destruct (c w) as [[e|a] w1]; exact id. Qed.

Lemma wp_mono (c : M A) (Q Q' : Res A -> World -> Prop) (w : World) :
  (forall r w1, Q r w1 -> Q' r w1) -> wp c Q w -> wp c Q' w.
Proof. unfold wp. auto. Qed.

End WpRules.

Section WpServices.
Import JS Cloud.
Context (E : Env).

Lemma wp_Date_now (Q : Res Z -> World -> Prop) (w : World) :
  Q (inr (clock E (clock_reads w)))
    {| table := table w; clock_reads := S (clock_reads w);
       bedrock_log := bedrock_log w; dynamo_log := dynamo_log w;
       sns_log := sns_log w |} ->
  wp (Date_now E) Q w.
Proof. exact id. Qed.

Lemma wp_invoke_model (input : InvokeInput) (Q : Res string -> World -> Prop)
    (w : World) :
  Q (bedrock_send E (length (bedrock_log w)) input)
    {| table := table w; clock_reads := clock_reads w;
       bedrock_log := bedrock_log w ++ [input]; dynamo_log := dynamo_log w;
       sns_log := sns_log w |} ->
  wp (invoke_model E input) Q w.
Proof. exact id. Qed.

Lemma wp_sns_publish (input : PublishInput) (Q : Res string -> World -> Prop)
    (w : World) :
  Q (sns_send E (length (sns_log w)) input)
    {| table := table w; clock_reads := clock_reads w;
       bedrock_log := bedrock_log w; dynamo_log := dynamo_log w;
       sns_log := sns_log w ++ [input] |} ->
  wp (sns_publish E input) Q w.
Proof. exact id. Qed.

(** A command sent to the store is logged; it fails (by the environment's
    choice or by validation) and leaves the table alone, or it is carried
    out. *)
Lemma wp_dynamo_send (c : DynamoCommand) (Q : Res DynamoReply -> World -> Prop)
    (w : World) :
  (forall e, Q (inl e)
               {| table := table w; clock_reads := clock_reads w;
                  bedrock_log := bedrock_log w; dynamo_log := dynamo_log w ++ [c];
                  sns_log := sns_log w |}) ->
  (forall t r, run_command c (table w) = inr (t, r) ->
               Q (inr r)
                 {| table := t; clock_reads := clock_reads w;
                    bedrock_log := bedrock_log w; dynamo_log := dynamo_log w ++ [c];
                    sns_log := sns_log w |}) ->
  wp (dynamo_send E c) Q w.
Proof.
  intros Hfail Hok. unfold wp, dynamo_send.
  destruct (dynamo_fault E (length (dynamo_log w)) c) as [e|]; [apply Hfail|].
  destruct (run_command c (table w)) as [e|[t r]] eqn:Hrun; [apply Hfail|].
  apply Hok. reflexivity.
Qed.

(** A query that was answered left the table alone. *)
Lemma run_command_query (q : QueryInput) (t t' : Table) (r : DynamoReply) :
  run_command (QueryCommand q) t = inr (t', r) ->
  t' = t /\ r = RItems (run_query q t).
Proof.
  cbn [run_command]. destruct (query_refused q); [discriminate|].
  intros [= <- <-]. split; reflexivity.
Qed.

End WpServices.

(** One step along the control flow: a rule of the calculus, or a case
    distinction on what the program branches on. *)
Ltac wp_step :=
  lazymatch goal with
  | |- wp (Cloud.bind _ _) _ _ => apply wp_bind
  | |- wp (Cloud.try_catch _ _) _ _ => apply wp_try_catch
  | |- wp (Cloud.ret _) _ _ => apply wp_ret
  | |- wp (Cloud.throw _) _ _ => apply wp_throw
  | |- wp (Cloud.lift _) _ _ => apply wp_lift
  | |- wp (Cloud.Date_now _) _ _ => apply wp_Date_now
  | |- wp (Cloud.invoke_model _ _) _ _ => apply wp_invoke_model
  | |- wp (Cloud.sns_publish _ _) _ _ => apply wp_sns_publish
  | |- wp (Cloud.dynamo_send _ _) _ _ =>
      apply wp_dynamo_send; [intros ? | intros ? ? ?]
  | |- wp (if ?b then _ else _) _ _ => destruct b eqn:?
  | |- wp (match ?x with _ => _ end) _ _ => destruct x eqn:?
  | |- match ?x with _ => _ end => destruct x eqn:?
  end.

Ltac wp_run := repeat (wp_step; cbn beta).

(** A goal about the result and the final world of [c w], read as a
    postcondition. *)
Ltac as_wp c w :=
  pattern (fst (c w)), (snd (c w));
  match goal with
  | |- ?Q _ _ => change (wp c Q w)
  end.

Ltac world_simpl :=
  cbn [Cloud.table Cloud.dynamo_log Cloud.sns_log Cloud.bedrock_log
       Cloud.clock_reads fst snd] in *.

(** What a service command that was accepted did to the table. *)
Ltac run_inv :=
  repeat match goal with
         | H : Cloud.run_command (Cloud.QueryCommand _) _ = inr _ |- _ =>
             apply run_command_query in H as [-> ->]
         | H : Cloud.run_command (Cloud.GetCommand _) _ = inr _ |- _ =>
             cbn [Cloud.run_command] in H; injection H as <- <-
         | H : Cloud.run_command (Cloud.UpdateCommand _ _) _ = inr _ |- _ =>
             cbn [Cloud.run_command] in H; injection H as <- <-
         end.

(* ===================================================================== *)
(** ** Further properties of the request handlers *)
(* ===================================================================== *)

Section HandlerOutcomes.
Import JS Cloud.
Context {RT : Runtime} (E : Env).

Lemma wp_any {A} (c : M A) (Q : Res A -> World -> Prop) (w : World) :
  (forall r w1, Q r w1) -> wp c Q w.
Proof. intros H. apply H. Qed.

Lemma answers_intro (codes : list Z) (resp : Response) :
  statusCode resp ∈ codes -> answers codes (inr resp).
Proof. intros H. exists resp. auto. Qed.

Ltac answered := apply answers_intro; cbn; repeat constructor.

Lemma post_answers (event : ApiEvent) (w : World) :
  wp (PostFeedback.handler E event) (fun r _ => answers [202; 400; 401; 500]%Z r) w.
Proof.
  unfold PostFeedback.handler, PostFeedback.submit.
  wp_run; answered.
Qed.

Lemma list_answers (event : ApiEvent) (w : World) :
  wp (GetRecommendations.handler E event) (fun r _ => answers [200; 401; 500]%Z r) w.
Proof.
  unfold GetRecommendations.handler.
  wp_run; answered.
Qed.

Lemma search_answers (event : ApiEvent) (w : World) :
  wp (SearchRecommendations.handler E event)
     (fun r _ => answers [200; 401; 500]%Z r) w.
Proof.
  unfold SearchRecommendations.handler.
  wp_run; answered.
Qed.

Lemma update_answers (event : ApiEvent) (w : World) :
  wp (UpdateRecommendation.handler E event)
     (fun r _ => answers [200; 400; 401; 404; 500]%Z r) w.
Proof.
  unfold UpdateRecommendation.handler, UpdateRecommendation.update.
  wp_run; answered.
Qed.

Lemma delete_answers (event : ApiEvent) (w : World) :
  wp (DeleteRecommendations.handler E event)
     (fun r _ => answers [200; 401; 500]%Z r) w.
Proof.
  unfold DeleteRecommendations.handler.
  apply wp_try_catch.
  destruct (no_user (sub event)); [apply wp_ret; answered|].
  apply wp_bind, wp_dynamo_send; [intros e; apply wp_ret; answered|].
  intros t r _.
  destruct (items_of r); [apply wp_ret; answered|].
  apply wp_bind, wp_any. intros [e|n] w1; apply wp_ret; answered.
Qed.

(** X1. Each of the five API handlers resolves, whatever the request, the
    table and the behaviour of the services: it never rejects, and the
    status of its response is one of a fixed few. *)
Theorem api_handlers_always_answer (event : ApiEvent) (w : World) :
  answers [202; 400; 401; 500]%Z (fst (PostFeedback.handler E event w))
  /\ answers [200; 401; 500]%Z (fst (GetRecommendations.handler E event w))
  /\ answers [200; 401; 500]%Z (fst (SearchRecommendations.handler E event w))
  /\ answers [200; 400; 401; 404; 500]%Z
       (fst (UpdateRecommendation.handler E event w))
  /\ answers [200; 401; 500]%Z (fst (DeleteRecommendations.handler E event w)).
Proof.
  split; [apply post_answers|]. split; [apply list_answers|].
  split; [apply search_answers|]. split; [apply update_answers|].
  apply delete_answers.
Qed.

(** X2. A request without a caller identity (the token carries no sub,
    or an empty one) is answered 401 by each of the five API handlers, and nothing
    is done: no service is called, the clock is not read. *)
Theorem anonymous_caller_is_refused (event : ApiEvent) (w : World) :
  no_user (sub event) = true ->
  PostFeedback.handler E event w = (inr unauthorized, w)
  /\ GetRecommendations.handler E event w = (inr unauthorized, w)
  /\ SearchRecommendations.handler E event w = (inr unauthorized, w)
  /\ UpdateRecommendation.handler E event w = (inr unauthorized, w)
  /\ DeleteRecommendations.handler E event w = (inr unauthorized, w).
Proof.
  intros H.
  unfold PostFeedback.handler, GetRecommendations.handler,
    SearchRecommendations.handler, UpdateRecommendation.handler,
    DeleteRecommendations.handler, try_catch.
  rewrite H. repeat split; reflexivity.
Qed.

(** X3. What the status of Intake's response tells: 202 means the
    submission was published once, to the configured topic and under the
    caller's identity, and the topic acknowledged it with the message id
    that the response carries; 400 and 401 mean nothing at all was done;
    500 means that nothing was done either or that the one Publish call
    was rejected.  The table and the model are never touched. *)
Theorem intake_status_tells_outcome (event : ApiEvent) (w : World) :
  let out := PostFeedback.handler E event w in
  table (snd out) = table w
  /\ dynamo_log (snd out) = dynamo_log w
  /\ bedrock_log (snd out) = bedrock_log w
  /\ exists resp, fst out = inr resp
     /\ ((exists input mid,
            resp = PostFeedback.accepted mid
            /\ sns_log (snd out) = sns_log w ++ [input]
            /\ sns_send E (length (sns_log w)) input = inr mid
            /\ TopicArn input = SNS_TOPIC_ARN E
            /\ attr_userId input = default ""%string (sub event))
         \/ ((statusCode resp = 400 \/ statusCode resp = 401)%Z /\ snd out = w)
         \/ (statusCode resp = 500%Z
             /\ (snd out = w
                 \/ exists input e,
                      sns_log (snd out) = sns_log w ++ [input]
                      /\ sns_send E (length (sns_log w)) input = inl e))).
Proof.
  change (wp (PostFeedback.handler E event)
            (fun r w' =>
               table w' = table w /\ dynamo_log w' = dynamo_log w
               /\ bedrock_log w' = bedrock_log w
               /\ exists resp, r = inr resp
                  /\ ((exists input mid,
                         resp = PostFeedback.accepted mid
                         /\ sns_log w' = sns_log w ++ [input]
                         /\ sns_send E (length (sns_log w)) input = inr mid
                         /\ TopicArn input = SNS_TOPIC_ARN E
                         /\ attr_userId input = default ""%string (sub event))
                      \/ ((statusCode resp = 400 \/ statusCode resp = 401)%Z
                          /\ w' = w)
                      \/ (statusCode resp = 500%Z
                          /\ (w' = w
                              \/ exists input e,
                                   sns_log w' = sns_log w ++ [input]
                                   /\ sns_send E (length (sns_log w)) input
                                      = inl e)))) w).
  unfold PostFeedback.handler, PostFeedback.submit.
  wp_run.
  all: split; [reflexivity|]; split; [reflexivity|]; split; [reflexivity|].
  all: eexists; split; [reflexivity|].
  all: try (right; left; split; [cbn; auto | reflexivity]; fail).
  all: try (right; right; split; [reflexivity|]; left; reflexivity).
  all: first
         [ left; eexists _, _; split; [reflexivity|]; split; [reflexivity|];
           split; [eassumption|]; split; reflexivity
         | right; right; split; [reflexivity|]; right; eexists _, _;
           split; [reflexivity|]; eassumption ].
Qed.

(** X4. Listing and searching only read: the table, the topic and the
    model are left alone and the clock is not read; the store is sent
    nothing (an anonymous caller) or exactly one Query, on the caller's
    own partition, newest first. *)
Theorem list_and_search_only_read (event : ApiEvent) (w : World) :
  let reads (w' : World) :=
    table w' = table w /\ sns_log w' = sns_log w
    /\ bedrock_log w' = bedrock_log w /\ clock_reads w' = clock_reads w
    /\ (dynamo_log w' = dynamo_log w
        \/ exists q, dynamo_log w' = dynamo_log w ++ [QueryCommand q]
                     /\ q_userId q = default ""%string (sub event)
                     /\ q_forward q = false /\ q_keys_only q = false) in
  reads (snd (GetRecommendations.handler E event w))
  /\ reads (snd (SearchRecommendations.handler E event w)).
Proof.
  intros reads. split.
  - change (wp (GetRecommendations.handler E event) (fun _ w' => reads w') w).
    unfold GetRecommendations.handler. wp_run; run_inv.
    all: repeat (split; [reflexivity|]).
    all: try (left; reflexivity).
    all: right; eexists; split; [reflexivity|]; repeat split.
  - change (wp (SearchRecommendations.handler E event) (fun _ w' => reads w') w).
    unfold SearchRecommendations.handler. wp_run; run_inv.
    all: repeat (split; [reflexivity|]).
    all: try (left; reflexivity).
    all: right; eexists; split; [reflexivity|]; repeat split.
Qed.

End HandlerOutcomes.

(* ===================================================================== *)
(** ** What listing and searching return *)
(* ===================================================================== *)

Section ListingProperties.
Import JS Cloud.
Context {RT : Runtime} (E : Env).

#[local] Instance by_timestamp_total : Total by_timestamp.
Proof. intros a b. unfold by_timestamp. lia. Qed.

#[local] Instance by_timestamp_trans : Transitive by_timestamp.
Proof. intros a b c. unfold by_timestamp. lia. Qed.

(** Rows with distinct keys of one user that are sorted by the sort key
    are strictly sorted. *)
Lemma strictly_sorted (u : string) (rows : list (Key * Item)) :
  StronglySorted (flip by_timestamp) rows ->
  NoDup (map fst rows) ->
  Forall (fun kv => fst (fst kv) = u) rows ->
  newest_first rows.
Proof.
  unfold newest_first.
  induction 1 as [|[[u1 t1] it1] rows Hsorted IH Hall]; intros Hnd Hu;
    constructor.
  - apply IH; [by inversion Hnd | by inversion Hu].
  - cbn [map fst] in Hnd. apply NoDup_cons in Hnd as [Hnotin _].
    apply Forall_cons in Hu as [Hu1 Hu]. cbn [fst] in Hu1.
    rewrite Forall_forall in Hall, Hu |- *.
    intros [[u2 t2] it2] Hin. pose proof (Hall _ Hin) as Hle.
    pose proof (Hu _ Hin) as Hu2. unfold flip, by_timestamp in Hle.
    cbn [fst snd] in Hle, Hu2 |- *.
    destruct (decide (t2 = t1)) as [-> | Hne]; [|lia].
    exfalso. apply Hnotin. apply list_elem_of_fmap.
    exists ((u2, t1), it2). split; [cbn; congruence | exact Hin].
Qed.

(** A user's partition read backwards: all the user's records, each once,
    newest first. *)
Lemma reverse_partition (u : string) (t : Table) :
  records_of u t (reverse (partition u t))
  /\ newest_first (reverse (partition u t)).
Proof.
  assert (Hnd : NoDup (map fst (reverse (partition u t)))).
  { change (map fst (reverse (partition u t)))
      with (fst <$> reverse (partition u t)).
    rewrite fmap_reverse, reverse_Permutation. apply keys_of_user_NoDup. }
  split; [split|].
  - eapply NoDup_fmap_1. exact Hnd.
  - intros k item. rewrite elem_of_reverse, elem_of_partition. reflexivity.
  - apply (strictly_sorted u); [| exact Hnd |].
    + apply Sorted_StronglySorted; [apply _|].
      apply Sorted_reverse, Sorted_merge_sort. apply _.
    + apply Forall_forall. intros kv Hin.
      rewrite elem_of_reverse, elem_of_partition in Hin. tauto.
Qed.

Lemma run_query_all (u : string) (t : Table) :
  run_query (GetRecommendations.all_query u) t
  = map snd (reverse (partition u t)).
Proof.
  unfold run_query, GetRecommendations.all_query.
  cbn [q_userId q_forward q_filter q_keys_only eval_filter forallb].
  rewrite filter_everything. reflexivity.
Qed.

(** X5. With a caller identity and a store that answers, the list
    endpoint returns 200 with all the records of the caller and no one
    else's, each once, in strictly descending order of submission time,
    and [count] is their number. *)
Theorem list_returns_own_records_newest_first (event : ApiEvent) (u : string)
    (w : World) :
  sub event = Some u -> u <> ""%string -> store_accepts_next E w ->
  exists rows w',
    GetRecommendations.handler E event w
    = (inr {| statusCode := 200;
              response_body :=
                VObj [("recommendations", VArr (map VObj (map snd rows)));
                      ("count", VNum (Z.of_nat (length rows)))] |}, w')
    /\ records_of u (table w) rows
    /\ newest_first rows.
Proof.
  intros Hsub Hne Hstore.
  exists (reverse (partition u (table w))).
  unfold GetRecommendations.handler, try_catch, bind, dynamo_send, no_user.
  rewrite Hsub. apply String.eqb_neq in Hne. rewrite Hne, Hstore.
  cbn [run_command default from_option id].
  change (query_refused (GetRecommendations.all_query u)) with (@None Exn).
  cbn [items_of ret].
  rewrite run_query_all. unfold GetRecommendations.listed.
  rewrite length_map.
  eexists. split; [reflexivity|]. apply reverse_partition.
Qed.

Lemma filter_res_sublist (f : Item -> Res bool) (items kept : list Item) :
  SearchRecommendations.filter_res f items = inr kept -> sublist kept items.
Proof.
  revert kept. induction items as [|x items IH]; intros kept Hrun.
  - cbn in Hrun. injection Hrun as <-. constructor.
  - cbn [SearchRecommendations.filter_res] in Hrun.
    destruct (f x) as [e|keep]; [discriminate Hrun|].
    destruct (SearchRecommendations.filter_res f items) as [e|kept'];
      [discriminate Hrun|].
    injection Hrun as <-. destruct keep.
    + apply sublist_skip. auto.
    + apply sublist_cons. auto.
Qed.

Lemma text_search_sublist (search : option string) (items kept : list Item) :
  SearchRecommendations.text_search search items = inr kept ->
  sublist kept items.
Proof.
  unfold SearchRecommendations.text_search.
  destruct (SearchRecommendations.given search) as [s|].
  - destruct (String.eqb (trim s) "").
    + intros [= <-]. reflexivity.
    + apply filter_res_sublist.
  - intros [= <-]. reflexivity.
Qed.

Lemma run_query_sublist (u : string) (q : gmap string string) (t : Table) :
  sublist (run_query (SearchRecommendations.query_input u q) t)
          (run_query (GetRecommendations.all_query u) t).
Proof.
  rewrite run_query_all. unfold run_query, SearchRecommendations.query_input.
  cbn [q_userId q_forward q_filter q_keys_only].
  apply fmap_sublist, sublist_filter.
Qed.

(** The list is answered, and with 200 only by what the store holds for
    the caller. *)
Lemma list_outcome (event : ApiEvent) (w : World) :
  exists lresp w1,
    GetRecommendations.handler E event w = (inr lresp, w1)
    /\ (statusCode lresp = 200%Z ->
        lresp = GetRecommendations.listed
                  (run_query
                     (GetRecommendations.all_query (default ""%string (sub event)))
                     (table w))).
Proof.
  unfold GetRecommendations.handler, try_catch, bind, dynamo_send.
  destruct (no_user (sub event)).
  { eexists _, _. split; [reflexivity|]. intros Hs. discriminate Hs. }
  destruct (dynamo_fault E _ _) as [e|].
  { eexists _, _. split; [reflexivity|]. intros Hs. discriminate Hs. }
  cbn [run_command].
  change (query_refused (GetRecommendations.all_query (default ""%string (sub event))))
    with (@None Exn).
  eexists _, _. split; reflexivity.
Qed.

(** The search is answered, and with 200 only by records that the store
    returned to its query. *)
Lemma search_outcome (event : ApiEvent) (w : World) :
  exists resp w2,
    SearchRecommendations.handler E event w = (inr resp, w2)
    /\ (statusCode resp = 200%Z ->
        exists items,
          resp = SearchRecommendations.found items
                   (default ∅ (queryStringParameters event))
          /\ sublist items
               (run_query
                  (SearchRecommendations.query_input
                     (default ""%string (sub event))
                     (default ∅ (queryStringParameters event)))
                  (table w))).
Proof.
  unfold SearchRecommendations.handler, try_catch, bind, dynamo_send.
  destruct (no_user (sub event)).
  { eexists _, _. split; [reflexivity|]. intros Hs. discriminate Hs. }
  destruct (dynamo_fault E _ _) as [e|].
  { eexists _, _. split; [reflexivity|]. intros Hs. discriminate Hs. }
  cbn [run_command].
  destruct (query_refused _) as [e|].
  { eexists _, _. split; [reflexivity|]. intros Hs. discriminate Hs. }
  cbn [items_of lift].
  destruct (SearchRecommendations.text_search _ _) as [e|items] eqn:Htext.
  { eexists _, _. split; [reflexivity|]. intros Hs. discriminate Hs. }
  eexists _, _. split; [reflexivity|]. intros _. exists items.
  split; [reflexivity|]. eapply text_search_sublist. exact Htext.
Qed.

(** X6. Searching never shows more than listing: for the same caller and
    table, whatever the parameters and however the store behaves, when the
    search and the list are both answered 200, the records of the search
    are a subsequence of the records of the list, in the same order. *)
Theorem search_returns_part_of_the_list (event : ApiEvent) (w : World) :
  exists resp w2 lresp w1,
    SearchRecommendations.handler E event w = (inr resp, w2)
    /\ GetRecommendations.handler E event w = (inr lresp, w1)
    /\ (statusCode resp = 200%Z -> statusCode lresp = 200%Z ->
        exists items listing,
          resp = SearchRecommendations.found items
                   (default ∅ (queryStringParameters event))
          /\ lresp = GetRecommendations.listed listing
          /\ sublist items listing).
Proof.
  destruct (search_outcome event w) as (resp & w2 & Hsearch & Hfound).
  destruct (list_outcome event w) as (lresp & w1 & Hlist & Hlisted).
  exists resp, w2, lresp, w1. split; [exact Hsearch|]. split; [exact Hlist|].
  intros Hs Hl. destruct (Hfound Hs) as (items & -> & Hsub).
  eexists _, _. split; [reflexivity|]. split; [exact (Hlisted Hl)|].
  etransitivity; [exact Hsub|]. apply run_query_sublist.
Qed.

(** X7. The [completed] parameter is compared with the literal "true":
    any other value, the empty string included, asks the store for the
    records that are not completed, exactly as "false" does. *)
Theorem completed_other_than_true_means_false (u c : string)
    (q : gmap string string) :
  c <> "true"%string ->
  SearchRecommendations.query_input u (<["completed" := c]> q)
  = SearchRecommendations.query_input u (<["completed" := "false"%string]> q).
Proof.
  intros Hc. unfold SearchRecommendations.query_input,
    SearchRecommendations.filterExpressions.
  rewrite !lookup_insert_eq.
  rewrite !(lookup_insert_ne q "completed") by (intros Heq; discriminate Heq).
  unfold SearchRecommendations.completed_filter.
  apply String.eqb_neq in Hc. rewrite Hc. reflexivity.
Qed.

End ListingProperties.

(* ===================================================================== *)
(** ** What an update can and cannot change *)
(* ===================================================================== *)

Section UpdateEffects.
Import JS Cloud.
Context {RT : Runtime} (E : Env).

Lemma apply_sets_other (sets : list (string * Value)) (item : Item) (a : string) :
  Forall (fun kv => fst kv <> a) sets ->
  assoc a (apply_sets sets item) = assoc a item.
Proof.
  unfold apply_sets. revert item.
  induction sets as [|[k v] sets IH]; intros item Hall; [reflexivity|].
  apply Forall_cons in Hall as [Hk Hall]. cbn [fold_left fst snd].
  rewrite IH by exact Hall. apply assoc_set_ne. exact Hk.
Qed.

Lemma requested_sets_names (c t r f : option Value) :
  Forall (fun kv => fst kv ∈ whitelist)
    (UpdateRecommendation.requested_sets c t r f).
Proof.
  unfold UpdateRecommendation.requested_sets, whitelist.
  destruct c, t as [tv|], r, f; cbn [isArray_opt field app];
    try destruct (isArray tv); cbn [app];
    repeat (apply Forall_cons; split; [cbn [fst]; repeat constructor|]);
    apply Forall_nil_2.
Qed.

(** No assignment of an update names a key attribute. *)
Lemma update_keeps_key (c t r f : option Value) (stamp : Value) (item : Item) :
  key_of (apply_sets (UpdateRecommendation.requested_sets c t r f
                      ++ [("updatedAt", stamp)]) item)
  = key_of item.
Proof.
  assert (Hnames : forall a, a ∉ whitelist -> a <> "updatedAt"%string ->
            Forall (fun kv : string * Value => fst kv <> a)
              (UpdateRecommendation.requested_sets c t r f
               ++ [("updatedAt", stamp)])).
  { intros a Ha Hu. apply Forall_app. split.
    - eapply Forall_impl; [apply requested_sets_names|].
      intros kv Hin Heq. apply Ha. rewrite <- Heq. exact Hin.
    - apply Forall_cons. split; [cbn [fst]; congruence | apply Forall_nil_2]. }
  unfold key_of. rewrite !apply_sets_other; [reflexivity| |].
  - apply Hnames; [|intros Heq; discriminate Heq].
    unfold whitelist. intros Hin.
    repeat (apply elem_of_cons in Hin as [Heq | Hin]; [discriminate Heq|]).
    by apply elem_of_nil in Hin.
  - apply Hnames; [|intros Heq; discriminate Heq].
    unfold whitelist. intros Hin.
    repeat (apply elem_of_cons in Hin as [Heq | Hin]; [discriminate Heq|]).
    by apply elem_of_nil in Hin.
Qed.

Lemma no_user_false (o : option string) :
  no_user o = false -> o = Some (default ""%string o).
Proof. destruct o; [reflexivity | discriminate]. Qed.

(** X8. Whatever the request and however the store behaves, an update
    never creates and never removes a record; the only record it can
    change is the caller's own at the timestamp of the path, and that
    record keeps its key attributes; any answer other than 200 means the
    table is as it was.  The topic and the model are not involved. *)
Theorem update_changes_one_existing_record (event : ApiEvent) (w : World) :
  let out := UpdateRecommendation.handler E event w in
  dom (table (snd out)) = dom (table w)
  /\ (forall k, table (snd out) !! k <> table w !! k ->
        sub event = Some (fst k)
        /\ parseInt_opt (path_timestamp event) = Some (snd k))
  /\ (forall k item item',
        table w !! k = Some item -> table (snd out) !! k = Some item' ->
        key_of item' = key_of item)
  /\ (forall resp, fst out = inr resp -> statusCode resp <> 200%Z ->
        table (snd out) = table w)
  /\ sns_log (snd out) = sns_log w
  /\ bedrock_log (snd out) = bedrock_log w.
Proof.
  intros out. subst out.
  as_wp (UpdateRecommendation.handler E event) w.
  unfold UpdateRecommendation.handler, UpdateRecommendation.update.
  wp_run; run_inv; world_simpl.
  all: try (repeat split; try reflexivity; intros; congruence).
  cbn [item_of] in Heqo0. rewrite Heqo0. cbn [default from_option id].
  set (key := (default ""%string (sub event), z)) in *.
  set (item' := apply_sets _ l).
  assert (Hkey : key_of item' = key_of l) by apply update_keeps_key.
  split; [|split; [|split; [|split; [|split; reflexivity]]]].
  - apply dom_insert_lookup_L. rewrite Heqo0. eauto.
  - intros k Hk. destruct (decide (k = key)) as [-> | Hne].
    + split; [apply no_user_false; exact Heqb | reflexivity].
    + rewrite lookup_insert_ne in Hk by congruence. contradiction.
  - intros k item item'' Hold Hnew. destruct (decide (k = key)) as [-> | Hne].
    + rewrite lookup_insert_eq in Hnew. congruence.
    + rewrite lookup_insert_ne in Hnew by congruence. congruence.
  - intros resp [= <-] Hcode. exfalso. apply Hcode. reflexivity.
Qed.

(** X9. An update whose path carries no usable timestamp (missing, not a
    number, or zero) or whose body is not JSON is answered 400 before the
    store is consulted: nothing is sent and nothing changes. *)
Theorem malformed_update_is_rejected_unseen (event : ApiEvent) (u : string)
    (w : World) :
  sub event = Some u -> u <> ""%string ->
  parseInt_opt (path_timestamp event) = None
  \/ parseInt_opt (path_timestamp event) = Some 0%Z
  \/ (exists e, JSON_parse (body_or_empty (body event)) = inl e) ->
  exists msg,
    UpdateRecommendation.handler E event w
    = (inr (error_response 400 "Bad Request" msg), w).
Proof.
  intros Hsub Hne Hbad.
  unfold UpdateRecommendation.handler, try_catch, no_user.
  rewrite Hsub. apply String.eqb_neq in Hne. rewrite Hne.
  destruct (parseInt_opt (path_timestamp event)) as [ts|] eqn:Hts.
  - destruct (ts =? 0)%Z eqn:Hz; [eexists; reflexivity|].
    destruct Hbad as [Hbad | [Hbad | [e Hbad]]].
    + discriminate Hbad.
    + injection Hbad as ->. discriminate Hz.
    + rewrite Hbad. eexists. reflexivity.
  - eexists. reflexivity.
Qed.

End UpdateEffects.

(* ===================================================================== *)
(** ** Bulk delete when the store may fail *)
(* ===================================================================== *)

Section DeleteEffects.
Import JS Cloud DeleteRecommendations.
Context (E : Env).

Lemma delete_all_app (ks1 ks2 : list Key) (t : Table) :
  delete_all (ks1 ++ ks2) t = delete_all ks2 (delete_all ks1 t).
Proof. unfold delete_all. apply fold_left_app. Qed.

(** What the loop has done when it ends, normally or not: it has removed
    some of the keys it was given and nothing else; when it ends normally
    it has removed all those from its starting index on. *)
Lemma delete_loop_effect (fuel : nat) (ks : list Key) (i n : nat) (w : World) :
  length ks - i <= fuel ->
  wp (delete_loop E fuel (map key_attrs ks) i n)
     (fun r w' =>
        exists removed,
          (forall k, k ∈ removed -> k ∈ ks)
          /\ table w' = delete_all removed (table w)
          /\ (forall m, r = inr m -> forall k, k ∈ skipn i ks -> k ∈ removed)
          /\ sns_log w' = sns_log w /\ bedrock_log w' = bedrock_log w
          /\ clock_reads w' = clock_reads w) w.
Proof.
  revert i n w. induction fuel as [|fuel IH]; intros i n w Hfuel.
  - cbn [delete_loop]. rewrite length_map.
    replace (i <? length ks)%nat with false by (symmetry; apply Nat.ltb_ge; lia).
    apply wp_ret. exists []. repeat split; try reflexivity.
    + intros k Hk. by apply elem_of_nil in Hk.
    + intros m _ k Hk. rewrite skipn_all2 in Hk by lia. exact Hk.
  - cbn [delete_loop]. rewrite length_map.
    destruct (i <? length ks)%nat eqn:Hi.
    2: { apply Nat.ltb_ge in Hi. apply wp_ret. exists [].
         repeat split; try reflexivity.
         - intros k Hk. by apply elem_of_nil in Hk.
         - intros m _ k Hk. rewrite skipn_all2 in Hk by lia. exact Hk. }
    apply Nat.ltb_lt in Hi.
    unfold slice, batchSize. rewrite skipn_map, firstn_map.
    apply wp_bind, wp_dynamo_send.
    + intros e. exists []. repeat split; try reflexivity.
      * intros k Hk. by apply elem_of_nil in Hk.
      * intros m Hm. discriminate Hm.
    + intros t r Hrun. cbn [run_command] in Hrun.
      rewrite delete_requests_keys in Hrun. injection Hrun as <- <-.
      eapply wp_mono; [|apply IH; lia].
      intros r w1 (removed & Hsub & Ht & Hall & Hs & Hb & Hc).
      world_simpl.
      exists (take 25 (skipn i ks) ++ removed).
      split; [|split; [|split; [|auto]]].
      * intros k [Hk | Hk]%elem_of_app; [|auto].
        apply (subseteq_take 25 (skipn i ks)) in Hk.
        apply (subseteq_drop i ks). exact Hk.
      * rewrite Ht. symmetry. apply delete_all_app.
      * intros m Hm k Hk.
        rewrite <- (firstn_skipn 25 (skipn i ks)) in Hk.
        apply elem_of_app in Hk as [Hk | Hk]; apply elem_of_app;
          [left; exact Hk|right].
        apply (Hall m Hm). rewrite skipn_skipn, (Nat.add_comm 25 i) in Hk.
        exact Hk.
Qed.

Lemma delete_handler_effect (event : ApiEvent) (w : World) :
  wp (handler E event)
     (fun r w' =>
        exists removed,
          (forall k, k ∈ removed -> sub event = Some (fst k))
          /\ table w' = delete_all removed (table w)
          /\ (forall resp, r = inr resp -> statusCode resp = 200%Z ->
                forall k, sub event = Some (fst k) -> table w' !! k = None)
          /\ sns_log w' = sns_log w /\ bedrock_log w' = bedrock_log w
          /\ clock_reads w' = clock_reads w) w.
Proof.
  unfold handler. apply wp_try_catch.
  destruct (no_user (sub event)) eqn:Hanon.
  { apply wp_ret. exists []. repeat split; try reflexivity.
    - intros k Hk. by apply elem_of_nil in Hk.
    - intros resp [= <-] Hcode. discriminate Hcode. }
  apply no_user_false in Hanon.
  set (u := default ""%string (sub event)) in *.
  apply wp_bind, wp_dynamo_send.
  { intros e. apply wp_ret. exists []. repeat split; try reflexivity.
    - intros k Hk. by apply elem_of_nil in Hk.
    - intros resp [= <-] Hcode. discriminate Hcode. }
  intros t r Hrun. run_inv. cbn [items_of]. rewrite run_query_keys.
  assert (Hown : forall k, k ∈ keys_of_user u (table w) -> sub event = Some (fst k)).
  { intros k [_ Hk]%elem_of_keys_of_user. congruence. }
  assert (Hgone : forall removed k,
            (forall k', k' ∈ keys_of_user u (table w) -> k' ∈ removed) ->
            sub event = Some (fst k) ->
            delete_all removed (table w) !! k = None).
  { intros removed k Hall Hk. rewrite lookup_delete_all.
    destruct (decide (k ∈ removed)) as [Hin | Hnin].
    - rewrite bool_decide_eq_true_2 by exact Hin. reflexivity.
    - rewrite bool_decide_eq_false_2 by exact Hnin.
      destruct (table w !! k) eqn:Hl; [|reflexivity].
      exfalso. apply Hnin, Hall, elem_of_keys_of_user.
      split; [eauto | congruence]. }
  destruct (keys_of_user u (table w)) as [|k0 rest] eqn:Hkeys.
  { cbn [map]. apply wp_ret. exists []. world_simpl.
    repeat split; try reflexivity.
    - intros k Hk. by apply elem_of_nil in Hk.
    - intros resp _ _ k Hk. apply (Hgone [] k); [|exact Hk].
      intros k' Hk'. exact Hk'. }
  change (map key_attrs (k0 :: rest))
    with (key_attrs k0 :: map key_attrs rest).
  cbv iota.
  change (key_attrs k0 :: map key_attrs rest)
    with (map key_attrs (k0 :: rest)).
  rewrite length_map.
  apply wp_bind. eapply wp_mono; [|apply delete_loop_effect; lia].
  intros r w1 (removed & Hsub & Ht & Hall & Hs & Hb & Hc). world_simpl.
  assert (Hpost : forall resp : Response,
            (forall resp', @inr Exn Response resp = inr resp' ->
               statusCode resp' = 200%Z -> exists m, r = inr m) ->
            exists removed0,
              (forall k, k ∈ removed0 -> sub event = Some (fst k))
              /\ table w1 = delete_all removed0 (table w)
              /\ (forall resp', @inr Exn Response resp = inr resp' ->
                    statusCode resp' = 200%Z ->
                    forall k, sub event = Some (fst k) -> table w1 !! k = None)
              /\ sns_log w1 = sns_log w /\ bedrock_log w1 = bedrock_log w
              /\ clock_reads w1 = clock_reads w).
  { intros resp Hok. exists removed.
    split; [auto|]. split; [exact Ht|]. split; [|auto].
    intros resp' Hresp Hcode k Hk.
    destruct (Hok resp' Hresp Hcode) as [m Hm].
    rewrite Ht. apply Hgone; [|exact Hk].
    intros k' Hk'. apply (Hall m Hm). exact Hk'. }
  destruct r as [e|m]; apply wp_ret; apply Hpost.
  - intros resp' [= <-] Hcode. discriminate Hcode.
  - intros resp' _ _. eauto.
Qed.

(** X10. However the store behaves (any BatchWrite may be rejected, which
    leaves the delete half done and answers 500), a bulk delete removes
    only records of the caller and changes none that stays; an answer of
    200 means the caller has no record left.  The topic, the model and the
    clock are not involved. *)
Theorem delete_removes_only_own_records (event : ApiEvent) (w : World) :
  let out := handler E event w in
  (forall k, table (snd out) !! k = table w !! k
             \/ (table (snd out) !! k = None /\ sub event = Some (fst k)))
  /\ (forall resp, fst out = inr resp -> statusCode resp = 200%Z ->
        forall k, sub event = Some (fst k) -> table (snd out) !! k = None)
  /\ sns_log (snd out) = sns_log w
  /\ bedrock_log (snd out) = bedrock_log w
  /\ clock_reads (snd out) = clock_reads w.
Proof.
  intros out. subst out.
  destruct (delete_handler_effect event w)
    as (removed & Hown & Ht & Hgone & Hrest).
  split; [|split; [exact Hgone | exact Hrest]].
  intros k. rewrite Ht, lookup_delete_all.
  destruct (decide (k ∈ removed)) as [Hin | Hnin].
  - rewrite bool_decide_eq_true_2 by exact Hin. right. auto.
  - rewrite bool_decide_eq_false_2 by exact Hnin. left. reflexivity.
Qed.

Lemma keys_of_user_nil (u : string) (t : Table) :
  (forall k, fst k = u -> t !! k = None) -> keys_of_user u t = [].
Proof.
  intros Hnone. destruct (keys_of_user u t) as [|k rest] eqn:Hk; [reflexivity|].
  assert (Hin : k ∈ keys_of_user u t) by (rewrite Hk; left).
  apply elem_of_keys_of_user in Hin as [[item Hl] Hu].
  rewrite Hnone in Hl by exact Hu. discriminate Hl.
Qed.

(** With a store that answers, the bulk delete answers 200 and leaves the
    caller without a record. *)
Lemma delete_handler_reliable (event : ApiEvent) (u : string) (w : World) :
  sub event = Some u -> u <> ""%string -> store_reliable E ->
  exists msg n w1,
    handler E event w = (inr (deleted msg n), w1)
    /\ forall k, fst k = u -> table w1 !! k = None.
Proof.
  intros Hsub Hne Hstore.
  assert (Hgone : forall k, fst k = u ->
            delete_all (keys_of_user u (table w)) (table w) !! k = None).
  { intros k Hk. rewrite lookup_delete_all.
    destruct (decide (k ∈ keys_of_user u (table w))) as [Hin | Hnin].
    - rewrite bool_decide_eq_true_2 by exact Hin. reflexivity.
    - rewrite bool_decide_eq_false_2 by exact Hnin.
      destruct (table w !! k) eqn:Hl; [|reflexivity].
      exfalso. apply Hnin, elem_of_keys_of_user. rewrite Hl. eauto. }
  unfold handler, try_catch. rewrite Hsub. cbn [no_user default from_option id].
  apply String.eqb_neq in Hne. rewrite Hne.
  unfold bind at 1. unfold dynamo_send at 1. rewrite Hstore.
  cbn [run_command].
  change (query_refused (keys_query u)) with (@None Exn).
  cbn [set_table items_of]. rewrite run_query_keys.
  set (keys := keys_of_user u (table w)) in *. clearbody keys.
  destruct (delete_loop_spec E (length keys) keys 0 0
              {| table := table w; clock_reads := clock_reads w;
                 bedrock_log := bedrock_log w;
                 dynamo_log := dynamo_log w ++ [QueryCommand (keys_query u)];
                 sns_log := sns_log w |} Hstore)
    as (w1 & Hrun & Ht & _); [lia|].
  change (skipn 0 keys) with keys in Ht. cbn [table] in Ht.
  destruct keys as [|k0 rest].
  - eexists _, _, _. cbn [map]. unfold ret. split; [reflexivity|].
    cbn [table]. exact Hgone.
  - cbn [map]. unfold bind.
    change (key_attrs k0 :: map key_attrs rest) with (map key_attrs (k0 :: rest)).
    unfold set_table. cbn [table clock_reads bedrock_log dynamo_log sns_log].
    rewrite length_map, Hrun. unfold ret.
    eexists _, _, _. split; [reflexivity|]. rewrite Ht. exact Hgone.
Qed.

(** A caller without a record: one Query, no BatchWrite, deletedCount 0. *)
Lemma nothing_to_delete (event : ApiEvent) (u : string) (w : World) :
  sub event = Some u -> u <> ""%string -> store_accepts_next E w ->
  (forall k, fst k = u -> table w !! k = None) ->
  handler E event w
  = (inr (deleted "No recommendations to delete" 0),
     {| table := table w; clock_reads := clock_reads w;
        bedrock_log := bedrock_log w;
        dynamo_log := dynamo_log w ++ [QueryCommand (keys_query u)];
        sns_log := sns_log w |}).
Proof.
  intros Hsub Hne Hstore Hnone.
  unfold handler, try_catch. rewrite Hsub. cbn [no_user default from_option id].
  apply String.eqb_neq in Hne. rewrite Hne.
  unfold bind, dynamo_send. rewrite Hstore.
  cbn [run_command].
  change (query_refused (keys_query u)) with (@None Exn).
  cbn [set_table items_of].
  rewrite run_query_keys, (keys_of_user_nil u (table w) Hnone). reflexivity.
Qed.

(** X16. Bulk delete is idempotent: with a store that answers, a second
    call right after the first finds nothing, answers 200 with
    deletedCount 0 and the message "No recommendations to delete", sends
    the store one Query and no BatchWrite, and leaves the table as the
    first call left it. *)
Theorem delete_is_idempotent (event : ApiEvent) (u : string) (w : World) :
  sub event = Some u -> u <> ""%string -> store_reliable E ->
  exists resp w1 w2,
    handler E event w = (inr resp, w1)
    /\ statusCode resp = 200%Z
    /\ handler E event w1
       = (inr (deleted "No recommendations to delete" 0), w2)
    /\ table w2 = table w1
    /\ dynamo_log w2 = dynamo_log w1 ++ [QueryCommand (keys_query u)].
Proof.
  intros Hsub Hne Hstore.
  destruct (delete_handler_reliable event u w Hsub Hne Hstore)
    as (msg & n & w1 & Hrun & Hgone).
  eexists _, w1, _. split; [exact Hrun|]. split; [reflexivity|].
  split; [apply (nothing_to_delete event u w1 Hsub Hne); [|exact Hgone]|].
  - intros c. apply Hstore.
  - split; reflexivity.
Qed.

End DeleteEffects.

(* ===================================================================== *)
(** ** The worker: what it generates, writes and reports *)
(* ===================================================================== *)

Section WorkerEffects.
Import JS Cloud ProcessFeedback.
Context {RT : Runtime} (E : Env).

Lemma substring0_length (n : nat) (s : string) :
  String.length (substring0 n s) <= n.
Proof.
  revert s. induction n as [|n IH]; intros [|c s]; cbn; try lia.
  specialize (IH s). lia.
Qed.

Lemma inr_eq {A B : Type} (x y : B) : @inr A B x = inr y -> x = y.
Proof. congruence. Qed.

Lemma calls_nothing_refl (w : World) : calls_nothing w w.
Proof. repeat split. Qed.

Lemma includes_str_priority (priority : option Value) :
  includes_str ["high"; "medium"; "low"] priority = true ->
  exists s, priority = Some (VStr s) /\ s ∈ ["high"; "medium"; "low"]%string.
Proof.
  destruct priority as [[|b|n|s|l|l]|]; try discriminate. cbn [includes_str existsb].
  intros H. exists s. split; [reflexivity|].
  destruct (String.eqb s "high") eqn:H1;
    [apply String.eqb_eq in H1; subst s; repeat constructor|].
  destruct (String.eqb s "medium") eqn:H2;
    [apply String.eqb_eq in H2; subst s; repeat constructor|].
  destruct (String.eqb s "low") eqn:H3;
    [apply String.eqb_eq in H3; subst s; repeat constructor|].
  discriminate H.
Qed.

Lemma sanitize_effect (rec : Value) (index : nat) (w : World) :
  wp (sanitize E rec index)
     (fun r w' => calls_nothing w w'
                  /\ forall v, r = inr v -> well_formed_recommendation v) w.
Proof.
  unfold sanitize. wp_run; world_simpl.
  all: split; [repeat split|].
  all: intros v' Hv; try discriminate Hv.
  apply inr_eq in Hv. subst v'.
  destruct (includes_str ["high"; "medium"; "low"] o1) eqn:Hp.
  - apply includes_str_priority in Hp as (p & -> & Hin).
    eexists _, _, _, _, _. split; [reflexivity|].
    split; [apply substring0_length|]. split; [apply substring0_length|].
    exact Hin.
  - eexists _, _, _, _, _. split; [reflexivity|].
    split; [apply substring0_length|]. split; [apply substring0_length|].
    repeat constructor.
Qed.

Lemma sanitize_all_effect (recs : list Value) (index : nat) (w : World) :
  wp (sanitize_all E recs index)
     (fun r w' => calls_nothing w w'
                  /\ forall vs, r = inr vs ->
                       Forall well_formed_recommendation vs
                       /\ length vs = length recs) w.
Proof.
  revert index w. induction recs as [|rec rest IH]; intros index w;
    cbn [sanitize_all].
  - apply wp_ret. split; [apply calls_nothing_refl|].
    intros vs [= <-]. split; [constructor | reflexivity].
  - apply wp_bind. eapply wp_mono; [|apply sanitize_effect].
    intros [e|v] w1 [Hw1 Hv].
    + split; [exact Hw1|]. intros vs Hvs. discriminate Hvs.
    + apply wp_bind. eapply wp_mono; [|apply IH].
      intros [e|vs] w2 [Hw2 Hvs].
      * split; [|intros ? Habs; discriminate Habs].
        unfold calls_nothing in *. intuition congruence.
      * apply wp_ret. split; [unfold calls_nothing in *; intuition congruence|].
        intros vs' [= <-]. destruct (Hvs vs eq_refl) as [Hall Hlen].
        split; [constructor; auto | cbn; lia].
Qed.

(** The try block of generateRecommendations calls the model once and
    nothing else. *)
Lemma ask_model_effect (input : InvokeInput) (w : World) :
  wp (ask_model E input)
     (fun r w' =>
        table w' = table w /\ dynamo_log w' = dynamo_log w
        /\ sns_log w' = sns_log w
        /\ bedrock_log w' = bedrock_log w ++ [input]
        /\ forall recs, r = inr recs ->
             Forall well_formed_recommendation recs) w.
Proof.
  unfold ask_model.
  apply wp_bind, wp_invoke_model.
  destruct (bedrock_send E _ input) as [e|text];
    [repeat split; intros ? Habs; discriminate Habs|].
  apply wp_bind, wp_lift.
  destruct (JSON_parse text) as [e|responseBody];
    [repeat split; intros ? Habs; discriminate Habs|].
  apply wp_bind, wp_lift.
  destruct (get responseBody "content") as [e|content0];
    [repeat split; intros ? Habs; discriminate Habs|].
  destruct (or_else _ _) as [|?|?|recommendationsText|?|?];
    try (apply wp_throw; repeat split; intros ? Habs; discriminate Habs).
  apply wp_bind, wp_lift.
  destruct (JSON_parse _) as [e|recommendations];
    [repeat split; intros ? Habs; discriminate Habs|].
  destruct recommendations as [|?|?|?|recs|?];
    try (apply wp_throw; repeat split; intros ? Habs; discriminate Habs).
  eapply wp_mono; [|apply sanitize_all_effect].
  intros r w1 [(Ht & Hd & Hs & Hb) Hrecs]. world_simpl.
  repeat split; try assumption. intros recs' Hr. apply (Hrecs _ Hr).
Qed.

Lemma fallback_item_well_formed (now : Z) :
  well_formed_recommendation (fallback_item now).
Proof.
  eexists _, _, _, _, _. split; [reflexivity|].
  split; [cbn; lia|]. split; [cbn; lia|]. repeat constructor.
Qed.

(** generateRecommendations throws only when the feedback cannot be
    converted to a string, before anything is done; otherwise it calls
    the model exactly once and returns well-formed recommendations. *)
Lemma generateRecommendations_effect (feedback : Value) (w : World) :
  wp (generateRecommendations E feedback)
     (fun r w' =>
        match ToString feedback with
        | inl e => r = inl e /\ w' = w
        | inr text =>
            exists recs,
              r = inr recs
              /\ Forall well_formed_recommendation recs
              /\ bedrock_log w' = bedrock_log w ++ [invoke_input E text]
              /\ table w' = table w /\ dynamo_log w' = dynamo_log w
              /\ sns_log w' = sns_log w
        end) w.
Proof.
  unfold generateRecommendations. apply wp_bind, wp_lift.
  destruct (ToString feedback) as [e|text]; [split; reflexivity|].
  apply wp_try_catch. eapply wp_mono; [|apply ask_model_effect].
  intros [e|recs] w1 (Ht & Hd & Hs & Hb & Hrecs).
  - unfold fallback. wp_run. world_simpl.
    eexists. split; [reflexivity|].
    split; [repeat constructor; apply fallback_item_well_formed|]. auto.
  - exists recs. split; [reflexivity|]. split; [apply Hrecs; reflexivity|].
    auto.
Qed.

(** X11. Given a feedback that converts to a string (every string does),
    generateRecommendations returns and never throws, whatever the model
    does: it calls the model exactly once, with the prompt made from the
    feedback, touches neither the table nor the topic, and every
    recommendation it returns, the fallback included, has the five string
    fields, a title of at most 100 characters, a description of at most
    500 and a priority that is high, medium or low. *)
Theorem generated_recommendations_are_well_formed (feedback : Value)
    (text : string) (w : World) :
  ToString feedback = inr text ->
  exists recs w',
    generateRecommendations E feedback w = (inr recs, w')
    /\ Forall well_formed_recommendation recs
    /\ bedrock_log w' = bedrock_log w ++ [invoke_input E text]
    /\ table w' = table w /\ dynamo_log w' = dynamo_log w
    /\ sns_log w' = sns_log w.
Proof.
  intros Htext. pose proof (generateRecommendations_effect feedback w) as H.
  unfold wp in H. rewrite Htext in H. destruct H as (recs & Hr & Hrest).
  exists recs, (snd (generateRecommendations E feedback w)).
  split; [|exact Hrest].
  rewrite <- Hr. apply surjective_pairing.
Qed.

(** What one turn of the loop does.  Either nothing at all: the message
    is skipped as invalid, or an error leaves the loop body before any
    call.  Or the model has been called once and one Put sent, of an item
    that is not completed and has well-formed recommendations: stored
    under its own key when the Put is accepted, lost when it is not. *)
Lemma process_record_effect (record : SQSRecord) (results : Results) (w : World) :
  wp (process_record E record results)
     (fun r w' =>
        (w' = w
         /\ forall res, r = inr res ->
              res = push_failed results
                      (failed_entry (messageId record) "Invalid message format"))
        \/ exists item,
             dynamo_log w' = dynamo_log w ++ [PutCommand item]
             /\ fresh_item item
             /\ sns_log w' = sns_log w
             /\ length (bedrock_log w') = S (length (bedrock_log w))
             /\ match r with
                | inr res =>
                    (exists userId,
                       res = push_successful results
                               (successful_entry (messageId record) userId))
                    /\ exists k, key_of item = Some k
                                 /\ table w' = <[k := item]> (table w)
                | inl _ => table w' = table w
                end) w.
Proof.
  unfold process_record. wp_run.
  all: try (left; split; [reflexivity|]; intros res Hres;
            first [discriminate Hres | apply inr_eq in Hres; auto]).
  unfold enrich_and_store. apply wp_bind.
  eapply wp_mono; [|apply generateRecommendations_effect].
  intros r w1 Hgen.
  destruct (ToString _) as [e|text].
  { destruct Hgen as [-> ->]. left. split; [reflexivity|].
    intros res Hres. discriminate Hres. }
  destruct Hgen as (recs & -> & Hwf & Hb & Ht & Hd & Hs).
  unfold timestamp_or_now.
  assert (Hfresh : forall userId feedback timestamp message g u',
            fresh_item (new_item E userId feedback timestamp message recs g u')).
  { intros. split; [reflexivity|]. exists recs. split; [reflexivity | exact Hwf]. }
  assert (Hlen : length (bedrock_log w1) = S (length (bedrock_log w))).
  { rewrite Hb, length_app. cbn. lia. }
  wp_run; world_simpl.
  all: right; eexists; split; [rewrite Hd; reflexivity|];
    split; [apply Hfresh|]; split; [exact Hs|]; split; [exact Hlen|].
  all: try exact Ht.
  all: match goal with
       | H : run_command _ _ = inr _ |- _ =>
           cbn [run_command] in H;
           match type of H with
           | context [key_of ?it] =>
               destruct (key_of it) as [k|] eqn:Hk; [|discriminate H]
           end;
           apply inr_eq in H; injection H as <- <-
       end.
  all: split; [eexists; reflexivity|]; exists k;
    split; [first [exact Hk | reflexivity]|]; rewrite Ht; reflexivity.
Qed.

(** What the loop has done when it ends, normally or not. *)
Lemma process_records_effect (records : list SQSRecord) (results : Results)
    (w : World) :
  exists puts,
    dynamo_log (snd (process_records E records results w))
    = dynamo_log w ++ map PutCommand puts
    /\ Forall fresh_item puts
    /\ sns_log (snd (process_records E records results w)) = sns_log w
    /\ (forall k item,
          table (snd (process_records E records results w)) !! k = Some item ->
          table w !! k = Some item \/ (item ∈ puts /\ key_of item = Some k))
    /\ (forall k, is_Some (table w !! k) ->
          is_Some (table (snd (process_records E records results w)) !! k))
    /\ length puts <= length records
    /\ forall results',
         fst (process_records E records results w) = Completed results' ->
         length (successful results')
         = length (successful results) + length puts
         /\ length (successful results') + length (failed results')
            = length (successful results) + length (failed results)
              + length records
         /\ length (bedrock_log (snd (process_records E records results w)))
            = length (bedrock_log w) + length puts
         /\ Forall (fun item =>
                      exists k, key_of item = Some k
                                /\ is_Some (table (snd (process_records E records
                                                          results w)) !! k))
              puts.
Proof.
  revert results w. induction records as [|record rest IH]; intros results w.
  { exists []. cbn [process_records fst snd map length].
    rewrite app_nil_r.
    split; [reflexivity|]. split; [constructor|]. split; [reflexivity|].
    split; [auto|]. split; [auto|]. split; [lia|].
    intros results' [= <-]. repeat split; try lia. constructor. }
  pose proof (process_record_effect record results w) as Hstep.
  unfold wp in Hstep. cbn [process_records].
  destruct (process_record E record results w) as [[e|res] w1].
  - (* the error leaves the loop *)
    cbn [fst snd] in *.
    destruct Hstep as [[-> _] | (item & Hd & Hfresh & Hs & _ & Ht)].
    + exists []. cbn [map length]. rewrite app_nil_r.
      split; [reflexivity|]. split; [constructor|]. split; [reflexivity|].
      split; [auto|]. split; [auto|]. split; [lia|].
      intros results' Habs. discriminate Habs.
    + exists [item]. cbn [map length].
      split; [exact Hd|].
      split; [apply Forall_cons; split; [exact Hfresh | apply Forall_nil_2]|].
      split; [exact Hs|]. rewrite Ht.
      split; [auto|]. split; [auto|]. split; [lia|].
      intros results' Habs. discriminate Habs.
  - cbn [fst snd] in Hstep.
    destruct (IH res w1) as (puts & Hd' & Hfresh' & Hs' & Hchg & Hkeep & Hlen & Hdone).
    destruct Hstep as [[-> Hres] | (item & Hd & Hfresh & Hs & Hb & Hok)].
    + (* skipped *)
      specialize (Hres res eq_refl). subst res.
      exists puts. split; [exact Hd'|]. split; [exact Hfresh'|].
      split; [exact Hs'|]. split; [exact Hchg|]. split; [exact Hkeep|].
      split; [cbn [length]; lia|].
      intros results' Hend. destruct (Hdone results' Hend) as (H1 & H2 & H3 & H4).
      cbn [push_failed successful failed] in H1, H2.
      rewrite length_app in H2. cbn [length] in H2 |- *.
      repeat split; [lia | lia | exact H3 | exact H4].
    + (* stored *)
      destruct Hok as [[userId ->] (k & Hk & Ht)].
      exists (item :: puts). cbn [map length].
      split; [rewrite Hd', Hd, <- app_assoc; reflexivity|].
      split; [constructor; assumption|].
      split; [congruence|].
      split; [|split; [|split; [lia|]]].
      * intros k' item' Hlook. destruct (Hchg k' item' Hlook) as [Hold | [Hin Hkey]].
        -- rewrite Ht in Hold. destruct (decide (k' = k)) as [-> | Hne].
           ++ rewrite lookup_insert_eq in Hold. injection Hold as <-.
              right. split; [left | exact Hk].
           ++ rewrite lookup_insert_ne in Hold by congruence. left. exact Hold.
        -- right. split; [right; exact Hin | exact Hkey].
      * intros k' Hsome. apply Hkeep. rewrite Ht.
        destruct (decide (k' = k)) as [-> | Hne].
        -- rewrite lookup_insert_eq. eauto.
        -- rewrite lookup_insert_ne by congruence. exact Hsome.
      * intros results' Hend. destruct (Hdone results' Hend) as (H1 & H2 & H3 & H4).
        cbn [push_successful successful failed] in H1, H2.
        rewrite length_app in H1, H2. cbn [length] in H1, H2.
        split; [lia|]. split; [lia|]. split; [lia|].
        constructor; [|exact H4].
        exists k. split; [exact Hk|]. apply Hkeep. rewrite Ht, lookup_insert_eq.
        eauto.
Qed.

Lemma handler_completed (Records : list SQSRecord) (w : World) (resp : Response) :
  fst (handler E Records w) = inr resp ->
  exists results,
    fst (process_records E Records no_results w) = Completed results
    /\ resp = {| statusCode := 200; response_body := results_value results |}.
Proof.
  unfold handler.
  destruct (process_records E Records no_results w) as [[results|e results] w'];
    cbn [fst]; intros H; [|discriminate H].
  apply inr_eq in H. eauto.
Qed.

Lemma handler_world (Records : list SQSRecord) (w : World) :
  snd (handler E Records w) = snd (process_records E Records no_results w).
Proof.
  unfold handler.
  destruct (process_records E Records no_results w) as [[results|e results] w'];
    reflexivity.
Qed.

(** X12. The worker accounts for every record of a batch it completes:
    each one is counted once, as successful or as failed; there is exactly
    one model call and one Put per successful record and none for the
    others, and what each Put wrote is in the table under its key when the
    handler returns.  Whether the batch completes or not, the worker sends
    the store nothing but Puts, at most one per record, and never
    publishes. *)
Theorem worker_accounts_for_every_record (Records : list SQSRecord) (w : World) :
  let out := handler E Records w in
  exists puts,
    dynamo_log (snd out) = dynamo_log w ++ map PutCommand puts
    /\ length puts <= length Records
    /\ sns_log (snd out) = sns_log w
    /\ forall resp, fst out = inr resp ->
         exists results,
           resp = {| statusCode := 200; response_body := results_value results |}
           /\ length (successful results) + length (failed results)
              = length Records
           /\ length (successful results) = length puts
           /\ length (bedrock_log (snd out))
              = length (bedrock_log w) + length puts
           /\ Forall (fun item =>
                        exists k, key_of item = Some k
                                  /\ is_Some (table (snd out) !! k)) puts.
Proof.
  intros out. subst out. rewrite handler_world.
  destruct (process_records_effect Records no_results w)
    as (puts & Hd & _ & Hs & _ & _ & Hlen & Hdone).
  exists puts. split; [exact Hd|]. split; [exact Hlen|]. split; [exact Hs|].
  intros resp Hresp. apply handler_completed in Hresp as (results & Hend & ->).
  exists results. split; [reflexivity|].
  destruct (Hdone results Hend) as (H1 & H2 & H3 & H4).
  cbn [no_results successful failed length] in H1, H2.
  repeat split; [lia | lia | exact H3 | exact H4].
Qed.

(** X13. The worker only adds: whatever the batch and however the
    services behave, no record is removed, and a record that is new or has
    changed is one the worker wrote in this invocation, stored under its
    own key, not completed, with well-formed recommendations. *)
Theorem worker_only_adds_fresh_items (Records : list SQSRecord) (w : World) :
  let out := handler E Records w in
  (forall k, is_Some (table w !! k) -> is_Some (table (snd out) !! k))
  /\ forall k item, table (snd out) !! k = Some item ->
       table w !! k = Some item
       \/ (fresh_item item /\ key_of item = Some k
           /\ PutCommand item ∈ dynamo_log (snd out)).
Proof.
  intros out. subst out. rewrite handler_world.
  destruct (process_records_effect Records no_results w)
    as (puts & Hd & Hfresh & _ & Hchg & Hkeep & _).
  split; [exact Hkeep|].
  intros k item Hlook. destruct (Hchg k item Hlook) as [Hold | [Hin Hkey]].
  - left. exact Hold.
  - right. split; [|split; [exact Hkey|]].
    + rewrite Forall_forall in Hfresh. apply Hfresh, Hin.
    + rewrite Hd. apply elem_of_app. right.
      apply list_elem_of_fmap. exists item. auto.
Qed.

Lemma process_records_aborted (records : list SQSRecord) (results : Results)
    (w : World) (e : Exn) (results' : Results) :
  fst (process_records E records results w) = Aborted e results' ->
  exists done record rest results1 w1,
    records = done ++ record :: rest
    /\ process_records E done results w = (Completed results1, w1)
    /\ process_record E record results1 w1
       = (inl e, snd (process_records E records results w))
    /\ results' = push_failed results1
                    (failed_entry (messageId record) (message e)).
Proof.
  revert results w. induction records as [|record rest IH]; intros results w.
  { cbn [process_records fst]. intros Habs. discriminate Habs. }
  cbn [process_records].
  destruct (process_record E record results w) as [[e1|res] w1] eqn:Hstep.
  - cbn [fst snd]. intros [= <- <-].
    exists [], record, rest, results, w. repeat split. exact Hstep.
  - intros Hend.
    destruct (IH res w1 Hend) as (done & r & rest' & results1 & w2 & -> & Hdone & Hr & ->).
    exists (record :: done), r, rest', results1, w2.
    split; [reflexivity|]. split; [|split; [exact Hr | reflexivity]].
    cbn [process_records]. rewrite Hstep. exact Hdone.
Qed.

(** X14. When the worker rejects, the error is that of the first record
    whose processing throws: the records before it have been processed
    exactly as if the batch had ended there (their items are stored), the
    world is as that record left it, and no record after it has been
    looked at. *)
Theorem worker_rejection_is_first_failure (Records : list SQSRecord)
    (w : World) (e : Exn) :
  fst (handler E Records w) = inl e ->
  exists done record rest results w1,
    Records = done ++ record :: rest
    /\ handler E done w
       = (inr {| statusCode := 200; response_body := results_value results |}, w1)
    /\ process_record E record results w1 = (inl e, snd (handler E Records w)).
Proof.
  intros Hrej. rewrite handler_world. unfold handler in Hrej.
  destruct (process_records E Records no_results w) as [[results|e' results'] w']
    eqn:Hrun; cbn [fst] in Hrej; [discriminate Hrej|].
  injection Hrej as ->.
  destruct (process_records_aborted Records no_results w e results')
    as (done & record & rest & results1 & w1 & Hsplit & Hdone & Hr & _).
  { rewrite Hrun. reflexivity. }
  exists done, record, rest, results1, w1.
  split; [exact Hsplit|]. split; [|rewrite Hrun in Hr; exact Hr].
  unfold handler. rewrite Hdone. reflexivity.
Qed.

(** A message that arrives whole, with a user, a feedback that converts to
    a string and a numeric timestamp, is stored under (user, timestamp),
    whatever the model does and whatever was stored there. *)
Lemma process_record_stores (record : SQSRecord) (results : Results)
    (message feedback : Value) (u text : string) (t : Z) (w : World) :
  delivers record message ->
  get_opt (Some message) "userId" = Some (VStr u) -> u <> ""%string ->
  get_opt (Some message) "feedback" = Some feedback -> truthy feedback = true ->
  ToString feedback = inr text ->
  get_opt (Some message) "timestamp" = Some (VNum t) -> t <> 0%Z ->
  store_accepts_next E w ->
  exists recs g1 g2 w',
    process_record E record results w
    = (inr (push_successful results
              (successful_entry (messageId record) (VStr u))), w')
    /\ table w'
       = <[(u, t) := new_item E (VStr u) feedback (VNum t) message recs g1 g2]>
           (table w)
    /\ Forall well_formed_recommendation recs
    /\ dynamo_log w'
       = dynamo_log w
         ++ [PutCommand (new_item E (VStr u) feedback (VNum t) message recs g1 g2)]
    /\ sns_log w' = sns_log w.
Proof.
  intros Hdel Hu Hne Hf Htruthy Htext Hts Hnz Hstore.
  rewrite (process_record_parsed E _ _ _ _ Hdel), Hu, Hf.
  cbn [truthy_opt truthy default from_option id]. apply String.eqb_neq in Hne.
  rewrite Hne, Htruthy. cbn [negb orb].
  pose proof (generateRecommendations_effect feedback w) as Hgen.
  unfold wp in Hgen. rewrite Htext in Hgen.
  destruct Hgen as (recs & Hr & Hwf & Hb & Ht & Hd & Hs).
  unfold enrich_and_store. unfold bind at 1.
  destruct (generateRecommendations E feedback w) as [r w1].
  cbn [fst snd] in Hr, Hb, Ht, Hd, Hs. subst r.
  rewrite Hts. unfold timestamp_or_now. cbn [truthy_opt truthy].
  apply Z.eqb_neq in Hnz. rewrite Hnz. cbn [negb default from_option id].
  unfold bind, ret, Date_now, dynamo_send. world_simpl.
  rewrite Hd, Hstore. cbn [run_command key_of new_item assoc String.eqb
    Ascii.eqb Bool.eqb andb set_table].
  cbn -[new_item].
  eexists recs, _, _, _. split; [reflexivity|]. world_simpl.
  rewrite Ht, Hs. repeat split. exact Hwf.
Qed.

(** X15. The worker stores a message under (userId, the message's own
    timestamp).  A message delivered again therefore does not add a
    record: it replaces the one at that key with a freshly generated item,
    not completed, so that whatever an update had changed there in the
    meantime is gone; all other records are as they were. *)
Theorem redelivery_replaces_the_record (record : SQSRecord)
    (message feedback : Value) (u text : string) (t : Z) (w : World) :
  delivers record message ->
  get_opt (Some message) "userId" = Some (VStr u) -> u <> ""%string ->
  get_opt (Some message) "feedback" = Some feedback -> truthy feedback = true ->
  ToString feedback = inr text ->
  get_opt (Some message) "timestamp" = Some (VNum t) -> t <> 0%Z ->
  store_accepts_next E w ->
  exists item w',
    handler E [record] w
    = (inr {| statusCode := 200;
              response_body :=
                results_value
                  {| successful := [successful_entry (messageId record) (VStr u)];
                     failed := [] |} |}, w')
    /\ table w' !! (u, t) = Some item
    /\ fresh_item item
    /\ assoc "originalFeedback" item = Some feedback
    /\ (forall k, k <> (u, t) -> table w' !! k = table w !! k)
    /\ (is_Some (table w !! (u, t)) -> dom (table w') = dom (table w)).
Proof.
  intros Hdel Hu Hne Hf Htruthy Htext Hts Hnz Hstore.
  destruct (process_record_stores record no_results message feedback u text t w)
    as (recs & g1 & g2 & w' & Hrun & Ht & Hwf & _); try assumption.
  exists (new_item E (VStr u) feedback (VNum t) message recs g1 g2), w'.
  split; [|split; [|split; [|split; [|split]]]].
  - unfold handler. cbn [process_records]. rewrite Hrun. reflexivity.
  - rewrite Ht. apply lookup_insert_eq.
  - split; [reflexivity|]. exists recs. split; [reflexivity | exact Hwf].
  - reflexivity.
  - intros k Hk. rewrite Ht. apply lookup_insert_ne. congruence.
  - intros [old Hold]. rewrite Ht. eapply dom_insert_lookup_L. eauto.
Qed.

End WorkerEffects.

(* ===================================================================== *)
(** ** An invariant of the table *)
(* ===================================================================== *)

Section Invariants.
Import JS Cloud.
Context {RT : Runtime} (E : Env).

Lemma table_wf_step (t t' : Table) :
  table_wf t ->
  (forall k item, t' !! k = Some item ->
     t !! k = Some item \/ key_of item = Some k) ->
  table_wf t'.
Proof.
  intros Hwf Hstep k item Hlook.
  destruct (Hstep k item Hlook) as [Hold | Hkey]; [|exact Hkey].
  exact (Hwf k item Hold).
Qed.

Lemma update_keeps_wf (event : ApiEvent) (w : World) :
  table_wf (table w) ->
  table_wf (table (snd (UpdateRecommendation.handler E event w))).
Proof.
  intros Hwf.
  as_wp (UpdateRecommendation.handler E event) w.
  unfold UpdateRecommendation.handler, UpdateRecommendation.update.
  wp_run; run_inv; world_simpl; try exact Hwf.
  cbn [item_of] in *.
  match goal with H : table w !! ?k = Some ?l |- _ =>
    rewrite H; cbn [default from_option id];
    apply map_Forall_insert_2; [|exact Hwf];
    rewrite update_keeps_key; exact (Hwf k l H)
  end.
Qed.

Lemma delete_keeps_wf (event : ApiEvent) (w : World) :
  table_wf (table w) ->
  table_wf (table (snd (DeleteRecommendations.handler E event w))).
Proof.
  intros Hwf.
  destruct (delete_handler_effect E event w) as (removed & _ & Ht & _).
  rewrite Ht. apply (table_wf_step (table w)); [exact Hwf|].
  intros k item Hlook. left. rewrite lookup_delete_all in Hlook.
  destruct (bool_decide (k ∈ removed)); [discriminate Hlook | exact Hlook].
Qed.

Lemma worker_keeps_wf (Records : list ProcessFeedback.SQSRecord) (w : World) :
  table_wf (table w) ->
  table_wf (table (snd (ProcessFeedback.handler E Records w))).
Proof.
  intros Hwf. rewrite handler_world.
  destruct (process_records_effect E Records ProcessFeedback.no_results w)
    as (puts & _ & _ & _ & Hchg & _).
  apply (table_wf_step (table w)); [exact Hwf|].
  intros k item Hlook. destruct (Hchg k item Hlook) as [Hold | [_ Hkey]]; auto.
Qed.

(** X17. An invariant of the table that all six handlers maintain,
    whatever the requests and however the services behave: every stored
    item carries, in its userId and timestamp attributes, the key it is
    stored under.  (The list and search endpoints return stored items, so
    the timestamp a client reads in a record is the one that addresses it
    in an update.) *)
Theorem stored_items_carry_their_key (event : ApiEvent)
    (Records : list ProcessFeedback.SQSRecord) (w : World) :
  table_wf (table w) ->
  table_wf (table (snd (PostFeedback.handler E event w)))
  /\ table_wf (table (snd (ProcessFeedback.handler E Records w)))
  /\ table_wf (table (snd (GetRecommendations.handler E event w)))
  /\ table_wf (table (snd (SearchRecommendations.handler E event w)))
  /\ table_wf (table (snd (UpdateRecommendation.handler E event w)))
  /\ table_wf (table (snd (DeleteRecommendations.handler E event w))).
Proof.
  intros Hwf.
  split; [|split; [apply worker_keeps_wf; exact Hwf|split; [|split;
    [|split; [apply update_keeps_wf; exact Hwf
             |apply delete_keeps_wf; exact Hwf]]]]].
  - as_wp (PostFeedback.handler E event) w.
    unfold PostFeedback.handler, PostFeedback.submit.
    wp_run; world_simpl; exact Hwf.
  - as_wp (GetRecommendations.handler E event) w.
    unfold GetRecommendations.handler.
    wp_run; run_inv; world_simpl; exact Hwf.
  - as_wp (SearchRecommendations.handler E event) w.
    unfold SearchRecommendations.handler.
    wp_run; run_inv; world_simpl; exact Hwf.
Qed.

End Invariants.

(* ===================================================================== *)
(** ** From the intake to the table *)
(* ===================================================================== *)

Section EndToEnd.
Import JS Cloud.
Context {RT : Runtime} (E : Env).




End EndToEnd.

(* ===================================================================== *)
(** ** Searching and updating, together *)
(* ===================================================================== *)

Section SearchAndUpdate.
Import JS Cloud.
Context {RT : Runtime} (E : Env).

Lemma filter_res_total (f : Item -> Res bool) (items : list Item) :
  Forall (fun item => exists b, f item = inr b) items ->
  exists kept, SearchRecommendations.filter_res f items = inr kept.
Proof.
  induction 1 as [|item items [b Hb] _ [kept IH]];
    cbn [SearchRecommendations.filter_res].
  - eauto.
  - rewrite Hb, IH. eauto.
Qed.

Lemma text_match_total (needle : string) (item : Item) :
  feedback_is_text item ->
  exists b, SearchRecommendations.text_match needle item = inr b.
Proof.
  intros [s Hs]. unfold SearchRecommendations.text_match. rewrite Hs. eauto.
Qed.

(** X24. A search cannot fail on records whose original feedback is a
    string (as every record made from an accepted submission has): with a
    caller identity and a store that accepts the query (it answers, and
    does not refuse the query for what it carries), if the caller's
    records all have a textual original feedback, the answer is 200,
    whatever the parameters, and every record returned is one of the
    caller's. *)
Theorem search_succeeds_on_text_feedback (event : ApiEvent) (u : string)
    (w : World) :
  sub event = Some u -> u <> ""%string -> store_accepts_next E w ->
  query_refused
    (SearchRecommendations.query_input u
       (default ∅ (queryStringParameters event))) = None ->
  (forall ts item, table w !! (u, ts) = Some item -> feedback_is_text item) ->
  exists items w',
    SearchRecommendations.handler E event w
    = (inr (SearchRecommendations.found items
              (default ∅ (queryStringParameters event))), w')
    /\ forall item, item ∈ items -> exists ts, table w !! (u, ts) = Some item.
Proof.
  intros Hsub Hne Hstore Htakes Htext.
  set (q := default ∅ (queryStringParameters event)).
  set (stored := run_query (SearchRecommendations.query_input u q) (table w)).
  assert (Hown : forall item, item ∈ stored ->
            exists ts, table w !! (u, ts) = Some item).
  { intros item Hin. apply elem_of_run_query in Hin as [Hts _]; [|reflexivity].
    exact Hts. }
  assert (Hsearch : exists items,
            SearchRecommendations.text_search (q !! "search") stored = inr items).
  { unfold SearchRecommendations.text_search.
    destruct (SearchRecommendations.given (q !! "search")) as [s|]; [|eauto].
    destruct (String.eqb (trim s) ""); [eauto|].
    apply filter_res_total, Forall_forall. intros item Hin.
    destruct (Hown item Hin) as [ts Hl].
    apply text_match_total. eapply Htext. exact Hl. }
  destruct Hsearch as [items Hitems]. exists items.
  unfold SearchRecommendations.handler, try_catch, no_user.
  rewrite Hsub. apply String.eqb_neq in Hne. rewrite Hne.
  unfold bind, dynamo_send. cbn [default from_option id]. fold q.
  rewrite Hstore. cbn [run_command]. fold q in Htakes. rewrite Htakes.
  cbn [set_table items_of]. fold stored.
  unfold lift, ret. rewrite Hitems.
  eexists. split; [reflexivity|].
  intros item Hin. apply Hown.
  eapply text_search_subset; [exact Hitems | exact Hin].
Qed.

(** An update that finds its record and is given something to change. *)
Lemma update_accepted (event : ApiEvent) (u : string) (ts : Z)
    (requestBody : Value) (item : Item) (w : World) :
  sub event = Some u -> u <> ""%string ->
  parseInt_opt (path_timestamp event) = Some ts -> ts <> 0%Z ->
  JSON_parse (body_or_empty (body event)) = inr requestBody ->
  requestBody <> VNull ->
  table w !! (u, ts) = Some item ->
  supplies_nothing requestBody = false ->
  store_reliable E ->
  exists item' w',
    UpdateRecommendation.handler E event w
    = (inr (UpdateRecommendation.updated (Some item')), w')
    /\ table w' = <[(u, ts) := item']> (table w)
    /\ (forall k, k ∈ whitelist ->
          assoc k item' = match supplied requestBody k with
                          | Some v => Some v
                          | None => assoc k item
                          end)
    /\ (forall k, k ∉ whitelist -> k <> "updatedAt"%string ->
          assoc k item' = assoc k item).
Proof.
  intros Hsub Hne Hts Hnz Hparse Hnull Hitem Hsome Hstore.
  rewrite (handler_valid_request E _ _ _ _ _ Hsub Hne Hts Hnz Hparse).
  unfold try_catch, UpdateRecommendation.update. unfold bind at 1.
  unfold dynamo_send at 1. rewrite Hstore. cbn [run_command set_table item_of].
  rewrite Hitem.
  unfold bind, lift. rewrite !get_not_null by assumption.
  unfold Date_now, ret. cbn [clock_reads table dynamo_log].
  rewrite supplies_nothing_sets in Hsome. rewrite length_app. cbn [length].
  set (sets := UpdateRecommendation.requested_sets _ _ _ _) in *.
  destruct (length sets) as [|n] eqn:Hlen; [discriminate Hsome|].
  replace (S n + 1 =? 1)%nat with false by (symmetry; apply Nat.eqb_neq; lia).
  unfold dynamo_send. rewrite Hstore.
  cbn [run_command set_table item_of table]. rewrite Hitem.
  cbn [default from_option id].
  eexists _, _. split; [reflexivity|]. split; [reflexivity|].
  subst sets.
  pose proof (apply_requested_sets requestBody item
                (VStr (toISOString (clock E (clock_reads w))))) as (H1 & _ & H3).
  split; assumption.
Qed.

(** X25. The update handler stores whatever value the body gives for
    [completed]; the search compares the attribute with a boolean.  So
    once an update has set [completed] to something that is not a boolean
    (the string "true", a number), no search that filters on completed,
    with any value of the parameter, selects that record. *)
Theorem non_boolean_completed_hides_the_record (event : ApiEvent) (u : string)
    (ts : Z) (requestBody v : Value) (item : Item) (w : World) :
  sub event = Some u -> u <> ""%string ->
  parseInt_opt (path_timestamp event) = Some ts -> ts <> 0%Z ->
  JSON_parse (body_or_empty (body event)) = inr requestBody ->
  get_opt (Some requestBody) "completed" = Some v ->
  (forall b, v <> VBool b) ->
  table w !! (u, ts) = Some item ->
  store_reliable E ->
  exists item' w',
    UpdateRecommendation.handler E event w
    = (inr (UpdateRecommendation.updated (Some item')), w')
    /\ table w' !! (u, ts) = Some item'
    /\ assoc "completed" item' = Some v
    /\ forall (q : gmap string string) (c : string),
         q !! "completed" = Some c ->
         eval_filter (SearchRecommendations.filterExpressions q) item' = false.
Proof.
  intros Hsub Hne Hts Hnz Hparse Hv Hnb Hitem Hstore.
  assert (Hnull : requestBody <> VNull) by (intros ->; discriminate Hv).
  assert (Hsome : supplies_nothing requestBody = false).
  { rewrite supplies_nothing_sets, Hv.
    unfold UpdateRecommendation.requested_sets. reflexivity. }
  destruct (update_accepted event u ts requestBody item w)
    as (item' & w' & Hrun & Ht & Hwl & _); try assumption.
  assert (Hc : assoc "completed" item' = Some v).
  { rewrite (Hwl "completed") by (unfold whitelist; repeat constructor).
    change (supplied requestBody "completed")
      with (get_opt (Some requestBody) "completed").
    rewrite Hv. reflexivity. }
  exists item', w'. split; [exact Hrun|].
  split; [rewrite Ht; apply lookup_insert_eq|]. split; [exact Hc|].
  intros q c Hq. unfold SearchRecommendations.filterExpressions, eval_filter.
  rewrite !forallb_app, Hq.
  cbn [SearchRecommendations.completed_filter forallb eval_cond]. rewrite Hc.
  assert (Hneq : Value_eqb v (VBool (String.eqb c "true")) = false).
  { destruct v; try reflexivity. exfalso. eapply Hnb. reflexivity. }
  rewrite Hneq. cbn [andb]. rewrite !andb_false_r. reflexivity.
Qed.

(** X26. Read your writes: after an update answered 200, the list
    endpoint shows the caller, newest first, the record at the updated
    key exactly as the update's response gave it, and every other record
    of the caller as it was before the update. *)
Theorem updated_record_is_listed (event : ApiEvent) (u : string) (ts : Z)
    (requestBody : Value) (item : Item) (w : World) :
  sub event = Some u -> u <> ""%string ->
  parseInt_opt (path_timestamp event) = Some ts -> ts <> 0%Z ->
  JSON_parse (body_or_empty (body event)) = inr requestBody ->
  requestBody <> VNull ->
  table w !! (u, ts) = Some item ->
  supplies_nothing requestBody = false ->
  store_reliable E ->
  exists item' w1 rows w2,
    UpdateRecommendation.handler E event w
    = (inr (UpdateRecommendation.updated (Some item')), w1)
    /\ GetRecommendations.handler E event w1
       = (inr (GetRecommendations.listed (map snd rows)), w2)
    /\ newest_first rows
    /\ forall k it,
         (k, it) ∈ rows
         <-> (k = (u, ts) /\ it = item')
             \/ (k <> (u, ts) /\ table w !! k = Some it /\ fst k = u).
Proof.
  intros Hsub Hne Hts Hnz Hparse Hnull Hitem Hsome Hstore.
  destruct (update_accepted event u ts requestBody item w)
    as (item' & w1 & Hrun & Ht & _); try assumption.
  exists item', w1, (reverse (partition u (table w1))).
  destruct (reverse_partition u (table w1)) as [[_ Hrows] Hsorted].
  eexists. split; [exact Hrun|]. split; [|split; [exact Hsorted|]].
  - unfold GetRecommendations.handler, try_catch, bind, dynamo_send, no_user.
    rewrite Hsub. pose proof Hne as Hne'. apply String.eqb_neq in Hne'.
    rewrite Hne', Hstore.
    cbn [run_command default from_option id items_of ret set_table].
    rewrite run_query_all. reflexivity.
  - intros k it. rewrite Hrows, Ht.
    destruct (decide (k = (u, ts))) as [-> | Hk].
    + rewrite lookup_insert_eq. cbn [fst]. split.
      * intros [[= <-] _]. left. auto.
      * intros [[_ ->] | [Habs _]]; [auto | congruence].
    + rewrite lookup_insert_ne by congruence. split.
      * intros [Hl Hu]. right. auto.
      * intros [[Habs _] | (_ & Hl & Hu)]; [congruence | auto].
Qed.

End SearchAndUpdate.

(* ===================================================================== *)
(** ** The handlers and the permissions the stack grants them *)
(* ===================================================================== *)

Section Grants.
Import JS Cloud.
Context {RT : Runtime} (E : Env).

(** A leaf of a handler's control flow: the logs of the final world
    against those of the initial one. *)
Ltac granted :=
  split;
  [ eexists; split;
    [ first [ reflexivity
            | rewrite <- app_assoc; reflexivity
            | symmetry; apply app_nil_r ]
    | repeat constructor ]
  | split; intros Hno;
    first [ reflexivity | exfalso; apply Hno; repeat constructor ] ].

Lemma delete_loop_log (fuel : nat) (items : list Item) (i n : nat) (w : World) :
  wp (DeleteRecommendations.delete_loop E fuel items i n)
     (fun _ w' =>
        (exists cmds, dynamo_log w' = dynamo_log w ++ cmds
                      /\ Forall (fun c => permits [Stack.TableReadWrite] c = true) cmds)
        /\ sns_log w' = sns_log w /\ bedrock_log w' = bedrock_log w) w.
Proof.
  revert i n w. induction fuel as [|fuel IH]; intros i n w;
    cbn [DeleteRecommendations.delete_loop].
  - destruct (i <? length items)%nat; apply wp_ret;
      (split; [exists []; split; [symmetry; apply app_nil_r | constructor] | auto]).
  - destruct (i <? length items)%nat.
    2: { apply wp_ret.
         split; [exists []; split; [symmetry; apply app_nil_r | constructor] | auto]. }
    apply wp_bind, wp_dynamo_send.
    + intros e. split; [|auto]. eexists. split; [reflexivity|].
      repeat constructor.
    + intros t r _. eapply wp_mono; [|apply IH].
      intros r' w1 [(cmds & Hd & Hall) [Hs Hb]]. world_simpl.
      split; [|auto]. eexists. split; [rewrite Hd, <- app_assoc; reflexivity|].
      constructor; [reflexivity | exact Hall].
Qed.

(** X19. Every handler stays within the permissions that
    [_grantPermissions] gives its function, whatever the request and
    however the services behave: the list and search handlers, granted
    read access, send the store only Get and Query commands; the intake,
    granted only Publish on the topic, never touches the store; only the
    worker, the one function allowed to, calls the model; no handler but
    the intake publishes. *)
Theorem handlers_stay_within_their_grants (event : ApiEvent)
    (Records : list ProcessFeedback.SQSRecord) (w : World) :
  within_grants (Stack._grantPermissions Stack.GetRecommendations) w
    (snd (GetRecommendations.handler E event w))
  /\ within_grants (Stack._grantPermissions Stack.SearchRecommendations) w
       (snd (SearchRecommendations.handler E event w))
  /\ within_grants (Stack._grantPermissions Stack.PostFeedback) w
       (snd (PostFeedback.handler E event w))
  /\ within_grants (Stack._grantPermissions Stack.UpdateRecommendation) w
       (snd (UpdateRecommendation.handler E event w))
  /\ within_grants (Stack._grantPermissions Stack.DeleteRecommendations) w
       (snd (DeleteRecommendations.handler E event w))
  /\ within_grants (Stack._grantPermissions Stack.ProcessFeedback) w
       (snd (ProcessFeedback.handler E Records w)).
Proof.
  unfold within_grants, Stack._grantPermissions.
  split; [|split; [|split; [|split; [|split]]]].
  - as_wp (GetRecommendations.handler E event) w.
    unfold GetRecommendations.handler. wp_run; world_simpl; granted.
  - as_wp (SearchRecommendations.handler E event) w.
    unfold SearchRecommendations.handler. wp_run; world_simpl; granted.
  - as_wp (PostFeedback.handler E event) w.
    unfold PostFeedback.handler, PostFeedback.submit.
    wp_run; world_simpl; granted.
  - as_wp (UpdateRecommendation.handler E event) w.
    unfold UpdateRecommendation.handler, UpdateRecommendation.update.
    wp_run; world_simpl; granted.
  - as_wp (DeleteRecommendations.handler E event) w.
    unfold DeleteRecommendations.handler.
    apply wp_try_catch.
    destruct (no_user (sub event)); [apply wp_ret; granted|].
    apply wp_bind, wp_dynamo_send; [intros e; apply wp_ret; world_simpl; granted|].
    intros t r _.
    destruct (items_of r); [apply wp_ret; world_simpl; granted|].
    apply wp_bind. eapply wp_mono; [|apply delete_loop_log].
    intros r' w1 [(cmds & Hd & Hall) [Hs Hb]]. world_simpl.
    assert (Hdone : (exists cmds0,
                       dynamo_log w1 = dynamo_log w ++ cmds0
                       /\ Forall (fun c => permits [Stack.TableReadWrite] c = true)
                            cmds0)
                    /\ (Stack.TopicPublish ∉ [Stack.TableReadWrite] ->
                        sns_log w1 = sns_log w)
                    /\ (Stack.ModelInvoke ∉ [Stack.TableReadWrite] ->
                        bedrock_log w1 = bedrock_log w)).
    { split; [|auto]. eexists. split; [rewrite Hd, <- app_assoc; reflexivity|].
      constructor; [reflexivity | exact Hall]. }
    destruct r' as [e|m]; apply wp_ret; exact Hdone.
  - rewrite handler_world.
    destruct (process_records_effect E Records ProcessFeedback.no_results w)
      as (puts & Hd & _ & Hs & _).
    split; [|split; [auto|]].
    + exists (map PutCommand puts). split; [exact Hd|].
      apply Forall_forall. intros c Hc.
      apply list_elem_of_fmap in Hc as (item & -> & _). reflexivity.
    + intros Hno. exfalso. apply Hno. repeat constructor.
Qed.

End Grants.

(* ===================================================================== *)
(** ** The stack *)
(* ===================================================================== *)

Section StackProperties.
Import JS Stack.

Lemma lit_spec (p s r : string) : lit p s = Some r -> s = (p ++ r)%string.
Proof.
  revert s. induction p as [|a p IH]; intros [|b s]; cbn [lit String.append];
    try discriminate.
  - intros [= <-]. reflexivity.
  - intros [= <-]. reflexivity.
  - destruct (Ascii.eqb a b) eqn:Hab; [|discriminate].
    apply Ascii.eqb_eq in Hab. subst b. intros H.
    rewrite (IH s H) at 1. reflexivity.
Qed.

Lemma many_spec (cls : ascii -> bool) (s m r : string) :
  many cls s = (m, r) -> s = (m ++ r)%string.
Proof.
  revert m r. induction s as [|c s IH]; intros m r; cbn [many].
  - intros [= <- <-]. reflexivity.
  - destruct (cls c).
    + destruct (many cls s) as [m' r'] eqn:Hm. intros [= <- <-].
      rewrite (IH m' r' eq_refl) at 1. reflexivity.
    + intros [= <- <-]. reflexivity.
Qed.

Lemma many_mono (cls1 cls2 : ascii -> bool) (s m : string) :
  (forall c, cls1 c = true -> cls2 c = true) ->
  many cls1 s = (m, EmptyString) -> many cls2 s = (m, EmptyString).
Proof.
  intros Hsub. revert m. induction s as [|c s IH]; intros m; cbn [many].
  - auto.
  - destruct (cls1 c) eqn:Hc; [|discriminate].
    rewrite (Hsub c Hc).
    destruct (many cls1 s) as [m' r'] eqn:Hm. intros [= <- ->].
    rewrite (IH m' eq_refl). reflexivity.
Qed.

Lemma plus_spec (cls : ascii -> bool) (s m r : string) :
  plus cls s = Some (m, r) -> s = (m ++ r)%string /\ m <> EmptyString.
Proof.
  unfold plus. destruct (many cls s) as [m' r'] eqn:Hm.
  destruct m' as [|c m']; [discriminate|]. intros [= <- <-].
  split; [apply (many_spec cls); exact Hm | discriminate].
Qed.

Lemma plus_mono (cls1 cls2 : ascii -> bool) (s m : string) :
  (forall c, cls1 c = true -> cls2 c = true) ->
  plus cls1 s = Some (m, EmptyString) -> plus cls2 s = Some (m, EmptyString).
Proof.
  intros Hsub. unfold plus. destruct (many cls1 s) as [m' r'] eqn:Hm.
  destruct m' as [|c m']; [discriminate|]. intros [= <- ->].
  rewrite (many_mono cls1 cls2 s _ Hsub Hm). reflexivity.
Qed.

Lemma times_spec (n : nat) (cls : ascii -> bool) (s r : string) :
  times n cls s = Some r ->
  exists m, s = (m ++ r)%string /\ String.length m = n.
Proof.
  revert s. induction n as [|n IH]; intros s; cbn [times].
  - intros [= <-]. exists EmptyString. auto.
  - destruct s as [|c s]; [discriminate|]. destruct (cls c); [|discriminate].
    intros H. destruct (IH s H) as (m & -> & Hlen).
    exists (String c m). split; [reflexivity | cbn; congruence].
Qed.

Lemma append_empty (s : string) : (s ++ "")%string = s.
Proof.
  induction s as [|c s IH]; [reflexivity|].
  change (String c (s ++ "")%string = String c s). rewrite IH. reflexivity.
Qed.

Lemma pool_char_any (c : ascii) : pool_char c = true -> any_char c = true.
Proof.
  intros Hp. unfold any_char.
  destruct (Ascii.eqb c "010") eqn:H1;
    [apply Ascii.eqb_eq in H1; subst c; discriminate Hp|].
  destruct (Ascii.eqb c "013") eqn:H2;
    [apply Ascii.eqb_eq in H2; subst c; discriminate Hp|].
  reflexivity.
Qed.

(** What an input that matches is made of. *)
Lemma arn_pattern_spec (last : ascii -> bool) (arn region poolId : string) :
  arn_pattern last arn = Some (region, poolId) ->
  exists account,
    arn = ("arn:aws:cognito-idp:" ++ region ++ ":" ++ account ++ ":userpool/"
           ++ poolId)%string
    /\ String.length account = 12
    /\ region <> EmptyString /\ poolId <> EmptyString
    /\ plus last poolId = Some (poolId, EmptyString).
Proof.
  unfold arn_pattern.
  destruct (lit "arn:aws:cognito-idp:" arn) as [s1|] eqn:H1; [|discriminate].
  cbn [mbind option_bind].
  destruct (plus region_char s1) as [[region' s2]|] eqn:H2; [|discriminate].
  cbn [mbind option_bind].
  destruct (lit ":" s2) as [s3|] eqn:H3; [|discriminate].
  cbn [mbind option_bind].
  destruct (times 12 digit s3) as [s4|] eqn:H4; [|discriminate].
  cbn [mbind option_bind].
  destruct (lit ":userpool/" s4) as [s5|] eqn:H5; [|discriminate].
  cbn [mbind option_bind].
  destruct (plus last s5) as [[poolId' s6]|] eqn:H6; [|discriminate].
  cbn [mbind option_bind].
  destruct (String.eqb s6 "") eqn:H7; [|discriminate].
  intros [= <- <-]. apply String.eqb_eq in H7. subst s6.
  apply lit_spec in H1, H3, H5.
  apply plus_spec in H2 as [H2 Hr].
  destruct (times_spec _ _ _ _ H4) as (account & H4' & Hlen).
  pose proof (plus_spec _ _ _ _ H6) as [H6' Hp].
  exists account.
  rewrite append_empty in H6'. subst s5. split; [|auto].
  rewrite H1, H2, H3, H4', H5. reflexivity.
Qed.

Lemma arn_pattern_mono (arn : string) (r : string * string) :
  arn_pattern pool_char arn = Some r -> arn_pattern any_char arn = Some r.
Proof.
  unfold arn_pattern.
  destruct (lit "arn:aws:cognito-idp:" arn) as [s1|]; [|discriminate].
  cbn [mbind option_bind].
  destruct (plus region_char s1) as [[region' s2]|]; [|discriminate].
  cbn [mbind option_bind].
  destruct (lit ":" s2) as [s3|]; [|discriminate].
  cbn [mbind option_bind].
  destruct (times 12 digit s3) as [s4|]; [|discriminate].
  cbn [mbind option_bind].
  destruct (lit ":userpool/" s4) as [s5|]; [|discriminate].
  cbn [mbind option_bind].
  destruct (plus pool_char s5) as [[poolId' s6]|] eqn:H6; [|discriminate].
  cbn [mbind option_bind].
  destruct (String.eqb s6 "") eqn:H7; [|discriminate].
  apply String.eqb_eq in H7. subst s6.
  rewrite (plus_mono pool_char any_char s5 poolId' pool_char_any H6).
  cbn [mbind option_bind]. auto.
Qed.

(** X20. An ARN that [_isValidArn] accepts is one that [_parseArn]
    parses: the error of [_parseArn] cannot occur once the constructor has
    validated its properties.  Such an ARN is made of the fixed prefix, a
    region, a colon, twelve characters of account id, ":userpool/" and the
    pool id, and the parse returns that region and that pool id. *)
Theorem valid_arn_always_parses (arn : string) :
  _isValidArn arn = true ->
  exists region account poolId,
    _parseArn arn = inr (region, poolId)
    /\ arn = ("arn:aws:cognito-idp:" ++ region ++ ":" ++ account ++ ":userpool/"
              ++ poolId)%string
    /\ String.length account = 12
    /\ region <> EmptyString /\ poolId <> EmptyString.
Proof.
  unfold _isValidArn. intros Hvalid. apply bool_decide_eq_true_1 in Hvalid.
  destruct Hvalid as [[region poolId] Hmatch].
  destruct (arn_pattern_spec _ _ _ _ Hmatch) as (account & Harn & Hlen & Hr & Hp & _).
  exists region, account, poolId.
  unfold _parseArn. rewrite (arn_pattern_mono _ _ Hmatch). auto.
Qed.

Lemma or_string_nonempty (x : option string) (d : string) :
  d <> EmptyString -> or_string x d <> EmptyString.
Proof.
  intros Hd. unfold or_string. destruct x as [s|]; [|exact Hd].
  destruct (String.eqb s "") eqn:Hs; [exact Hd|]. apply String.eqb_neq. exact Hs.
Qed.

Lemma or_string_idem (x : option string) (d : string) :
  d <> EmptyString -> or_string (Some (or_string x d)) d = or_string x d.
Proof.
  intros Hd. pose proof (or_string_nonempty x d Hd) as Hne.
  apply String.eqb_neq in Hne. cbn [or_string]. rewrite Hne. reflexivity.
Qed.

(** The API construct accepts exactly the three environments, and then
    finds a configuration of its own for it. *)
Lemma ApiGatewayConstruct_spec (env : string) :
  env <> EmptyString ->
  match ApiGatewayConstruct (Some env) with
  | inr looked =>
      env ∈ environments
      /\ exists cfg, looked = Config cfg /\ assoc env apiConfig = Some cfg
  | inl _ => env ∉ environments
  end.
Proof.
  intros Hne. unfold ApiGatewayConstruct, missing, environments.
  apply String.eqb_neq in Hne. rewrite Hne.
  cbn [negb andb default from_option id existsb or_string].
  destruct (String.eqb env "dev") eqn:H1.
  { apply String.eqb_eq in H1. subst env.
    split; [repeat constructor | eexists; split; reflexivity]. }
  destruct (String.eqb env "staging") eqn:H2.
  { apply String.eqb_eq in H2. subst env.
    split; [repeat constructor | eexists; split; reflexivity]. }
  destruct (String.eqb env "prod") eqn:H3.
  { apply String.eqb_eq in H3. subst env.
    split; [repeat constructor | eexists; split; reflexivity]. }
  cbn [orb negb]. apply String.eqb_neq in H1, H2, H3.
  intros Hin. repeat (apply elem_of_cons in Hin as [Hin | Hin]; [congruence|]).
  by apply elem_of_nil in Hin.
Qed.

Lemma CognitoAuthorizerConstruct_spec (userPoolArn : option string) :
  match CognitoAuthorizerConstruct userPoolArn with
  | inr pool =>
      exists arn, userPoolArn = Some arn /\ _isValidArn arn = true
                  /\ _parseArn arn = inr pool
  | inl _ =>
      forall arn, userPoolArn = Some arn -> _isValidArn arn = false
  end.
Proof.
  unfold CognitoAuthorizerConstruct, missing.
  destruct userPoolArn as [arn|]; [|intros arn Habs; discriminate Habs].
  cbn [default from_option id].
  destruct (String.eqb arn "") eqn:Hempty.
  { apply String.eqb_eq in Hempty. subst arn. intros arn [= <-]. reflexivity. }
  destruct (_isValidArn arn) eqn:Hvalid; cbn [negb].
  - destruct (valid_arn_always_parses arn Hvalid) as (region & _ & poolId & Hparse & _).
    rewrite Hparse. exists arn. auto.
  - intros arn' [= <-]. exact Hvalid.
Qed.

(** X21. The stack can be constructed exactly from properties that carry
    a user-pool ARN of the expected form and an environment that is
    absent, empty, or one of dev, staging and prod: with those the
    constructor returns, with anything else it throws. *)
Theorem stack_is_constructed_iff (p : StackProps) (topicArn : string) :
  (exists d, ServerlessBackendStack (Some p) topicArn = inr d)
  <-> (exists arn, cognitoUserPoolArn p = Some arn /\ _isValidArn arn = true)
      /\ or_string (environment p) "dev" ∈ environments.
Proof.
  assert (Hdev : "dev"%string <> EmptyString) by discriminate.
  pose proof (ApiGatewayConstruct_spec (or_string (environment p) "dev")
                (or_string_nonempty _ _ Hdev)) as Hapi.
  pose proof (CognitoAuthorizerConstruct_spec (cognitoUserPoolArn p)) as Hauth.
  unfold ServerlessBackendStack, _validateProps.
  split.
  - intros [d Hd].
    destruct (missing (cognitoUserPoolArn p)); [discriminate Hd|].
    destruct (ApiGatewayConstruct _) as [e|looked]; [discriminate Hd|].
    destruct (CognitoAuthorizerConstruct _) as [e|pool]; [discriminate Hd|].
    destruct Hauth as (arn & Harn & Hvalid & _). destruct Hapi as [Henv _].
    eauto.
  - intros [(arn & Harn & Hvalid) Henv].
    assert (Hmissing : missing (cognitoUserPoolArn p) = false).
    { rewrite Harn. cbn [missing]. apply String.eqb_neq. intros ->.
      discriminate Hvalid. }
    rewrite Hmissing.
    destruct (ApiGatewayConstruct _) as [e|looked]; [contradiction|].
    destruct (CognitoAuthorizerConstruct _) as [e|pool].
    + rewrite (Hauth arn Harn) in Hvalid. discriminate Hvalid.
    + eexists. reflexivity.
Qed.

(** What a constructed stack holds. *)
Lemma stack_constructed (props : option StackProps) (topicArn : string)
    (d : Deployment) :
  ServerlessBackendStack props topicArn = inr d ->
  exists p env,
    props = Some p
    /\ env = or_string (environment p) "dev"
    /\ env ∈ environments
    /\ lambdas d
       = LambdaConstruct env ("Recommendations-" ++ env) topicArn
           (or_string (bedrockModelId p) "anthropic.claude-3-sonnet-20240229-v1:0")
    /\ (exists cfg, api d = Config cfg /\ assoc env apiConfig = Some cfg)
    /\ grants d = _grantPermissions
    /\ exists arn, cognitoUserPoolArn p = Some arn /\ _isValidArn arn = true
                   /\ _parseArn arn = inr (userPool d).
Proof.
  assert (Hdev : "dev"%string <> EmptyString) by discriminate.
  unfold ServerlessBackendStack, _validateProps.
  destruct props as [p|]; [|intros Habs; discriminate Habs].
  pose proof (CognitoAuthorizerConstruct_spec (cognitoUserPoolArn p)) as Hauth.
  pose proof (ApiGatewayConstruct_spec (or_string (environment p) "dev")
                (or_string_nonempty _ _ Hdev)) as Hapi.
  destruct (missing (cognitoUserPoolArn p)); [intros Habs; discriminate Habs|].
  destruct (ApiGatewayConstruct _) as [e|looked]; [intros Habs; discriminate Habs|].
  destruct (CognitoAuthorizerConstruct _) as [e|pool];
    [intros Habs; discriminate Habs|].
  intros Hd. apply inr_eq in Hd. subst d. cbn [lambdas api grants userPool].
  destruct Hapi as [Henv Hcfg].
  exists p, (or_string (environment p) "dev").
  rewrite (or_string_idem _ _ Hdev).
  split; [reflexivity|]. split; [reflexivity|]. split; [exact Henv|].
  split; [reflexivity|]. split; [exact Hcfg|]. split; [reflexivity | exact Hauth].
Qed.

(** X22. The entry point deploys the dev environment and no other: it
    passes the stack the user-pool ARN only, so whenever it constructs a
    stack, every function runs with NODE_ENV "dev" on the table
    "Recommendations-dev", the worker uses the default model, and the API
    has the dev configuration (the localhost origins); the ARN used is
    the one of the CDK context when there is one, else the one of the
    environment variable, and it is well formed. *)
Theorem app_deploys_the_dev_environment (context variable : option string)
    (topicArn : string) (d : Deployment) :
  app context variable topicArn = inr d ->
  (forall f, NODE_ENV (lambdas d f) = "dev"%string
             /\ DYNAMODB_TABLE_NAME (lambdas d f) = "Recommendations-dev"%string)
  /\ SNS_TOPIC_ARN (lambdas d PostFeedback) = Some topicArn
  /\ BEDROCK_MODEL_ID (lambdas d ProcessFeedback)
     = Some "anthropic.claude-3-sonnet-20240229-v1:0"%string
  /\ (exists cfg, api d = Config cfg
                  /\ allowOrigins cfg
                     = ["http://localhost:3000"; "http://localhost:3001"]%string)
  /\ exists arn,
       (if missing context then variable else context) = Some arn
       /\ _isValidArn arn = true.
Proof.
  unfold app.
  set (chosen := if missing context then variable else context).
  destruct (missing chosen) eqn:Hmissing; [intros Habs; discriminate Habs|].
  intros Hd.
  destruct (stack_constructed _ _ _ Hd)
    as (p & env & [= <-] & -> & _ & Hl & (cfg & Hcfg & Hassoc) & _
        & (arn & Harn & Hvalid & _)).
  cbn [cognitoUserPoolArn environment bedrockModelId or_string]
    in Hl, Hassoc, Harn.
  split; [intros f; rewrite Hl; destruct f; split; reflexivity|].
  split; [rewrite Hl; reflexivity|]. split; [rewrite Hl; reflexivity|].
  split; [|eauto].
  exists cfg. split; [exact Hcfg|].
  cbn in Hassoc. injection Hassoc as <-. reflexivity.
Qed.

(** X23. No deployment of this stack exposes error details: the handlers
    add [details] to a 500 response only when NODE_ENV is "development",
    and the stack sets NODE_ENV to dev, staging or prod.  So in a function
    of a constructed stack the body of every 500 response is exactly the
    error and the message. *)
Theorem deployed_handlers_never_expose_details (props : option StackProps)
    (topicArn : string) (d : Deployment) (f : LambdaFunction) (E : Cloud.Env)
    (msg : string) (e : Exn) :
  ServerlessBackendStack props topicArn = inr d ->
  Cloud.NODE_ENV E = NODE_ENV (lambdas d f) ->
  Cloud.internal_error E msg e
  = {| Cloud.statusCode := 500;
       Cloud.response_body :=
         VObj [("error", VStr "Internal Server Error"); ("message", VStr msg)] |}.
Proof.
  intros Hd HE.
  destruct (stack_constructed props topicArn d Hd)
    as (p & env & _ & _ & Hin & Hl & _).
  assert (Henv : Cloud.NODE_ENV E = env) by (rewrite HE, Hl; destruct f; reflexivity).
  unfold Cloud.internal_error. rewrite Henv.
  replace (String.eqb env "development") with false; [reflexivity|].
  symmetry. apply String.eqb_neq. intros ->. unfold environments in Hin.
  repeat (apply elem_of_cons in Hin as [Hin | Hin]; [discriminate Hin|]).
  by apply elem_of_nil in Hin.
Qed.

End StackProperties.

(* ===================================================================== *)
(** ** The further properties on concrete inputs *)
(* ===================================================================== *)

Section MoreInstances.
Import JS Cloud Examples MoreExamples.

Lemma anonymous_caller_is_refused_witness :
  PostFeedback.handler (RT := Node.runtime) env anonymous_request world0
  = (inr unauthorized, world0)
  /\ GetRecommendations.handler env anonymous_request world0
     = (inr unauthorized, world0)
  /\ SearchRecommendations.handler (RT := Node.runtime) env anonymous_request world0
     = (inr unauthorized, world0)
  /\ UpdateRecommendation.handler (RT := Node.runtime) env anonymous_request world0
     = (inr unauthorized, world0)
  /\ DeleteRecommendations.handler env anonymous_request world0
     = (inr unauthorized, world0).
Proof.
  apply (anonymous_caller_is_refused (RT := Node.runtime) env anonymous_request
           world0).
  reflexivity.
Defined.

Lemma list_returns_own_records_newest_first_witness :
  exists rows w',
    GetRecommendations.handler env (delete_request_of "U1") (with_table small_table)
    = (inr {| statusCode := 200;
              response_body :=
                VObj [("recommendations", VArr (map VObj (map snd rows)));
                      ("count", VNum (Z.of_nat (length rows)))] |}, w')
    /\ records_of "U1" small_table rows
    /\ newest_first rows.
Proof.
  apply (list_returns_own_records_newest_first env (delete_request_of "U1") "U1"
           (with_table small_table)).
  - reflexivity.
  - discriminate.
  - intros c. reflexivity.
Defined.

(** The general records not completed that carry a or b, searched and
    listed. *)
Lemma search_returns_part_of_the_list_witness :
  exists items listing w1 w2,
    SearchRecommendations.handler (RT := Node.runtime) env
      (search_request plain_query) (with_table small_table)
    = (inr (SearchRecommendations.found items plain_query), w2)
    /\ GetRecommendations.handler env (search_request plain_query)
         (with_table small_table)
       = (inr (GetRecommendations.listed listing), w1)
    /\ sublist items listing.
Proof.
  destruct (search_returns_part_of_the_list (RT := Node.runtime) env
              (search_request plain_query) (with_table small_table))
    as (resp & w2 & lresp & w1 & Hsearch & Hlist & Hsub).
  assert (Hs : match fst (SearchRecommendations.handler (RT := Node.runtime) env
                            (search_request plain_query) (with_table small_table))
               with
               | inr r => statusCode r
               | inl _ => 0%Z
               end = 200%Z) by (vm_compute; reflexivity).
  assert (Hl : match fst (GetRecommendations.handler env
                            (search_request plain_query) (with_table small_table))
               with
               | inr r => statusCode r
               | inl _ => 0%Z
               end = 200%Z) by (vm_compute; reflexivity).
  rewrite Hsearch in Hs. rewrite Hlist in Hl. cbn [fst] in Hs, Hl.
  destruct (Hsub Hs Hl) as (items & listing & Hresp & Hlresp & Hpart).
  exists items, listing, w1, w2.
  rewrite Hsearch, Hlist, Hresp, Hlresp. auto.
Defined.

Lemma completed_other_than_true_means_false_witness :
  SearchRecommendations.query_input (RT := Node.runtime) "U1"
    (<["completed" := ""%string]> tags_query)
  = SearchRecommendations.query_input (RT := Node.runtime) "U1"
      (<["completed" := "false"%string]> tags_query).
Proof.
  apply (completed_other_than_true_means_false (RT := Node.runtime) "U1" ""
           tags_query).
  discriminate.
Defined.

Lemma malformed_update_is_rejected_unseen_witness :
  exists msg,
    UpdateRecommendation.handler (RT := Node.runtime) env misaddressed_update
      (with_table small_table)
    = (inr (error_response 400 "Bad Request" msg), with_table small_table).
Proof.
  apply (malformed_update_is_rejected_unseen (RT := Node.runtime) env
           misaddressed_update "U1" (with_table small_table)).
  - reflexivity.
  - discriminate.
  - left. reflexivity.
Defined.

Lemma generated_recommendations_are_well_formed_witness :
  exists recs w',
    ProcessFeedback.generateRecommendations (RT := Node.runtime) env_object_third
      (VStr "Response times are slow") world0
    = (inr recs, w')
    /\ Forall well_formed_recommendation recs
    /\ bedrock_log w'
       = [ProcessFeedback.invoke_input env_object_third "Response times are slow"]
    /\ table w' = ∅ /\ dynamo_log w' = [] /\ sns_log w' = [].
Proof.
  apply (generated_recommendations_are_well_formed (RT := Node.runtime)
           env_object_third (VStr "Response times are slow")
           "Response times are slow" world0).
  reflexivity.
Defined.

Lemma worker_rejection_is_first_failure_witness :
  fst (ProcessFeedback.handler (RT := Node.runtime) env broken_batch world0)
  = inl Node.syntax_error
  /\ exists done record rest results w1,
       broken_batch = done ++ record :: rest
       /\ ProcessFeedback.handler (RT := Node.runtime) env done world0
          = (inr {| statusCode := 200;
                    response_body := ProcessFeedback.results_value results |}, w1)
       /\ ProcessFeedback.process_record (RT := Node.runtime) env record results w1
          = (inl Node.syntax_error,
             snd (ProcessFeedback.handler (RT := Node.runtime) env broken_batch
                    world0)).
Proof.
  assert (Hrej : fst (ProcessFeedback.handler (RT := Node.runtime) env
                        broken_batch world0) = inl Node.syntax_error)
    by (vm_compute; reflexivity).
  split; [exact Hrej|].
  apply (worker_rejection_is_first_failure (RT := Node.runtime) env broken_batch
           world0 Node.syntax_error Hrej).
Defined.

Lemma redelivery_replaces_the_record_witness :
  exists item w',
    ProcessFeedback.handler (RT := Node.runtime) env [record1]
      (with_table table_with_completed)
    = (inr {| statusCode := 200;
              response_body :=
                ProcessFeedback.results_value
                  {| ProcessFeedback.successful :=
                       [ProcessFeedback.successful_entry "m1" (VStr "U1")];
                     ProcessFeedback.failed := [] |} |}, w')
    /\ table w' !! ("U1"%string, 1001%Z) = Some item
    /\ fresh_item item
    /\ assoc "originalFeedback" item = Some (VStr "Response times are slow")
    /\ (forall k, k <> ("U1"%string, 1001%Z) ->
          table w' !! k = table_with_completed !! k)
    /\ (is_Some (table_with_completed !! ("U1"%string, 1001%Z)) ->
        dom (table w') = dom table_with_completed).
Proof.
  apply (redelivery_replaces_the_record (RT := Node.runtime) env record1
           (submission "U1" "Response times are slow" 1001)
           (VStr "Response times are slow") "U1" "Response times are slow" 1001
           (with_table table_with_completed)).
  - exact record1_delivers.
  - reflexivity.
  - discriminate.
  - reflexivity.
  - reflexivity.
  - reflexivity.
  - reflexivity.
  - discriminate.
  - intros c. reflexivity.
Defined.

Lemma delete_is_idempotent_witness :
  exists resp w1 w2,
    DeleteRecommendations.handler env (delete_request_of "U1")
      (with_table small_table)
    = (inr resp, w1)
    /\ statusCode resp = 200%Z
    /\ DeleteRecommendations.handler env (delete_request_of "U1") w1
       = (inr (DeleteRecommendations.deleted "No recommendations to delete" 0), w2)
    /\ table w2 = table w1
    /\ dynamo_log w2
       = dynamo_log w1 ++ [QueryCommand (DeleteRecommendations.keys_query "U1")].
Proof.
  apply (delete_is_idempotent env (delete_request_of "U1") "U1"
           (with_table small_table)).
  - reflexivity.
  - discriminate.
  - intros n c. reflexivity.
Defined.

Lemma small_table_wf : table_wf small_table.
Proof.
  apply map_Forall_to_list. unfold small_table.
  rewrite map_to_list_to_map.
  - repeat constructor.
  - vm_compute. repeat constructor; intros H; vm_compute in H;
      repeat (apply elem_of_cons in H as [H | H]; [discriminate H|]);
      by apply elem_of_nil in H.
Qed.

Lemma stored_items_carry_their_key_witness :
  table_wf small_table
  /\ table_wf (table (snd (PostFeedback.handler (RT := Node.runtime) env
                             good_request (with_table small_table))))
  /\ table_wf (table (snd (ProcessFeedback.handler (RT := Node.runtime) env
                             [record1] (with_table small_table))))
  /\ table_wf (table (snd (GetRecommendations.handler env good_request
                             (with_table small_table))))
  /\ table_wf (table (snd (SearchRecommendations.handler (RT := Node.runtime) env
                             good_request (with_table small_table))))
  /\ table_wf (table (snd (UpdateRecommendation.handler (RT := Node.runtime) env
                             good_request (with_table small_table))))
  /\ table_wf (table (snd (DeleteRecommendations.handler env good_request
                             (with_table small_table)))).
Proof.
  split; [exact small_table_wf|].
  apply (stored_items_carry_their_key (RT := Node.runtime) env good_request
           [record1] (with_table small_table)).
  exact small_table_wf.
Defined.


(** *** Searching and updating *)

Lemma small_table_text (ts : Z) (item : Item) :
  small_table !! ("U1"%string, ts) = Some item -> feedback_is_text item.
Proof.
  intros Hl. unfold small_table in Hl. apply elem_of_list_to_map_2 in Hl.
  unfold stored in Hl.
  repeat (apply elem_of_cons in Hl as [Hl | Hl];
          [first [ discriminate Hl
                 | injection Hl as _ ->; eexists; reflexivity ]|]).
  by apply elem_of_nil in Hl.
Qed.

Lemma search_succeeds_on_text_feedback_witness :
  exists items w',
    SearchRecommendations.handler (RT := Node.runtime) env
      (search_request tags_query) (with_table small_table)
    = (inr (SearchRecommendations.found items tags_query), w')
    /\ forall item, item ∈ items ->
         exists ts, small_table !! ("U1"%string, ts) = Some item.
Proof.
  apply (search_succeeds_on_text_feedback (RT := Node.runtime) env
           (search_request tags_query) "U1" (with_table small_table)).
  - reflexivity.
  - discriminate.
  - intros c. reflexivity.
  - vm_compute. reflexivity.
  - exact small_table_text.
Defined.

Lemma non_boolean_completed_hides_the_record_witness :
  exists item' w',
    UpdateRecommendation.handler (RT := Node.runtime) env
      (update_request (VObj [("completed", VStr "true")]))
      (with_table small_table)
    = (inr (UpdateRecommendation.updated (Some item')), w')
    /\ table w' !! ("U1"%string, 1700000000000%Z) = Some item'
    /\ assoc "completed" item' = Some (VStr "true")
    /\ forall (q : gmap string string) (c : string),
         q !! "completed" = Some c ->
         eval_filter
           (SearchRecommendations.filterExpressions (RT := Node.runtime) q) item'
         = false.
Proof.
  apply (non_boolean_completed_hides_the_record (RT := Node.runtime) env
           (update_request (VObj [("completed", VStr "true")]))
           "U1" 1700000000000 (VObj [("completed", VStr "true")]) (VStr "true")
           (snd (stored "U1" 1700000000000 "general" ["a"; "x"] false))
           (with_table small_table)).
  - reflexivity.
  - discriminate.
  - reflexivity.
  - discriminate.
  - vm_compute. reflexivity.
  - reflexivity.
  - discriminate.
  - vm_compute. reflexivity.
  - intros n c. reflexivity.
Defined.

Lemma updated_record_is_listed_witness :
  exists item' w1 rows w2,
    UpdateRecommendation.handler (RT := Node.runtime) env
      (update_request (VObj [("completed", VBool true)]))
      (with_table small_table)
    = (inr (UpdateRecommendation.updated (Some item')), w1)
    /\ GetRecommendations.handler env
         (update_request (VObj [("completed", VBool true)])) w1
       = (inr (GetRecommendations.listed (map snd rows)), w2)
    /\ newest_first rows
    /\ forall k it,
         (k, it) ∈ rows
         <-> (k = ("U1"%string, 1700000000000%Z) /\ it = item')
             \/ (k <> ("U1"%string, 1700000000000%Z)
                 /\ small_table !! k = Some it /\ fst k = "U1"%string).
Proof.
  apply (updated_record_is_listed (RT := Node.runtime) env
           (update_request (VObj [("completed", VBool true)]))
           "U1" 1700000000000 (VObj [("completed", VBool true)])
           (snd (stored "U1" 1700000000000 "general" ["a"; "x"] false))
           (with_table small_table)).
  - reflexivity.
  - discriminate.
  - reflexivity.
  - discriminate.
  - vm_compute. reflexivity.
  - discriminate.
  - vm_compute. reflexivity.
  - reflexivity.
  - intros n c. reflexivity.
Defined.

(** *** The stack *)

Lemma valid_arn_always_parses_witness :
  exists region account poolId,
    Stack._parseArn pool_arn = inr (region, poolId)
    /\ pool_arn = ("arn:aws:cognito-idp:" ++ region ++ ":" ++ account
                   ++ ":userpool/" ++ poolId)%string
    /\ String.length account = 12
    /\ region <> EmptyString /\ poolId <> EmptyString.
Proof.
  apply (valid_arn_always_parses pool_arn).
  vm_compute. reflexivity.
Defined.

Lemma stack_is_constructed_iff_witness :
  exists d, Stack.ServerlessBackendStack (Some stack_props) (SNS_TOPIC_ARN env)
            = inr d.
Proof.
  apply (stack_is_constructed_iff stack_props (SNS_TOPIC_ARN env)).
  split.
  - exists pool_arn. split; [reflexivity | vm_compute; reflexivity].
  - vm_compute. repeat constructor.
Defined.

Lemma dev_deployment_constructed :
  Stack.ServerlessBackendStack (Some stack_props) (SNS_TOPIC_ARN env)
  = inr dev_deployment.
Proof. vm_compute. reflexivity. Qed.

Lemma app_deploys_the_dev_environment_witness :
  (forall f, Stack.NODE_ENV (Stack.lambdas dev_deployment f) = "dev"%string
             /\ Stack.DYNAMODB_TABLE_NAME (Stack.lambdas dev_deployment f)
                = "Recommendations-dev"%string)
  /\ Stack.SNS_TOPIC_ARN (Stack.lambdas dev_deployment Stack.PostFeedback)
     = Some (SNS_TOPIC_ARN env)
  /\ Stack.BEDROCK_MODEL_ID (Stack.lambdas dev_deployment Stack.ProcessFeedback)
     = Some "anthropic.claude-3-sonnet-20240229-v1:0"%string
  /\ (exists cfg, Stack.api dev_deployment = Stack.Config cfg
                  /\ Stack.allowOrigins cfg
                     = ["http://localhost:3000"; "http://localhost:3001"]%string)
  /\ exists arn,
       (if Stack.missing None then Some pool_arn else None) = Some arn
       /\ Stack._isValidArn arn = true.
Proof.
  apply (app_deploys_the_dev_environment None (Some pool_arn) (SNS_TOPIC_ARN env)
           dev_deployment).
  vm_compute. reflexivity.
Defined.

Lemma deployed_handlers_never_expose_details_witness :
  internal_error env "Failed to submit feedback for processing"
    (mkExn ServiceException "ThrottlingException")
  = {| statusCode := 500;
       response_body :=
         VObj [("error", VStr "Internal Server Error");
               ("message", VStr "Failed to submit feedback for processing")] |}.
Proof.
  apply (deployed_handlers_never_expose_details (Some stack_props)
           (SNS_TOPIC_ARN env) dev_deployment Stack.PostFeedback env).
  - exact dev_deployment_constructed.
  - reflexivity.
Defined.

End MoreInstances.
